(** * ENEM question compiler: filter pipeline and inline markup

    A shallow embedding of the question-selection pipeline of [main.py]
    (class [ProcessadorQuestoes], method [AplicacaoENEM._processar_questoes]),
    of the exam-code table of [ListaProva.py] and of the inline markup
    formatter of [config_docx.py] (class [ParagraphFormatter]).  Further
    modules embed the form of [entradas.py] (class [InterfaceEntradas]),
    the column and border settings of [config_docx.py] (class
    [DocumentFormatter]), the file name of the download
    ([AplicacaoENEM._salvar_e_baixar]) and the year reader of
    [pdf_question_extractor.py].

    Conventions of the embedding.
    - A pandas [DataFrame] is the list of its rows, in row order; index
      labels play no part in the code modelled here.
    - A float column is [option Q]: [None] is NaN, and a finite double is
      the rational it denotes, so that comparisons are exact.
    - Python text is a [string] of ASCII characters.
    - [int] raises [ValueError] on a numeral of more than 4300 digits, the
      default limit of CPython; where a function returns an [option] for
      that reason, [None] stands for the [ValueError].
    - [logger] calls append an [Evento] to a log threaded through the run,
      and a Python exception is the [Raise] outcome of the monad [M].
    - The widgets of the Streamlit page are the record [Tela] of the values
      they return in one run of the script. *)

From Stdlib Require Import String Ascii List Bool Arith ZArith QArith Lia Lqa.
From Stdlib Require Import DecimalString Qround OrderedTypeEx.
From Stdlib Require Import Permutation Sorted.
From Stdlib Require Import DecimalPos DecimalZ.
Import ListNotations.

Close Scope Q_scope.
Open Scope nat_scope.

(* ================================================================== *)
(** * Part I: definitions *)
(* ================================================================== *)

(** ** Python built-ins on ASCII text *)

Module Py.
Local Open Scope string_scope.

(** [str.isspace] on one ASCII character: TAB, LF, VT, FF, CR, the four
    separators 0x1c..0x1f and the space. *)
Definition isspace (c : ascii) : bool :=
  let n := nat_of_ascii c in
  (Nat.leb 9 n && Nat.leb n 13) || (Nat.leb 28 n && Nat.leb n 32).

Fixpoint lstrip (s : string) : string :=
  match s with
  | String c s' => if isspace c then lstrip s' else s
  | EmptyString => EmptyString
  end.

Fixpoint rstrip (s : string) : string :=
  match s with
  | String c s' =>
      match rstrip s' with
      | EmptyString => if isspace c then EmptyString else String c EmptyString
      | r => String c r
      end
  | EmptyString => EmptyString
  end.

(** [s.strip()] *)
Definition strip (s : string) : string := rstrip (lstrip s).

(** [s[n:]] *)
Fixpoint drop (n : nat) (s : string) : string :=
  match n, s with
  | S k, String _ s' => drop k s'
  | _, _ => s
  end.

(** [s[a:b]] for [a <= b <= len(s)] *)
Definition slice (s : string) (a b : nat) : string := substring a (b - a) s.

(** [s.startswith(p)] *)
Definition startswith (s p : string) : bool := prefix p s.

(** [s.split()]: the maximal runs of non-whitespace characters. *)
Fixpoint split_aux (cur : string) (s : string) : list string :=
  match s with
  | EmptyString => match cur with EmptyString => [] | _ => [cur] end
  | String c s' =>
      if isspace c
      then match cur with
           | EmptyString => split_aux EmptyString s'
           | _ => cur :: split_aux EmptyString s'
           end
      else split_aux (String.append cur (String c EmptyString)) s'
  end.

Definition split (s : string) : list string := split_aux EmptyString s.

Definition digito (c : ascii) : bool :=
  let n := nat_of_ascii c in Nat.leb 48 n && Nat.leb n 57.

Fixpoint todos_digitos (s : string) : bool :=
  match s with
  | EmptyString => true
  | String c s' => digito c && todos_digitos s'
  end.

(** [s.isdigit()]: non-empty and made of decimal digits. *)
Definition isdigit (s : string) : bool :=
  match s with
  | EmptyString => false
  | _ => todos_digitos s
  end.

Fixpoint int_aux (acc : Z) (s : string) : Z :=
  match s with
  | EmptyString => acc
  | String c s' => int_aux (10 * acc + (Z.of_nat (nat_of_ascii c) - 48))%Z s'
  end.

(** [int(s)] for a string that passed [isdigit]. *)
Definition int (s : string) : Z := int_aux 0%Z s.

(** [sys.get_int_max_str_digits()]: the number of digits up to which
    CPython converts a decimal numeral, at its default. *)
Definition INT_MAX_STR_DIGITS : nat := 4300.

(** [int(s)] for an ASCII string that passed [isdigit], with the
    [ValueError] of a numeral over the limit, leading zeros counted;
    [None] stands for the [ValueError]. *)
Definition int_digitos (s : string) : option Z :=
  if Nat.ltb INT_MAX_STR_DIGITS (String.length s) then None else Some (int s).

(** [s.isascii()] *)
Fixpoint isascii (s : string) : bool :=
  match s with
  | EmptyString => true
  | String c s' => Nat.ltb (nat_of_ascii c) 128 && isascii s'
  end.

(** [str(z)] for an integer: its decimal numeral. *)
Definition str (z : Z) : string := NilZero.string_of_int (Z.to_int z).

(** [sep.join(l)] *)
Fixpoint join (sep : string) (l : list string) : string :=
  match l with
  | [] => EmptyString
  | [x] => x
  | x :: l' => String.append x (String.append sep (join sep l'))
  end.

(** The digits of an integer literal, underscores allowed between two
    digits only; [antes] tells whether the previous character was a
    digit. *)
Fixpoint literal_aux (antes : bool) (s : string) : option string :=
  match s with
  | EmptyString => if antes then Some EmptyString else None
  | String c s' =>
      if digito c then option_map (String c) (literal_aux true s')
      else if Ascii.eqb c "_"%char && antes then literal_aux false s'
      else None
  end.

(** [int(s)] for an arbitrary string: surrounding whitespace, an optional
    sign, decimal digits; [None] stands for the [ValueError]. *)
Definition int_str (s : string) : option Z :=
  let t := strip s in
  let '(negativo, corpo) :=
    match t with
    | String "-"%char r => (true, r)
    | String "+"%char r => (false, r)
    | _ => (false, t)
    end in
  match literal_aux false corpo with
  | Some ds => Some (if negativo then (- int ds)%Z else int ds)
  | None => None
  end.

End Py.

(** ** config_docx.py: ParagraphFormatter *)

Module ConfigDocx.
Local Open Scope string_scope.

(** A python-docx run: its text and the four character formats the
    formatter may set ([run.bold], [run.italic], [run.font.subscript],
    [run.font.superscript]); [false] is the unset default. *)
Record Run : Type := mkRun {
  text : string;
  bold : bool;
  italic : bool;
  subscript : bool;
  superscript : bool
}.

(** [par.add_run(texto)] creates a run without any format. *)
Definition add_run (texto : string) : Run := mkRun texto false false false false.

Definition set_bold (r : Run) : Run :=
  mkRun (text r) true (italic r) (subscript r) (superscript r).
Definition set_subscript (r : Run) : Run :=
  mkRun (text r) (bold r) (italic r) true (superscript r).
Definition set_italic (r : Run) : Run :=
  mkRun (text r) (bold r) true (subscript r) (superscript r).
Definition set_superscript (r : Run) : Run :=
  mkRun (text r) (bold r) (italic r) (subscript r) true.

(** [PATTERNS]: every regex has the shape [D(?:.*?)D] for a delimiter [D];
    the table keeps the delimiter and the setter, in the order of the
    dictionary literal. *)
Definition PATTERNS : list (string * (string * (Run -> Run))) :=
  [ ("bold",        ("**", set_bold));
    ("subscript",   ("__", set_subscript));
    ("italic",      ("_",  set_italic));
    ("superscript", ("^",  set_superscript)) ].

Definition nova_linha : ascii := ascii_of_nat 10.

(** The lazy body [(?:.*?)] followed by the closing delimiter: the number
    of characters the body takes.  [.] does not match a line feed, and the
    lazy quantifier stops at the first position where the delimiter
    follows. *)
Fixpoint corpo_lazy (delim : string) (s : string) : option nat :=
  if prefix delim s then Some 0
  else match s with
       | EmptyString => None
       | String c s' =>
           if Ascii.eqb c nova_linha then None
           else option_map S (corpo_lazy delim s')
       end.

(** One pattern [D(?:.*?)D] tried at the head of [s]: the length of the
    match. *)
Definition casa_pattern (delim : string) (s : string) : option nat :=
  if prefix delim s
  then match corpo_lazy delim (Py.drop (String.length delim) s) with
       | Some k => Some (String.length delim + k + String.length delim)
       | None => None
       end
  else None.

(** [_compile_patterns]: the alternation [(p1)|(p2)|(p3)|(p4)] tried at
    the head of [s]; the first alternative that matches wins.  The result
    is the number of the capturing group and the length of the match. *)
Fixpoint casa_alternativas (grupo : nat) (delims : list string) (s : string)
  : option (nat * nat) :=
  match delims with
  | [] => None
  | d :: ds =>
      match casa_pattern d s with
      | Some n => Some (grupo, n)
      | None => casa_alternativas (S grupo) ds s
      end
  end.

Definition compiled_pattern (s : string) : option (nat * nat) :=
  casa_alternativas 1 (map (fun p => fst (snd p)) PATTERNS) s.

(** A match object: [match.span()] and the one group that took part. *)
Record Match : Type := mkMatch {
  m_start : nat;
  m_end : nat;
  m_grupo : nat
}.

(** [compiled_pattern.finditer(texto)]: the leftmost non-overlapping
    matches.  [salto] counts the characters still covered by the previous
    match; every match has at least two characters, so the scan resumes
    right after it. *)
Fixpoint finditer_aux (salto pos : nat) (s : string) : list Match :=
  match s with
  | EmptyString => []
  | String _ s' =>
      match salto with
      | S k => finditer_aux k (S pos) s'
      | O =>
          match compiled_pattern s with
          | Some (g, n) => mkMatch pos (pos + n) g :: finditer_aux (n - 1) (S pos) s'
          | None => finditer_aux 0 (S pos) s'
          end
      end
  end.

Definition finditer (texto : string) : list Match := finditer_aux 0 0 texto.

(** [$]: the end of the string, or just before a final line feed. *)
Definition no_fim (s : string) : bool :=
  String.eqb s "" || String.eqb s (String nova_linha "").

(** The alternation of [_processar_match]'s clean-up regex
    [(^\*\*|\*\*$|^__|__$|^_|_$|^\^|\^$)] tried at the head of [s]:
    the length of the match, [0] when no alternative matches.
    [inicio] tells whether [s] is the whole string. *)
Definition casa_limpeza (inicio : bool) (s : string) : nat :=
  if inicio && prefix "**" s then 2
  else if prefix "**" s && no_fim (Py.drop 2 s) then 2
  else if inicio && prefix "__" s then 2
  else if prefix "__" s && no_fim (Py.drop 2 s) then 2
  else if inicio && prefix "_" s then 1
  else if prefix "_" s && no_fim (Py.drop 1 s) then 1
  else if inicio && prefix "^" s then 1
  else if prefix "^" s && no_fim (Py.drop 1 s) then 1
  else 0.

(** [re.sub(r"(^\*\*|\*\*$|^__|__$|^_|_$|^\^|\^$)", "", s)] *)
Fixpoint limpa_aux (inicio : bool) (s : string) : string :=
  match s with
  | EmptyString => EmptyString
  | String c s1 =>
      match casa_limpeza inicio s with
      | 0 => String c (limpa_aux false s1)
      | 1 => limpa_aux false s1
      | _ => match s1 with
             | String _ s2 => limpa_aux false s2
             | EmptyString => EmptyString
             end
      end
  end.

Definition limpa (s : string) : string := limpa_aux true s.

(** [formatacoes] of [_processar_match]: group number and setter.  The
    source holds the pairs in a set; exactly one group takes part in a
    match, so the iteration order does not matter. *)
Definition formatacoes : list (nat * (Run -> Run)) :=
  [ (1, set_bold); (2, set_subscript); (3, set_italic); (4, set_superscript) ].

Fixpoint aplica_grupo (fs : list (nat * (Run -> Run))) (g : nat) (r : Run)
  : option Run :=
  match fs with
  | [] => None
  | (grupo, aplicar_formato) :: fs' =>
      if Nat.eqb grupo g then Some (aplicar_formato r) else aplica_grupo fs' g r
  end.

(** [_processar_match]: the matched text without its delimiters becomes a
    run with the format of its group; the runs of the paragraph are
    threaded as [par]. *)
Definition _processar_match (par : list Run) (texto : string) (m : Match)
  : list Run :=
  let grupo_txt := Py.slice texto (m_start m) (m_end m) in
  match aplica_grupo formatacoes (m_grupo m) (add_run (limpa grupo_txt)) with
  | Some run => (par ++ [run])%list
  | None => par
  end.

(** The [for match in finditer] loop of [_aplicar_formatacao], with the
    state [(par, last_index)]. *)
Fixpoint laco_matches (texto : string) (ms : list Match)
         (par : list Run) (last_index : nat) : list Run * nat :=
  match ms with
  | [] => (par, last_index)
  | m :: ms' =>
      let par1 :=
        if Nat.ltb last_index (m_start m)
        then (par ++ [add_run (Py.slice texto last_index (m_start m))])%list
        else par in
      laco_matches texto ms' (_processar_match par1 texto m) (m_end m)
  end.

(** [_aplicar_formatacao(par, texto)] on a paragraph whose runs are [par]. *)
Definition _aplicar_formatacao (par : list Run) (texto : string) : list Run :=
  let '(par1, last_index) := laco_matches texto (finditer texto) par 0 in
  if Nat.ltb last_index (String.length texto)
  then (par1 ++ [add_run (Py.drop last_index texto)])%list
  else par1.

(** [_eh_lista_marcador] *)
Definition _eh_lista_marcador (texto : string) : bool :=
  Py.startswith texto "* \-" || Py.startswith texto "* -".

(** [re.sub(r"^\*\s*\\?-", "", texto)]: the marker, when the text starts
    with one. *)
Definition remove_marcador (texto : string) : string :=
  match texto with
  | String "*"%char r =>
      match Py.lstrip r with
      | String "\"%char (String "-"%char r2) => r2
      | String "-"%char r2 => r2
      | _ => texto
      end
  | _ => texto
  end.

(** [_extrair_conteudo] *)
Definition _extrair_conteudo (texto : string) : string :=
  if _eh_lista_marcador texto then Py.strip (remove_marcador texto) else texto.

(** A paragraph: its style name, when one was given, and its runs. *)
Record Paragrafo : Type := mkParagrafo {
  style : option string;
  runs : list Run
}.

(** [_criar_paragrafo_base] *)
Definition _criar_paragrafo_base (texto : string) : Paragrafo :=
  if _eh_lista_marcador texto
  then mkParagrafo (Some "List Bullet") []
  else mkParagrafo None [].

(** [adicionar_paragrafo_formatado]: the paragraph appended to the
    document. *)
Definition adicionar_paragrafo_formatado (texto : string) : Paragrafo :=
  let texto_strip := Py.strip texto in
  let par := _criar_paragrafo_base texto_strip in
  let conteudo := _extrair_conteudo texto_strip in
  mkParagrafo (style par) (_aplicar_formatacao (runs par) conteudo).

(** Whether [sub] occurs in [s]. *)
Fixpoint contem (sub s : string) : bool :=
  prefix sub s
  || match s with
     | String _ s' => contem sub s'
     | EmptyString => false
     end.

(** A text with none of the delimiters [**], [__], [_], [^]. *)
Definition sem_delimitadores (s : string) : Prop :=
  contem "**" s = false /\ contem "__" s = false /\
  contem "_" s = false /\ contem "^" s = false.

(** The number of occurrences of a character. *)
Fixpoint conta (c : ascii) (s : string) : nat :=
  match s with
  | EmptyString => 0
  | String c' s' => (if Ascii.eqb c c' then 1 else 0) + conta c s'
  end.

(** A run that carries no format. *)
Definition sem_formato (r : Run) : Prop :=
  bold r = false /\ italic r = false /\ subscript r = false /\ superscript r = false.

(** The text up to its first line feed: what the body [(?:.*?)] of a
    pattern may run over. *)
Fixpoint ate_nova_linha (s : string) : string :=
  match s with
  | EmptyString => EmptyString
  | String c s' =>
      if Ascii.eqb c nova_linha then EmptyString else String c (ate_nova_linha s')
  end.

(** The end of [_aplicar_formatacao], after the loop: the text left after
    the last match is one more run. *)
Definition termina (texto : string) (estado : list Run * nat) : list Run :=
  let '(par1, last_index) := estado in
  if Nat.ltb last_index (String.length texto)
  then (par1 ++ [add_run (Py.drop last_index texto)])%list
  else par1.

End ConfigDocx.

(** ** ListaProva.py *)

Module ListaProva.
Local Open Scope string_scope.
Local Open Scope Z_scope.

(** [provas_regulares]: year, then subject, to the code of the reference
    exam. *)
Definition provas_regulares : list (string * list (string * Z)) :=
  [ ("2009", [("CH", 53);   ("CN", 49);   ("MT", 63);   ("LC", 59)]);
    ("2010", [("CH", 85);   ("CN", 89);   ("MT", 99);   ("LC", 95)]);
    ("2011", [("CH", 117);  ("CN", 121);  ("MT", 131);  ("LC", 127)]);
    ("2012", [("CH", 137);  ("CN", 141);  ("MT", 151);  ("LC", 147)]);
    ("2013", [("CH", 167);  ("CN", 171);  ("MT", 181);  ("LC", 177)]);
    ("2014", [("CH", 195);  ("CN", 199);  ("MT", 209);  ("LC", 205)]);
    ("2015", [("CH", 231);  ("CN", 235);  ("MT", 245);  ("LC", 241)]);
    ("2016", [("CH", 295);  ("CN", 291);  ("MT", 303);  ("LC", 299)]);
    ("2017", [("CH", 395);  ("CN", 391);  ("MT", 403);  ("LC", 399)]);
    ("2018", [("CH", 451);  ("CN", 447);  ("MT", 459);  ("LC", 455)]);
    ("2019", [("CH", 507);  ("CN", 503);  ("MT", 515);  ("LC", 511)]);
    ("2020", [("CH", 567);  ("CN", 597);  ("MT", 587);  ("LC", 577)]);
    ("2021", [("CH", 879);  ("CN", 909);  ("MT", 899);  ("LC", 889)]);
    ("2022", [("CH", 1055); ("CN", 1085); ("MT", 1075); ("LC", 1065)]);
    ("2023", [("CH", 1191); ("CN", 1221); ("MT", 1211); ("LC", 1201)]);
    ("2024", [("CH", 1383); ("CN", 1419); ("MT", 1407); ("LC", 1395)]) ].

End ListaProva.

(** ** pandas: the operations the pipeline uses *)

Module Pandas.

Section Ordenacao.
Context {A : Type}.
Variable le : A -> A -> bool.

Fixpoint insere (x : A) (l : list A) : list A :=
  match l with
  | [] => [x]
  | y :: l' => if le x y then x :: l else y :: insere x l'
  end.

(** [df.sort_values(key)]: the rows in ascending order of the key.  The
    model is a stable insertion sort; the default algorithm of pandas does
    not promise an order among rows with equal keys, and the theorems
    below rely on nothing but the result being an ordered permutation. *)
Fixpoint sort_values (df : list A) : list A :=
  match df with
  | [] => []
  | x :: df' => insere x (sort_values df')
  end.

End Ordenacao.

(** Ascending order of a float key, NaN last ([na_position='last']). *)
Definition le_float (a b : option Q) : bool :=
  match a, b with
  | Some x, Some y => Qle_bool x y
  | Some _, None => true
  | None, Some _ => false
  | None, None => true
  end.

(** Ascending order of category codes, NaN last. *)
Definition le_codigo (a b : option nat) : bool :=
  match a, b with
  | Some x, Some y => Nat.leb x y
  | Some _, None => true
  | None, Some _ => false
  | None, None => true
  end.

(** [serie.isin(valores)] on an integer column. *)
Definition isin (x : Z) (valores : list Z) : bool := existsb (Z.eqb x) valores.

(** [serie.isin(valores)] on a text column. *)
Definition isin_str (x : string) (valores : list string) : bool :=
  existsb (String.eqb x) valores.

(** [serie.isin(valores)] on a float column; NaN is in no list of
    numbers. *)
Definition isin_float (x : option Q) (valores : list Q) : bool :=
  match x with
  | Some v => existsb (Qeq_bool v) valores
  | None => false
  end.

(** [df.drop_duplicates(subset=[col])]: the first row of every key is
    kept; [vistos] are the keys met so far. *)
Fixpoint drop_duplicates_aux {A : Type} (col : A -> Z) (vistos : list Z)
         (df : list A) : list A :=
  match df with
  | [] => []
  | r :: df' =>
      if isin (col r) vistos then drop_duplicates_aux col vistos df'
      else r :: drop_duplicates_aux col (col r :: vistos) df'
  end.

Definition drop_duplicates {A : Type} (col : A -> Z) (df : list A) : list A :=
  drop_duplicates_aux col [] df.

(** [df.head(n)]: the first [n] rows, and all but the last [-n] rows for a
    negative [n]. *)
Definition head {A : Type} (n : Z) (df : list A) : list A :=
  if (0 <=? n)%Z then firstn (Z.to_nat n) df
  else firstn (length df - Z.to_nat (- n)) df.

(** [df.empty] *)
Definition empty {A : Type} (df : list A) : bool :=
  match df with [] => true | _ => false end.

(** The position of [x] in [categories]: the code of a categorical
    value. *)
Fixpoint codigo (categories : list Z) (x : Z) : option nat :=
  match categories with
  | [] => None
  | c :: cs => if Z.eqb x c then Some 0 else option_map S (codigo cs x)
  end.

(** Whether the categories are pairwise different. *)
Fixpoint is_unique (l : list Z) : bool :=
  match l with
  | [] => true
  | x :: l' => negb (isin x l') && is_unique l'
  end.

End Pandas.

(** ** entradas.py *)

Module Entradas.
Local Open Scope string_scope.

(** [FiltrosQuestoes]: what the form collected. *)
Record FiltrosQuestoes : Type := mkFiltrosQuestoes {
  anos : list string;
  materias : list string;
  numeros_questoes : option (list Z);
  dificuldade_minima : Z;
  dificuldade_maxima : Z;
  filtrar_por_numero : bool;
  filtrar_por_dificuldade : bool;
  filtrar_por_quantidade : bool;
  quantidade_questoes : option Z;
  filtrar_por_habilidade : bool;
  habilidades : option (list Z)
}.

Definition vazia {A : Type} (v : option (list A)) : bool :=
  match v with Some (_ :: _) => false | _ => true end.

(** [FiltrosQuestoes.validar] *)
Definition validar (f : FiltrosQuestoes) : bool * option string :=
  if Pandas.empty (anos f)
  then (false, Some "Selecione pelo menos um ano")
  else if Pandas.empty (materias f)
  then (false, Some "Selecione pelo menos uma matéria")
  else if filtrar_por_dificuldade f
          && (dificuldade_minima f >? dificuldade_maxima f)%Z
  then (false, Some "Dificuldade mínima não pode ser maior que a máxima")
  else if filtrar_por_numero f && vazia (numeros_questoes f)
  then (false, Some "Digite os números das questões ou desmarque o filtro")
  else if filtrar_por_quantidade f
          && match quantidade_questoes f with
             | Some q => (q <=? 0)%Z
             | None => true
             end
  then (false, Some "A quantidade de questões deve ser maior que zero")
  else if filtrar_por_habilidade f && vazia (habilidades f)
  then (false, Some "Digite as habilidades desejadas ou desmarque o filtro")
  else if filtrar_por_numero f && filtrar_por_quantidade f
  then (false, Some "Não é possível usar 'Selecionar por número' e 'Limitar quantidade' ao mesmo tempo")
  else (true, None).

(** The loop over the words of [_processar_numeros_questoes], carrying
    the list [numeros]: [int] is called on every word that passes
    [isdigit], and its [ValueError] leaves the loop. *)
Fixpoint laco_numeros (itens : list string) (numeros : list Z)
  : option (list Z) :=
  match itens with
  | [] => Some numeros
  | item :: resto =>
      let item_limpo := Py.strip item in
      if Py.isdigit item_limpo
      then match Py.int_digitos item_limpo with
           | Some n => laco_numeros resto (numeros ++ [n])%list
           | None => None
           end
      else laco_numeros resto numeros
  end.

(** [_processar_numeros_questoes] on an ASCII entry: the digit-only words
    of the entry, in the order typed, repeated numbers kept; the words
    set aside as invalid only feed a warning of the page.  [None] stands
    for the [ValueError] of [int], raised for a numeral over the limit. *)
Definition _processar_numeros_questoes (entrada : string) : option (list Z) :=
  laco_numeros (Py.split entrada) [].

(** Whether [int] converts every numeral among the words. *)
Definition numerais_no_limite (itens : list string) : bool :=
  forallb (fun item =>
             negb (Py.isdigit (Py.strip item))
             || Nat.leb (String.length (Py.strip item)) Py.INT_MAX_STR_DIGITS)
          itens.

(** The tuple [entradas()] returns. *)
Record Tupla : Type := mkTupla {
  t_anos : list string;
  t_materias : list string;
  t_posicoes : option string;
  t_dif_max : Z;
  t_dif_min : Z;
  t_filtrar_quantidade : bool;
  t_quantidade : option Z;
  t_filtrar_habilidade : bool;
  t_habilidades : option (list Z)
}.

(** [entradas], from the filters the form rendered. *)
Definition entradas (filtros : FiltrosQuestoes) : Tupla :=
  let posicoes_str :=
    if vazia (numeros_questoes filtros) then None
    else Some (Py.join " " (map Py.str (match numeros_questoes filtros with Some l => l | None => [] end))) in
  mkTupla (anos filtros) (materias filtros) posicoes_str
          (dificuldade_maxima filtros) (dificuldade_minima filtros)
          (filtrar_por_quantidade filtros) (quantidade_questoes filtros)
          (filtrar_por_habilidade filtros) (habilidades filtros).

End Entradas.

(** ** main.py *)

Module Main.
Import Pandas.
Local Open Scope string_scope.

(** *** Log and exceptions *)

(** The calls to [logger] of the modelled methods, one constructor per
    message. *)
Inductive Evento : Type :=
| ErroConsolidadoIndisponivel
| AvisoNenhumaQuestaoAnos (anos : list string)
| AvisoNenhumaProva (ano : string)
| AvisoAnoNaoEncontrado (ano : string)
| AvisoMateriaNaoEncontrada (materia ano : string)
| AvisoNenhumaHabilidade (habilidades : list Z)
| InfoHabilidades (encontradas : nat)
| InfoLimitado (quantidade : Z)
| AvisoJsonNaoEncontrado (ano posicao : Z)
| ErroJson (ano posicao : Z)
| AvisoDadosJson (ano posicao : Z).



Inductive Excecao : Type :=
| ValueError (msg : string).

Inductive Resultado (A : Type) : Type :=
| Ok (a : A)
| Raise (e : Excecao).
Arguments Ok {A} a.
Arguments Raise {A} e.

(** A computation that logs and may raise: it takes the log so far and
    gives its outcome and the log after it. *)
Definition M (A : Type) : Type := list Evento -> Resultado A * list Evento.

Definition ret {A : Type} (a : A) : M A := fun log => (Ok a, log).

Definition bind {A B : Type} (m : M A) (f : A -> M B) : M B :=
  fun log =>
    match m log with
    | (Ok a, log') => f a log'
    | (Raise e, log') => (Raise e, log')
    end.

Definition logger (e : Evento) : M unit := fun log => (Ok tt, (log ++ [e])%list).

Definition raise {A : Type} (e : Excecao) : M A := fun log => (Raise e, log).

Definition lift {A : Type} (r : Resultado A) : M A := fun log => (r, log).

Notation "x <- m ;; k" := (bind m (fun x => k))
  (at level 61, m at next level, right associativity).
Notation "m ;;; k" := (bind m (fun _ => k))
  (at level 61, right associativity).

(** The outcome of a computation and what it logs, from an empty log. *)
Definition resultado {A : Type} (m : M A) : Resultado A := fst (m []).
Definition registros {A : Type} (m : M A) : list Evento := snd (m []).

(** A computation that only appends to the log and whose outcome does not
    depend on the log it starts from. *)
Definition regular {A : Type} (m : M A) : Prop :=
  forall log, m log = (resultado m, (log ++ registros m)%list).

(** *** Data *)

(** One row of [ITENS_PROVA_CONSOLIDADO.csv], with the columns the
    pipeline reads. *)
Record Linha : Type := mkLinha {
  ANO_PROVA : Z;
  SG_AREA : string;
  CO_POSICAO : Z;
  CO_PROVA : Z;
  CO_HABILIDADE : option Q;
  NU_PARAM_B : option Q;
  TX_GABARITO : string
}.

(** A row after [carregar_questoes] added the column [ANO]. *)
Record LinhaAno : Type := mkLinhaAno {
  ANO : string;
  linha : Linha
}.

(** A row after [carregar_questoes] added the column [NUMERO_QUESTAO]. *)
Record LinhaNum : Type := mkLinhaNum {
  NUMERO_QUESTAO : Z;
  linha_ano : LinhaAno
}.

(** The dictionary [filtros]; [None] is an absent key, and for the
    entries read by their truth value a [None] value as well. *)
Record Filtros : Type := mkFiltros {
  posicoes : option string;
  min_dif : option Q;
  max_dif : option Q;
  filtrar_quantidade : option bool;
  quantidade : option Z;
  filtrar_dificuldade : option bool;
  filtrar_habilidade : option bool;
  habilidades : option (list Z)
}.

(** Python truth values of the entries of [filtros]. *)
Definition verdadeiro_str (v : option string) : bool :=
  match v with Some (String _ _) => true | _ => false end.
Definition verdadeiro_bool (v : option bool) : bool :=
  match v with Some b => b | None => false end.
Definition verdadeiro_int (v : option Z) : bool :=
  match v with Some z => negb (Z.eqb z 0) | None => false end.
Definition verdadeiro_lista {A : Type} (v : option (list A)) : bool :=
  match v with Some (_ :: _) => true | _ => false end.

(** [d.get(k, padrao)] *)
Definition get {A : Type} (v : option A) (padrao : A) : A :=
  match v with Some a => a | None => padrao end.

(** A dictionary with text keys, in insertion order. *)
Fixpoint dict_get {V : Type} (d : list (string * V)) (k : string) : option V :=
  match d with
  | [] => None
  | (k', v) :: d' => if String.eqb k k' then Some v else dict_get d' k
  end.

Fixpoint dict_set {V : Type} (d : list (string * V)) (k : string) (v : V)
  : list (string * V) :=
  match d with
  | [] => [(k, v)]
  | (k', v') :: d' =>
      if String.eqb k k' then (k', v) :: d' else (k', v') :: dict_set d' k v
  end.

Definition values {V : Type} (d : list (string * V)) : list V := map snd d.

(** *** ProcessadorQuestoes: the filters of one year *)

(** [_obter_provas_escolhidas]; the loop over [materias] carries the
    dictionary [provas]. *)
Fixpoint laco_materias (provas_ano : list (string * Z)) (ano : string)
         (materias : list string) (provas : list (string * Z))
  : M (list (string * Z)) :=
  match materias with
  | [] => ret provas
  | materia :: resto =>
      match dict_get provas_ano materia with
      | Some codigo_prova =>
          laco_materias provas_ano ano resto (dict_set provas materia codigo_prova)
      | None =>
          logger (AvisoMateriaNaoEncontrada materia ano) ;;;
          laco_materias provas_ano ano resto provas
      end
  end.

Definition _obter_provas_escolhidas (ano : string) (materias : list string)
  : M (list (string * Z)) :=
  match dict_get ListaProva.provas_regulares ano with
  | None => logger (AvisoAnoNaoEncontrado ano) ;;; ret []
  | Some provas_ano => laco_materias provas_ano ano materias []
  end.

(** [_filtrar_por_habilidade]; the column is numeric already, so the
    second [pd.to_numeric] changes nothing. *)
Definition _filtrar_por_habilidade (df : list Linha) (habilidades : list Z)
  : M (list Linha) :=
  if empty df then ret df
  else
    let habilidades_float := map inject_Z habilidades in
    let df_filtrado :=
      filter (fun r => isin_float (CO_HABILIDADE r) habilidades_float) df in
    if empty df_filtrado
    then logger (AvisoNenhumaHabilidade habilidades) ;;; ret df_filtrado
    else logger (InfoHabilidades (length df_filtrado)) ;;; ret df_filtrado.

(** The list comprehension at the head of [_filtrar_por_posicao]. *)
Definition converte_posicoes (posicoes_str : string) : list Z :=
  map (fun p => Py.int (Py.strip p))
      (filter (fun p => Py.isdigit (Py.strip p)) (Py.split posicoes_str)).

(** [_filtrar_por_posicao].  [pd.Categorical(..., categories=posicoes)]
    raises [ValueError] when the categories are not pairwise different;
    sorting the categorical column orders the rows by the place of their
    position in [posicoes]. *)
Definition _filtrar_por_posicao (df : list Linha) (posicoes_str : string)
  : Resultado (list Linha) :=
  let posicoes := converte_posicoes posicoes_str in
  if empty posicoes then Ok df
  else
    let df_filtrado :=
      drop_duplicates CO_POSICAO
        (filter (fun r => isin (CO_POSICAO r) posicoes) df) in
    if is_unique posicoes
    then Ok (sort_values
               (fun a b => le_codigo (codigo posicoes (CO_POSICAO a))
                                     (codigo posicoes (CO_POSICAO b)))
               df_filtrado)
    else Raise (ValueError "Categorical categories must be unique").

(** Comparisons of a float column with a bound; NaN satisfies none. *)
Definition menor_igual (x : option Q) (b : Q) : bool :=
  match x with Some v => Qle_bool v b | None => false end.
Definition maior_igual (x : option Q) (b : Q) : bool :=
  match x with Some v => Qle_bool b v | None => false end.

Definition por_dificuldade (a b : Linha) : bool :=
  le_float (NU_PARAM_B a) (NU_PARAM_B b).

(** [_filtrar_por_dificuldade] *)
Definition _filtrar_por_dificuldade (df : list Linha) (min_dif max_dif : Q)
  : list Linha :=
  if empty df then df
  else if Qeq_bool min_dif 0 && Qeq_bool max_dif 2000
  then sort_values por_dificuldade df
  else
    let df_filtrado :=
      if Qeq_bool min_dif 0
      then filter (fun r => menor_igual (NU_PARAM_B r) max_dif) df
      else if Qeq_bool max_dif 2000
      then filter (fun r => maior_igual (NU_PARAM_B r) min_dif) df
      else filter (fun r => maior_igual (NU_PARAM_B r) min_dif
                            && menor_igual (NU_PARAM_B r) max_dif) df in
    sort_values por_dificuldade df_filtrado.

(** [_aplicar_filtros] *)
Definition _aplicar_filtros (df : list Linha) (ano : string)
           (materias : list string) (filtros : Filtros) : M (list Linha) :=
  provas_escolhidas <- _obter_provas_escolhidas ano materias ;;
  if empty provas_escolhidas
  then logger (AvisoNenhumaProva ano) ;;; ret []
  else
    let df_base :=
      filter (fun r => isin_str (SG_AREA r) materias
                       && isin (CO_PROVA r) (values provas_escolhidas)) df in
    df_filtrado <-
      (if verdadeiro_bool (filtrar_habilidade filtros)
          && verdadeiro_lista (habilidades filtros)
       then _filtrar_por_habilidade df_base (get (habilidades filtros) [])
       else ret df_base) ;;
    if verdadeiro_str (posicoes filtros)
    then lift (_filtrar_por_posicao df_filtrado (get (posicoes filtros) ""))
    else if get (filtrar_dificuldade filtros) true
    then ret (_filtrar_por_dificuldade df_filtrado
                (get (min_dif filtros) 0%Q) (get (max_dif filtros) 2000%Q))
    else ret df_filtrado.

(** *** ProcessadorQuestoes: all the years *)

(** The order of [sort_values(["ANO", "NU_PARAM_B"])]: the text of the
    year first, the difficulty next, NaN last. *)
Definition por_ano_dificuldade (a b : LinhaAno) : bool :=
  if String.ltb (ANO a) (ANO b) then true
  else if String.eqb (ANO a) (ANO b)
  then le_float (NU_PARAM_B (linha a)) (NU_PARAM_B (linha b))
  else false.

(** [_aplicar_filtros_globais] *)
Definition _aplicar_filtros_globais (df : list LinhaAno) (filtros : Filtros)
  : M (list LinhaAno) :=
  if empty df then ret df
  else if verdadeiro_bool (filtrar_quantidade filtros)
          && verdadeiro_int (quantidade filtros)
  then
    let quantidade_max := get (quantidade filtros) 0%Z in
    if (Z.of_nat (length df) >? quantidade_max)%Z
    then
      let df_ordenado :=
        if negb (verdadeiro_str (posicoes filtros))
        then sort_values por_ano_dificuldade df
        else df in
      logger (InfoLimitado quantidade_max) ;;;
      ret (head quantidade_max df_ordenado)
    else ret df
  else ret df.

(** [anos_int = [int(ano) for ano in anos]] *)
Fixpoint converte_anos (anos : list string) : Resultado (list Z) :=
  match anos with
  | [] => Ok []
  | ano :: resto =>
      match Py.int_str ano with
      | None => Raise (ValueError "invalid literal for int() with base 10")
      | Some z =>
          match converte_anos resto with
          | Ok zs => Ok (z :: zs)
          | Raise e => Raise e
          end
      end
  end.

(** The loop over [anos_int] of [carregar_questoes], carrying
    [dataframes_anos]. *)
Fixpoint laco_anos (df_anos : list Linha) (anos_int : list Z)
         (materias : list string) (filtros : Filtros)
         (dataframes_anos : list (list LinhaAno)) : M (list (list LinhaAno)) :=
  match anos_int with
  | [] => ret dataframes_anos
  | ano :: resto =>
      let df_ano := filter (fun r => Z.eqb (ANO_PROVA r) ano) df_anos in
      df_ano_filtrado <- _aplicar_filtros df_ano (Py.str ano) materias filtros ;;
      laco_anos df_anos resto materias filtros
        (if negb (empty df_ano_filtrado)
         then (dataframes_anos ++ [map (mkLinhaAno (Py.str ano)) df_ano_filtrado])%list
         else dataframes_anos)
  end.

(** [df["NUMERO_QUESTAO"] = df.index + 1] after [reset_index]. *)
Fixpoint numera (n : Z) (df : list LinhaAno) : list LinhaNum :=
  match df with
  | [] => []
  | r :: df' => mkLinhaNum n r :: numera (n + 1)%Z df'
  end.

(** [carregar_questoes]; [df_consolidado] is the table the processor
    loaded, empty when the file could not be read. *)
Definition carregar_questoes (df_consolidado : list Linha)
           (anos materias : list string) (filtros : Filtros) : M (list LinhaNum) :=
  if empty df_consolidado
  then logger ErroConsolidadoIndisponivel ;;; ret []
  else
    anos_int <- lift (converte_anos anos) ;;
    let df_anos := filter (fun r => isin (ANO_PROVA r) anos_int) df_consolidado in
    if empty df_anos
    then logger (AvisoNenhumaQuestaoAnos anos) ;;; ret []
    else
      dataframes_anos <- laco_anos df_anos anos_int materias filtros [] ;;
      if empty dataframes_anos then ret []
      else
        let df_combinado := concat dataframes_anos in
        df_final <- _aplicar_filtros_globais df_combinado filtros ;;
        ret (numera 1%Z df_final).

(** *** Question details and assembly *)

(** A JSON value of [details.json]. *)
#[local] Unset Elimination Schemes.
Inductive Json : Type :=
| JNull
| JBool (b : bool)
| JNum (q : Q)
| JStr (s : string)
| JArr (l : list Json)
| JObj (d : list (string * Json)).
#[local] Set Elimination Schemes.

(** What [carregar_detalhes_questao] finds at
    [pasta_json/ano/questions/posicao/details.json]: no file, a file that
    does not load, or the dictionary of the file. *)
Inductive Arquivo : Type :=
| Ausente
| Invalido
| Conteudo (d : list (string * Json)).

(** [carregar_detalhes_questao] *)
Definition carregar_detalhes_questao (arquivos : Z -> Z -> Arquivo)
           (ano posicao : Z) : M (option (list (string * Json))) :=
  match arquivos ano posicao with
  | Ausente => logger (AvisoJsonNaoEncontrado ano posicao) ;;; ret None
  | Invalido => logger (ErroJson ano posicao) ;;; ret None
  | Conteudo d => ret (Some d)
  end.

Record Questao : Type := mkQuestao {
  numero : Z;
  ano : Z;
  posicao : Z;
  nota : option Q;
  habilidade : string;
  gabarito : string;
  contexto : Json;
  referencias : Json;
  introducao_alternativas : Json;
  alternativas : Json;
  arquivos_questao : Json
}.

(** [int(x)] of a float: the fraction is dropped. *)
Definition trunca (q : Q) : Z :=
  if Qle_bool 0 q then Qfloor q else Qceiling q.

(** [criar_objeto_questao] *)
Definition criar_objeto_questao (row : LinhaNum) (dados_json : list (string * Json))
           (numero ano : Z) : Questao :=
  let r := linha (linha_ano row) in
  let habilidade :=
    match CO_HABILIDADE r with
    | Some h => Py.str (trunca h)
    | None => "-"
    end in
  mkQuestao numero ano (CO_POSICAO r) (NU_PARAM_B r) habilidade (TX_GABARITO r)
    (get (dict_get dados_json "context") JNull)
    (get (dict_get dados_json "references") JNull)
    (get (dict_get dados_json "alternativesIntroduction") JNull)
    (get (dict_get dados_json "alternatives") (JArr []))
    (get (dict_get dados_json "files") (JArr [])).

(** The truth value of [dados_json]: [None] and the empty dictionary are
    false. *)
Definition verdadeiro_dados (d : option (list (string * Json))) : bool :=
  match d with Some (_ :: _) => true | _ => false end.

(** The loop of [_processar_questoes]: [idx] is the counter of
    [enumerate(df.iterrows(), start=1)]. *)
Fixpoint laco_questoes (arquivos : Z -> Z -> Arquivo) (idx : Z)
         (df : list LinhaNum) (questoes : list Questao) : M (list Questao) :=
  match df with
  | [] => ret questoes
  | row :: resto =>
      match Py.int_str (ANO (linha_ano row)) with
      | None => raise (ValueError "invalid literal for int() with base 10")
      | Some ano =>
          let posicao := CO_POSICAO (linha (linha_ano row)) in
          dados_json <- carregar_detalhes_questao arquivos ano posicao ;;
          if verdadeiro_dados dados_json
          then laco_questoes arquivos (idx + 1)%Z resto
                 (questoes ++ [criar_objeto_questao row (get dados_json []) idx ano])%list
          else logger (AvisoDadosJson ano posicao) ;;;
               laco_questoes arquivos (idx + 1)%Z resto questoes
      end
  end.

(** [AplicacaoENEM._processar_questoes] *)
Definition _processar_questoes (arquivos : Z -> Z -> Arquivo) (df : list LinhaNum)
  : M (list Questao) :=
  laco_questoes arquivos 1%Z df [].

(** What [_gerar_documento] shows: one of its messages, or the questions
    handed to [GeradorDocumento.criar_documento]. *)
Inductive Saida : Type :=
| ErroSemAno
| ErroSemMateria
| AvisoNenhumaQuestao
| ErroAoProcessar
| Compilado (questoes : list Questao).

(** [AplicacaoENEM._gerar_documento], up to the list of questions. *)
Definition _gerar_documento (df_consolidado : list Linha)
           (arquivos : Z -> Z -> Arquivo)
           (anos materias : list string) (posicoes : option string)
           (min_dif max_dif : Z) (filtrar_quantidade : bool)
           (quantidade : option Z) (filtrar_habilidade : bool)
           (habilidades : option (list Z)) : M Saida :=
  if empty anos then ret ErroSemAno
  else if empty materias then ret ErroSemMateria
  else
    let filtros :=
      mkFiltros posicoes (Some (inject_Z min_dif)) (Some (inject_Z max_dif))
                (Some filtrar_quantidade) quantidade
                (Some (negb (verdadeiro_str posicoes)))
                (Some filtrar_habilidade) habilidades in
    df_questoes <- carregar_questoes df_consolidado anos materias filtros ;;
    if empty df_questoes then ret AvisoNenhumaQuestao
    else
      questoes <- _processar_questoes arquivos df_questoes ;;
      if empty questoes then ret ErroAoProcessar
      else ret (Compilado questoes).

(** *** The orders and predicates of the properties *)

(** Ascending difficulty; a row without a numeric difficulty (NaN) comes
    after every other. *)
Definition dificuldade_le (a b : option Q) : Prop :=
  match a, b with
  | Some x, Some y => (x <= y)%Q
  | _, None => True
  | None, Some _ => False
  end.

Definition linha_le (a b : Linha) : Prop :=
  dificuldade_le (NU_PARAM_B a) (NU_PARAM_B b).

(** Ascending (year, difficulty): the text of the year decides, and the
    difficulty within one year. *)
Definition ano_dificuldade_le (a b : LinhaAno) : Prop :=
  String.ltb (ANO a) (ANO b) = true
  \/ (ANO a = ANO b /\ linha_le (linha a) (linha b)).

(** What [_filtrar_por_dificuldade] keeps: [0] as minimum and [2000] as
    maximum stand for no bound; with both nothing is compared, with one of
    them or none the difficulty has to be a number within the bounds that
    are left. *)
Definition dentro_dos_limites (min_dif max_dif : Q) (r : Linha) : Prop :=
  ((min_dif == 0)%Q /\ (max_dif == 2000)%Q)
  \/ exists d, NU_PARAM_B r = Some d
               /\ ((min_dif == 0)%Q \/ (min_dif <= d)%Q)
               /\ ((max_dif == 2000)%Q \/ (d <= max_dif)%Q).

(** The first row of [df] at position [p], in storage order. *)
Definition primeira_linha (df : list Linha) (p : Z) : option Linha :=
  find (fun r => Z.eqb (CO_POSICAO r) p) df.

(** Whether the detail lookup of a row gives a dictionary that counts as
    true. *)
Definition tem_detalhes (arquivos : Z -> Z -> Arquivo) (row : LinhaNum) : bool :=
  match Py.int_str (ANO (linha_ano row)) with
  | Some ano =>
      match arquivos ano (CO_POSICAO (linha (linha_ano row))) with
      | Conteudo (_ :: _) => true
      | _ => false
      end
  | None => false
  end.

(** The numbers [n], [n+1], ... of [len] rows. *)
Fixpoint contagem (n : Z) (len : nat) : list Z :=
  match len with
  | O => []
  | S k => n :: contagem (n + 1)%Z k
  end.

(** The code of the reference exam of a year and subject, when
    [provas_regulares] has one. *)
Definition codigo_da_prova (ano materia : string) : option Z :=
  match dict_get ListaProva.provas_regulares ano with
  | Some provas_ano => dict_get provas_ano materia
  | None => None
  end.

(** The rows of the table that belong to the reference exam of a year and
    subject. *)
Definition linhas_da_prova (tbl : list Linha) (ano : Z) (materia : string)
  : list Linha :=
  match codigo_da_prova (Py.str ano) materia with
  | Some c =>
      filter (fun r => Z.eqb (ANO_PROVA r) ano
                       && String.eqb (SG_AREA r) materia
                       && Z.eqb (CO_PROVA r) c) tbl
  | None => []
  end.

(** A request with a quantity cap [q] and neither a position filter nor
    a skill filter. *)
Definition so_quantidade (q : Z) (filtros : Filtros) : Prop :=
  verdadeiro_str (posicoes filtros) = false
  /\ verdadeiro_bool (filtrar_habilidade filtros)
     && verdadeiro_lista (habilidades filtros) = false
  /\ filtrar_quantidade filtros = Some true
  /\ quantidade filtros = Some q.

(** Whether the difficulty filter of a request without position filter
    lets a row pass: the filter is off, or the difficulty of the row is
    within the bounds in force, [0] as minimum and [2000] as maximum
    standing for no bound. *)
Definition passa_dificuldade (filtros : Filtros) (r : Linha) : bool :=
  let lo := get (min_dif filtros) 0%Q in
  let hi := get (max_dif filtros) 2000%Q in
  negb (get (filtrar_dificuldade filtros) true)
  || ((Qeq_bool lo 0 || maior_igual (NU_PARAM_B r) lo)
      && (Qeq_bool hi 2000 || menor_igual (NU_PARAM_B r) hi)).

(** The data model's link between rows and exams: a row that carries the
    code of a reference exam has the subject of that exam. *)
Definition tabela_coerente (tbl : list Linha) : Prop :=
  forall r ano materia,
    In r tbl -> codigo_da_prova ano materia = Some (CO_PROVA r) ->
    SG_AREA r = materia.

(** A request whose position filter, when it has one, lists pairwise
    different positions. *)
Definition posicoes_distintas (filtros : Filtros) : Prop :=
  verdadeiro_str (posicoes filtros) = false
  \/ NoDup (converte_posicoes (get (posicoes filtros) "")).



(** Where a returned row comes from: a requested year [y] that stamps
    it, a row of the table of that year, a requested subject, and the exam
    code of a requested subject that [provas_regulares] resolves for the
    year. *)
Definition origem (tbl : list Linha) (anos_int : list Z) (materias : list string)
           (r : LinhaAno) : Prop :=
  exists y,
    In y anos_int /\ ANO r = Py.str y
    /\ In (linha r) tbl /\ ANO_PROVA (linha r) = y
    /\ In (SG_AREA (linha r)) materias
    /\ exists m, In m materias
                 /\ codigo_da_prova (Py.str y) m = Some (CO_PROVA (linha r)).


(** [res] are the easiest of the [candidatas]: no candidate left out is
    strictly easier than a row of [res]. *)
Definition mais_faceis_de (candidatas res : list Linha) : Prop :=
  forall k r, In k res -> In r candidatas -> ~ In r res -> linha_le k r.

(** The row of a numbered row. *)
Definition linha_de_num (r : LinhaNum) : Linha := linha (linha_ano r).

(** [AplicacaoENEM.executar] once the button is pressed. *)
Definition executar (df_consolidado : list Linha) (arquivos : Z -> Z -> Arquivo)
           (form : Entradas.FiltrosQuestoes) : M Saida :=
  let t := Entradas.entradas form in
  let anos := Entradas.t_anos t in
  let materias := Entradas.t_materias t in
  let posicoes := Entradas.t_posicoes t in
  let max_dif := Entradas.t_dif_max t in
  let min_dif := Entradas.t_dif_min t in
  _gerar_documento df_consolidado arquivos anos materias posicoes min_dif max_dif
    (Entradas.t_filtrar_quantidade t) (Entradas.t_quantidade t)
    (Entradas.t_filtrar_habilidade t) (Entradas.t_habilidades t).

End Main.

(** ** Tables and requests the examples below run on *)

Module Exemplos.
Import Main.
Local Open Scope string_scope.
Local Open Scope Z_scope.

(** A row of [ano], [area] and exam [prova] at position [pos] with
    difficulty [dif]. *)
Definition linha_de (ano : Z) (area : string) (prova pos : Z) (dif : option Q)
  : Linha :=
  mkLinha ano area pos prova (Some (inject_Z 1)) dif "A".

Definition filtros_vazios : Filtros :=
  mkFiltros None None None None None None None None.

(** A request with a quantity cap and nothing else. *)
Definition filtros_quantidade (q : Z) : Filtros :=
  mkFiltros None None None (Some true) (Some q) None (Some false) None.

(** The request [_gerar_documento] builds from a form with a quantity cap
    and nothing else: the difficulty interval is the default of the form,
    1 to 2000. *)
Definition filtros_do_formulario (q : Z) : Filtros :=
  mkFiltros None (Some (inject_Z 1)) (Some (inject_Z 2000)) (Some true) (Some q)
            (Some true) (Some false) None.

(** Fifty MT rows and fifty LC rows in each of 2020 and 2021; the MT rows
    of 2020 have the difficulties 51..100, those of 2021 the difficulties
    1..50. *)
Definition tabela_dois_anos : list Linha :=
  (map (fun i => linha_de 2020 "MT" 587 (135 + i) (Some (inject_Z (50 + i))))
       (contagem 1 50)
   ++ map (fun i => linha_de 2020 "LC" 577 i (Some (inject_Z i))) (contagem 1 50)
   ++ map (fun i => linha_de 2021 "MT" 899 (135 + i) (Some (inject_Z i)))
          (contagem 1 50)
   ++ map (fun i => linha_de 2021 "LC" 889 i (Some (inject_Z i))) (contagem 1 50))%list.

(** [tabela_dois_anos] with the difficulty 1/2 in every MT row of
    2020. *)
Definition tabela_2020_facil : list Linha :=
  (map (fun i => linha_de 2020 "MT" 587 (135 + i) (Some (1 # 2)%Q))
       (contagem 1 50)
   ++ map (fun i => linha_de 2020 "LC" 577 i (Some (inject_Z i))) (contagem 1 50)
   ++ map (fun i => linha_de 2021 "MT" 899 (135 + i) (Some (inject_Z i)))
          (contagem 1 50)
   ++ map (fun i => linha_de 2021 "LC" 889 i (Some (inject_Z i))) (contagem 1 50))%list.

(** Two MT rows of 2020, at the positions 136 and 137. *)
Definition tabela_duas_linhas : list Linha :=
  [ linha_de 2020 "MT" 587 136 (Some (inject_Z 1));
    linha_de 2020 "MT" 587 137 (Some (inject_Z 2)) ].

(** Details for every question but the one at position 136 of 2020. *)
Definition arquivos_sem_136 (ano posicao : Z) : Arquivo :=
  if (ano =? 2020) && (posicao =? 136) then Ausente
  else Conteudo [("context", JStr "Enunciado")].

(** Details for every question. *)
Definition arquivos_completos (ano posicao : Z) : Arquivo :=
  Conteudo [("context", JStr "Enunciado")].

(** [tabela_duas_linhas] after a run for 2020 and MT without filters. *)
Definition questoes_duas_linhas : list LinhaNum :=
  [ mkLinhaNum 1 (mkLinhaAno "2020" (linha_de 2020 "MT" 587 136 (Some (inject_Z 1))));
    mkLinhaNum 2 (mkLinhaAno "2020" (linha_de 2020 "MT" 587 137 (Some (inject_Z 2)))) ].


(** Rows out of storage order, two of them at position 5. *)
Definition tabela_posicoes : list Linha :=
  [ linha_de 2020 "MT" 587 5 (Some (inject_Z 9));
    linha_de 2020 "MT" 587 3 (Some (inject_Z 8));
    linha_de 2020 "MT" 587 5 (Some (inject_Z 7));
    linha_de 2020 "MT" 587 7 (Some (inject_Z 6)) ].

(** Three rows of the combined table of two years. *)
Definition combinado_tres : list LinhaAno :=
  [ mkLinhaAno "2021" (linha_de 2021 "MT" 899 136 (Some (inject_Z 1)));
    mkLinhaAno "2020" (linha_de 2020 "MT" 587 137 (Some (inject_Z 3)));
    mkLinhaAno "2020" (linha_de 2020 "MT" 587 136 (Some (inject_Z 2))) ].

(** One row easier than every bound, one harder. *)
Definition tabela_extremos : list Linha :=
  [ linha_de 2020 "MT" 587 136 (Some (inject_Z (-1)));
    linha_de 2020 "MT" 587 137 (Some (inject_Z 2500)) ].

(** The form with a position typed twice and nothing else. *)
Definition formulario_repetido : Entradas.FiltrosQuestoes :=
  Entradas.mkFiltrosQuestoes ["2020"] ["MT"] (Some [136; 136]) 1 2000
    true false false None false None.

(** The easiest MT row of [tabela_dois_anos]. *)
Definition linha_mais_facil : Linha :=
  linha_de 2021 "MT" 899 136 (Some (inject_Z 1)).

End Exemplos.

(** ** Python built-ins of the form, the file name and the PDF reader *)

Module PyTexto.
Local Open Scope string_scope.

(** [c.upper()] and [c.lower()] on one ASCII character. *)
Definition upper_char (c : ascii) : ascii :=
  let n := nat_of_ascii c in
  if Nat.leb 97 n && Nat.leb n 122 then ascii_of_nat (n - 32) else c.

Definition lower_char (c : ascii) : ascii :=
  let n := nat_of_ascii c in
  if Nat.leb 65 n && Nat.leb n 90 then ascii_of_nat (n + 32) else c.

(** [s.upper()] *)
Fixpoint upper (s : string) : string :=
  match s with
  | EmptyString => EmptyString
  | String c s' => String (upper_char c) (upper s')
  end.

(** [s.lower()] *)
Fixpoint lower (s : string) : string :=
  match s with
  | EmptyString => EmptyString
  | String c s' => String (lower_char c) (lower s')
  end.

(** [s.replace(old, new)] for a non-empty [old]: the occurrences of
    [old] are replaced from left to right, without overlap; [salto] counts
    the characters of [s] still covered by the occurrence just
    replaced. *)
Fixpoint replace_aux (old new : string) (salto : nat) (s : string) : string :=
  match s with
  | EmptyString => EmptyString
  | String c s' =>
      match salto with
      | S k => replace_aux old new k s'
      | O =>
          if prefix old s
          then String.append new (replace_aux old new (String.length old - 1) s')
          else String c (replace_aux old new 0 s')
      end
  end.

Definition replace (old new : string) (s : string) : string :=
  replace_aux old new 0 s.

(** [sorted(l)] on a list of texts: ascending order of the code points. *)
Definition sorted (l : list string) : list string :=
  Pandas.sort_values String.leb l.

(** [range(a, b)] *)
Definition range (a b : Z) : list Z := Main.contagem a (Z.to_nat (b - a)).

(** [str(b)] of a boolean. *)
Definition str_bool (b : bool) : string := if b then "True" else "False".

(** A text without whitespace. *)
Fixpoint sem_espaco (s : string) : bool :=
  match s with
  | EmptyString => true
  | String c s' => negb (Py.isspace c) && sem_espaco s'
  end.

End PyTexto.

(** ** entradas.py: the form *)

Module InterfaceEntradas.
Import PyTexto Entradas.
Local Open Scope string_scope.

(** [Materia]: the subjects of the form, in the order of the
    enumeration. *)
Inductive Materia : Type := MATEMATICA | LINGUAGENS | HUMANAS | NATUREZA.

Definition todas_as_materias : list Materia :=
  [MATEMATICA; LINGUAGENS; HUMANAS; NATUREZA].

Definition codigo (m : Materia) : string :=
  match m with
  | MATEMATICA => "MT"
  | LINGUAGENS => "LC"
  | HUMANAS => "CH"
  | NATUREZA => "CN"
  end.

Definition ANOS_DISPONIVEIS : list string := map Py.str (range 2009 2024).
Definition DIFICULDADE_DEFAULT_MIN : Z := 1.
Definition DIFICULDADE_DEFAULT_MAX : Z := 2000.

(** What the widgets of the page return in one run of the script: the
    multiselect of the years, the check boxes and buttons of the
    subjects, and for each tab of the advanced filters its check box and
    its inputs. *)
Record Tela : Type := mkTela {
  multiselect_anos : list string;
  check_mat : bool;
  check_ling : bool;
  check_hum : bool;
  check_nat : bool;
  botao_selecionar_todas : bool;
  botao_limpar_selecao : bool;
  check_por_numero : bool;
  texto_numeros : string;
  check_por_quantidade : bool;
  numero_quantidade : Z;
  botao_15 : bool;
  botao_30 : bool;
  botao_50 : bool;
  check_por_dificuldade : bool;
  slider_dificuldade : Z * Z;
  check_por_habilidade : bool;
  texto_habilidades : string;
  botao_h1_h5 : bool;
  botao_h21_h25 : bool;
  botao_h26_h30 : bool
}.

(** [_renderizar_selecao_anos]: the years of the multiselect.  The
    quick-selection buttons restart the script with [st.rerun()], so a run
    that reaches the end has none of them pressed. *)
Definition _renderizar_selecao_anos (tela : Tela) : list string :=
  multiselect_anos tela.

(** [_renderizar_selecao_materias] *)
Definition _renderizar_selecao_materias (tela : Tela) : list string :=
  let materias_selecionadas :=
    ((if check_mat tela then [codigo MATEMATICA] else [])
     ++ (if check_ling tela then [codigo LINGUAGENS] else [])
     ++ (if check_hum tela then [codigo HUMANAS] else [])
     ++ (if check_nat tela then [codigo NATUREZA] else []))%list in
  let materias_selecionadas :=
    if botao_selecionar_todas tela then map codigo todas_as_materias
    else materias_selecionadas in
  if botao_limpar_selecao tela then [] else materias_selecionadas.

(** [_renderizar_filtro_numeros]: the list read from the entry, or
    Python's [None] for an empty entry; the outer [None] stands for the
    [ValueError] of [_processar_numeros_questoes]. *)
Definition _renderizar_filtro_numeros (tela : Tela) : option (option (list Z)) :=
  match texto_numeros tela with
  | EmptyString => Some None
  | entrada =>
      match _processar_numeros_questoes entrada with
      | Some numeros => Some (Some numeros)
      | None => None
      end
  end.

(** [_renderizar_filtro_quantidade] *)
Definition _renderizar_filtro_quantidade (tela : Tela) : Z :=
  let quantidade := numero_quantidade tela in
  let quantidade := if botao_15 tela then 15%Z else quantidade in
  let quantidade := if botao_30 tela then 30%Z else quantidade in
  let quantidade := if botao_50 tela then 50%Z else quantidade in
  quantidade.

(** The loop over the words of [_processar_habilidades], carrying the
    list [habilidades]: [int] is called on every word that passes
    [isdigit], before its range is looked at, and its [ValueError] leaves
    the loop. *)
Fixpoint laco_itens (itens : list string) (habilidades : list Z)
  : option (list Z) :=
  match itens with
  | [] => Some habilidades
  | item0 :: resto =>
      let item := Py.strip item0 in
      if Py.isdigit item
      then
        match Py.int_digitos item with
        | Some num =>
            if (1 <=? num)%Z && (num <=? 30)%Z
            then laco_itens resto (habilidades ++ [num])%list
            else laco_itens resto habilidades
        | None => None
        end
      else laco_itens resto habilidades
  end.

(** [list(set(l))]: the distinct values of [l].  Python fixes no order
    for them; the model keeps the first occurrences in the order of [l],
    and the theorems speak of membership only. *)
Definition conjunto (l : list Z) : list Z :=
  Pandas.drop_duplicates (fun z => z) l.

(** [texto_limpo] of [_processar_habilidades]: the text in upper case,
    without its letters [H] and with its commas turned into spaces. *)
Definition texto_limpo (texto : string) : string :=
  replace "," " " (replace "H" "" (upper texto)).

(** [_processar_habilidades] on an ASCII text: the skills of the text;
    the words set aside as invalid only feed a warning of the page.
    [None] stands for the [ValueError] of [int], raised for a numeral over
    the limit. *)
Definition _processar_habilidades (texto : string) : option (list Z) :=
  match texto with
  | EmptyString => Some []
  | _ =>
      match laco_itens (Py.split (texto_limpo texto)) [] with
      | Some habilidades => Some (conjunto habilidades)
      | None => None
      end
  end.

(** [_renderizar_filtro_habilidades]: the skills read, or Python's
    [None] when no subject is selected; the outer [None] stands for the
    [ValueError] of [_processar_habilidades]. *)
Definition _renderizar_filtro_habilidades (tela : Tela)
           (materias_selecionadas : list string) : option (option (list Z)) :=
  if Pandas.empty materias_selecionadas then Some None
  else
    let habilidades_texto := texto_habilidades tela in
    let habilidades_texto :=
      if botao_h1_h5 tela then "1 2 3 4 5" else habilidades_texto in
    let habilidades_texto :=
      if botao_h21_h25 tela then "21 22 23 24 25" else habilidades_texto in
    let habilidades_texto :=
      if botao_h26_h30 tela then "26 27 28 29 30" else habilidades_texto in
    match _processar_habilidades habilidades_texto with
    | Some habilidades => Some (Some habilidades)
    | None => None
    end.

(** [renderizar], with [_renderizar_filtros_adicionais] inlined: the
    dictionary [filtros_ativos] is the record it fills.  [None] stands
    for the [ValueError] that leaves the tab of the numbers or the tab of
    the skills. *)
Definition renderizar (tela : Tela) : option FiltrosQuestoes :=
  let anos := _renderizar_selecao_anos tela in
  let materias := _renderizar_selecao_materias tela in
  let por_numero := check_por_numero tela in
  match (if por_numero then _renderizar_filtro_numeros tela else Some None) with
  | None => None
  | Some numeros =>
      let por_quantidade := check_por_quantidade tela && negb por_numero in
      let quantidade :=
        if check_por_quantidade tela && negb por_numero
        then Some (_renderizar_filtro_quantidade tela) else None in
      let por_dificuldade := check_por_dificuldade tela in
      let dif_min :=
        if por_dificuldade then fst (slider_dificuldade tela)
        else DIFICULDADE_DEFAULT_MIN in
      let dif_max :=
        if por_dificuldade then snd (slider_dificuldade tela)
        else DIFICULDADE_DEFAULT_MAX in
      let por_habilidade := check_por_habilidade tela in
      match (if por_habilidade
             then _renderizar_filtro_habilidades tela materias
             else Some None) with
      | None => None
      | Some habilidades =>
          Some (mkFiltrosQuestoes anos materias numeros dif_min dif_max
                  por_numero por_dificuldade por_quantidade quantidade
                  por_habilidade habilidades)
      end
  end.

(** [entradas_avancado]: the filters of the page when [validar] accepts
    them, and otherwise the message shown by [st.error] before [st.stop()]
    ends the run; [None] stands for the [ValueError] of [renderizar]. *)
Definition entradas_avancado (tela : Tela)
  : option (FiltrosQuestoes + option string) :=
  match renderizar tela with
  | Some filtros =>
      match validar filtros with
      | (true, _) => Some (inl filtros)
      | (false, mensagem_erro) => Some (inr mensagem_erro)
      end
  | None => None
  end.

(** A run of the page whose year selection was taken from the options of
    the multiselect. *)
Definition anos_da_lista (tela : Tela) : Prop :=
  Forall (fun a => In a ANOS_DISPONIVEIS) (multiselect_anos tela).

End InterfaceEntradas.

(** ** main.py: the file name of the download *)

Module AplicacaoENEM.
Import PyTexto.
Local Open Scope string_scope.

(** [nome_arquivo] of [_salvar_e_baixar]; [None] stands for the
    [IndexError] of [anos_ordenados[0]] on an empty list. *)
Definition nome_arquivo (anos : list string) (num_questoes : nat) : option string :=
  match anos with
  | [ano] =>
      Some ("ENEM_" ++ ano ++ "_" ++ Py.str (Z.of_nat num_questoes) ++ "_questoes.docx")
  | _ =>
      let anos_ordenados := sorted anos in
      match anos_ordenados with
      | [] => None
      | primeiro :: _ =>
          let anos_texto := primeiro ++ "-" ++ last anos_ordenados "" in
          Some ("ENEM_" ++ anos_texto ++ "_" ++ Py.str (Z.of_nat num_questoes)
                ++ "_questoes.docx")
      end
  end.

End AplicacaoENEM.

(** ** pdf_question_extractor.py: the year of the exam *)

Module PDFQuestionExtractor.
Local Open Scope string_scope.

(** [(\d{4})] at the head of [s]: the four digits. *)
Definition quatro_digitos (s : string) : option string :=
  match s with
  | String a (String b (String c (String d _))) =>
      if Py.digito a && Py.digito b && Py.digito c && Py.digito d
      then Some (String a (String b (String c (String d EmptyString))))
      else None
  | _ => None
  end.

(** The pattern [(\d{4})] at the head of [s]: the group and the length of
    the match. *)
Definition casa_ano (s : string) : option (string * nat) :=
  match quatro_digitos s with
  | Some g => Some (g, 4)
  | None => None
  end.

(** The pattern [ENEM\s+(\d{4})] at the head of [s]: the whitespace is
    taken greedily, and giving some of it back cannot help, since a digit
    has to follow. *)
Definition casa_enem (s : string) : option (string * nat) :=
  if prefix "ENEM" s
  then
    let r := Py.drop 4 s in
    let r' := Py.lstrip r in
    let brancos := String.length r - String.length r' in
    if Nat.ltb 0 brancos
    then match quatro_digitos r' with
         | Some g => Some (g, 4 + brancos + 4)
         | None => None
         end
    else None
  else None.

(** [re.findall(pattern, text)] for a pattern with one group: the groups
    of the leftmost non-overlapping matches; [salto] counts the characters
    still covered by the previous match. *)
Fixpoint findall_aux (casa : string -> option (string * nat)) (salto : nat)
         (s : string) : list string :=
  match s with
  | EmptyString => []
  | String _ s' =>
      match salto with
      | S k => findall_aux casa k s'
      | O =>
          match casa s with
          | Some (g, n) => g :: findall_aux casa (n - 1) s'
          | None => findall_aux casa 0 s'
          end
      end
  end.

Definition findall (casa : string -> option (string * nat)) (text : string)
  : list string :=
  findall_aux casa 0 text.

(** The loop over the matches of one pattern. *)
Fixpoint laco_matches_ano (matches : list string) : option Z :=
  match matches with
  | [] => None
  | m :: resto =>
      let year := Py.int m in
      if (1990 <=? year)%Z && (year <=? 2030)%Z then Some year
      else laco_matches_ano resto
  end.

(** The loop over [year_patterns]. *)
Fixpoint laco_patterns (year_patterns : list (string -> option (string * nat)))
         (text : string) : option Z :=
  match year_patterns with
  | [] => None
  | pattern :: resto =>
      match laco_matches_ano (findall pattern text) with
      | Some year => Some year
      | None => laco_patterns resto text
      end
  end.

(** [extract_year_from_text] *)
Definition extract_year_from_text (text : string) : option Z :=
  laco_patterns [casa_enem; casa_ano] text.

End PDFQuestionExtractor.

(** ** The markup a paragraph was formatted from *)

Module Marcacao.
Import ConfigDocx.
Local Open Scope string_scope.

(** The delimiters of [PATTERNS]. *)
Definition delimitadores : list string := map (fun p => fst (snd p)) PATTERNS.

(** The delimiter that stands in the markup for the format of a run. *)
Definition delimitador (r : Run) : string :=
  if bold r then "**"
  else if subscript r then "__"
  else if italic r then "_"
  else if superscript r then "^"
  else "".

(** A run written back as markup: its text between its delimiters. *)
Definition marca (r : Run) : string :=
  delimitador r ++ text r ++ delimitador r.

(** The runs of a paragraph written back as markup, one after the
    other. *)
Fixpoint escreve (par : list Run) : string :=
  match par with
  | [] => ""
  | r :: par' => marca r ++ escreve par'
  end.

(** The number of formats a run carries. *)
Definition formatos (r : Run) : nat :=
  Nat.b2n (bold r) + Nat.b2n (italic r)
  + Nat.b2n (subscript r) + Nat.b2n (superscript r).

(** A run as the formatter builds them: at most one format, and some
    text when it has none. *)
Definition bem_formado (r : Run) : Prop :=
  formatos r <= 1 /\ (formatos r = 0 -> text r <> "").

End Marcacao.

(** ** What a request asks of the rows and of the log *)

Module Selecao.
Import Pandas Main.
Local Open Scope string_scope.

(** The skill of a row is one of the requested skills. *)
Definition habilidade_pedida (habilidades : list Z) (r : Linha) : Prop :=
  exists h q, In h habilidades /\ CO_HABILIDADE r = Some q /\ (q == inject_Z h)%Q.

(** The skill filter and the quantity cap are in force. *)
Definition habilidade_ativa (filtros : Filtros) : bool :=
  verdadeiro_bool (filtrar_habilidade filtros)
  && verdadeiro_lista (habilidades filtros).

Definition limite_ativo (filtros : Filtros) : bool :=
  verdadeiro_bool (filtrar_quantidade filtros)
  && verdadeiro_int (quantidade filtros).

(** What the filters in force ask of a row: a requested skill; a listed
    position, when the position text lists any; and, without a position
    text, a difficulty within the limits unless the difficulty stage is
    switched off. *)
Definition respeita (filtros : Filtros) (r : Linha) : Prop :=
  (habilidade_ativa filtros = true ->
   habilidade_pedida (get (habilidades filtros) []) r)
  /\ (verdadeiro_str (posicoes filtros) = true ->
      converte_posicoes (get (posicoes filtros) "") <> [] ->
      In (CO_POSICAO r) (converte_posicoes (get (posicoes filtros) "")))
  /\ (verdadeiro_str (posicoes filtros) = false ->
      get (filtrar_dificuldade filtros) true = true ->
      dentro_dos_limites (get (min_dif filtros) 0%Q) (get (max_dif filtros) 2000%Q) r).

(** A row the request asks for: of a requested year and a requested
    subject, with the code of the reference exam of its year for a
    requested subject, and respecting the filters in force. *)
Definition pedida (anos_int : list Z) (materias : list string)
           (filtros : Filtros) (r : Linha) : Prop :=
  In (ANO_PROVA r) anos_int
  /\ In (SG_AREA r) materias
  /\ (exists m, In m materias
                /\ codigo_da_prova (Py.str (ANO_PROVA r)) m = Some (CO_PROVA r))
  /\ respeita filtros r.

(** The request [filtros] with another list of skills. *)
Definition com_habilidades (hs : option (list Z)) (filtros : Filtros) : Filtros :=
  mkFiltros (posicoes filtros) (min_dif filtros) (max_dif filtros)
            (filtrar_quantidade filtros) (quantidade filtros)
            (filtrar_dificuldade filtros) (filtrar_habilidade filtros) hs.

(** The question [_processar_questoes] builds from a row, when the
    details of the row are found. *)
Definition questao_da_linha (arquivos : Z -> Z -> Arquivo) (row : LinhaNum)
  : option Questao :=
  match Py.int_str (ANO (linha_ano row)) with
  | Some ano =>
      match arquivos ano (CO_POSICAO (linha (linha_ano row))) with
      | Conteudo (kv :: dados) =>
          Some (criar_objeto_questao row (kv :: dados) (NUMERO_QUESTAO row) ano)
      | _ => None
      end
  | None => None
  end.

(** The questions of the rows whose details are found, in the order of
    the rows. *)
Fixpoint questoes_das_linhas (arquivos : Z -> Z -> Arquivo) (df : list LinhaNum)
  : list Questao :=
  match df with
  | [] => []
  | row :: resto =>
      match questao_da_linha arquivos row with
      | Some q => q :: questoes_das_linhas arquivos resto
      | None => questoes_das_linhas arquivos resto
      end
  end.

(** The warning of [_processar_questoes] for a row without details. *)
Definition eh_aviso_dados (e : Evento) : bool :=
  match e with AvisoDadosJson _ _ => true | _ => false end.

(** A warning about the exams of a year is justified by the request:
    the year is a requested one, and it is unknown to [provas_regulares],
    or the subject is requested and unknown for the year, or no requested
    subject is known for the year. *)
Definition aviso_justificado (anos_int : list Z) (materias : list string)
           (e : Evento) : Prop :=
  match e with
  | AvisoAnoNaoEncontrado a =>
      (exists y, In y anos_int /\ a = Py.str y)
      /\ dict_get ListaProva.provas_regulares a = None
  | AvisoMateriaNaoEncontrada m a =>
      (exists y, In y anos_int /\ a = Py.str y)
      /\ In m materias
      /\ dict_get ListaProva.provas_regulares a <> None
      /\ codigo_da_prova a m = None
  | AvisoNenhumaProva a =>
      (exists y, In y anos_int /\ a = Py.str y)
      /\ forall m, In m materias -> codigo_da_prova a m = None
  | _ => True
  end.

End Selecao.

(** ** The warnings about exams and the last message of [validar] *)

Module Avisos.
Import Main.
Local Open Scope string_scope.

(** The three warnings a run logs when it finds no reference exam. *)
Definition aviso_de_prova (e : Evento) : bool :=
  match e with
  | AvisoAnoNaoEncontrado _ | AvisoMateriaNaoEncontrada _ _
  | AvisoNenhumaProva _ => true
  | _ => false
  end.

(** The message of the last rule of [validar]. *)
Definition mensagem_numero_e_quantidade : string :=
  "Não é possível usar 'Selecionar por número' e 'Limitar quantidade' ao mesmo tempo".

End Avisos.

(** ** config_docx.py: DocumentFormatter, the section properties *)

Module DocumentFormatter.
Import PyTexto.
Local Open Scope string_scope.

(** An XML element: its tag, its attributes in the order they were set,
    and its children. *)
#[local] Unset Elimination Schemes.
Inductive Elemento : Type :=
| El (tag : string) (atributos : list (string * string)) (filhos : list Elemento).
#[local] Set Elimination Schemes.

Definition tag_de (e : Elemento) : string :=
  match e with El tag _ _ => tag end.

Definition DEFAULT_COLUMNS_num : Z := 2.
Definition DEFAULT_COLUMNS_space : Z := 200.
Definition DEFAULT_COLUMNS_sep : bool := true.
Definition DEFAULT_BORDER_style : string := "single".
Definition DEFAULT_BORDER_size : Z := 2.
Definition DEFAULT_BORDER_space : Z := 5.
Definition DEFAULT_BORDER_color : string := "000000".

(** [_criar_elemento_colunas] *)
Definition _criar_elemento_colunas : Elemento :=
  El "w:cols"
     [ ("w:num", Py.str DEFAULT_COLUMNS_num);
       ("w:space", Py.str DEFAULT_COLUMNS_space);
       ("w:sep", lower (str_bool DEFAULT_COLUMNS_sep)) ]
     [].

(** [_configurar_colunas] on the children of [sectPr]: the [w:cols]
    children are removed, and the new one is appended. *)
Definition _configurar_colunas (sectPr : list Elemento) : list Elemento :=
  (filter (fun child => negb (String.eqb (tag_de child) "w:cols")) sectPr
   ++ [_criar_elemento_colunas])%list.

(** [_criar_elemento_borda] *)
Definition _criar_elemento_borda (lado : string) : Elemento :=
  El ("w:" ++ lado)
     [ ("w:val", DEFAULT_BORDER_style);
       ("w:sz", Py.str DEFAULT_BORDER_size);
       ("w:space", Py.str DEFAULT_BORDER_space);
       ("w:color", DEFAULT_BORDER_color) ]
     [].

(** [_configurar_bordas] on the children of [sectPr]. *)
Definition _configurar_bordas (sectPr : list Elemento) : list Elemento :=
  (sectPr
   ++ [El "w:pgBorders" []
          (map _criar_elemento_borda ["top"; "left"; "bottom"; "right"])])%list.

(** What [configurar_documento] does to the children of [sectPr]. *)
Definition configurar_documento (sectPr : list Elemento) : list Elemento :=
  _configurar_bordas (_configurar_colunas sectPr).

(** The children of [sectPr] with a given tag, as [findall] gives
    them. *)
Definition findall (tag : string) (sectPr : list Elemento) : list Elemento :=
  filter (fun child => String.eqb (tag_de child) tag) sectPr.

End DocumentFormatter.

(** ** Requests and pages the further examples run on *)

Module MaisExemplos.
Import Main Exemplos InterfaceEntradas Selecao.
Local Open Scope string_scope.
Local Open Scope Z_scope.

(** One MT row of 2020 and one of 2021, both at position 136. *)
Definition tabela_um_por_ano : list Linha :=
  [ linha_de 2020 "MT" 587 136 (Some (inject_Z 5));
    linha_de 2021 "MT" 899 136 (Some (inject_Z 3)) ].

(** The runs over [tabela_um_por_ano] for 2020 and for 2021, without
    filters. *)
Definition questoes_de_2020 : list LinhaNum :=
  [ mkLinhaNum 1 (mkLinhaAno "2020" (linha_de 2020 "MT" 587 136 (Some (inject_Z 5)))) ].

Definition questoes_de_2021 : list LinhaNum :=
  [ mkLinhaNum 1 (mkLinhaAno "2021" (linha_de 2021 "MT" 899 136 (Some (inject_Z 3)))) ].

(** A request for the skill 1 and nothing else. *)
Definition filtros_habilidade : Filtros :=
  mkFiltros None None None None None None (Some true) (Some [1]).

(** The page with the year 2020 and the subject MT selected, and the
    numbers 136 and 137 typed under the number filter. *)
Definition tela_de_2020 : Tela :=
  mkTela ["2020"] true false false false false false
         true "136 137"
         false 25 false false false
         false (1, 2000)
         false "" false false false.


End MaisExemplos.

(* ================================================================== *)
(** * Part II: properties *)
(* ================================================================== *)

(** ** The inline markup of [config_docx.py] *)

Section Markup.
Import ConfigDocx.
Local Open Scope string_scope.
Local Open Scope list_scope.

Lemma drop_tail : forall k c s, Py.drop (S k) (String c s) = Py.drop k s.
Proof. reflexivity. Qed.

Lemma conta_drop : forall c k s, conta c (Py.drop k s) <= conta c s.
Proof.
  intros c k; induction k as [|k IH]; intros s.
  - destruct s; simpl; lia.
  - destruct s as [|c' s']; simpl; [lia|].
    specialize (IH s'). lia.
Qed.

Lemma prefix_conta_split : forall c d s,
  prefix d s = true ->
  conta c s = conta c d + conta c (Py.drop (String.length d) s).
Proof.
  intros c d; induction d as [|a d IH]; intros s H.
  - destruct s; reflexivity.
  - destruct s as [|b s']; simpl in H; [discriminate|].
    destruct (Ascii.ascii_dec a b) as [->|]; [|discriminate].
    simpl. rewrite (IH s' H). lia.
Qed.

Lemma corpo_lazy_prefix : forall d s k,
  corpo_lazy d s = Some k -> prefix d (Py.drop k s) = true.
Proof.
  intros d s; induction s as [|c s IH]; intros k H.
  - cbn [corpo_lazy] in H. destruct (prefix d "") eqn:E; [|discriminate H].
    injection H as <-. exact E.
  - cbn [corpo_lazy] in H. destruct (prefix d (String c s)) eqn:E.
    + injection H as <-. exact E.
    + destruct (Ascii.eqb c nova_linha); [discriminate|].
      destruct (corpo_lazy d s) as [k'|] eqn:E'; [|discriminate].
      injection H as <-. rewrite drop_tail. now apply IH.
Qed.

(** A match of [D(?:.*?)D] needs the characters of [D] twice. *)
Lemma casa_pattern_conta : forall c d s n,
  casa_pattern d s = Some n -> 2 * conta c d <= conta c s.
Proof.
  intros c d s n H. unfold casa_pattern in H.
  destruct (prefix d s) eqn:E; [|discriminate].
  destruct (corpo_lazy d (Py.drop (String.length d) s)) as [k|] eqn:E'; [|discriminate].
  apply corpo_lazy_prefix in E'.
  rewrite (prefix_conta_split c d s E).
  pose proof (prefix_conta_split c d _ E') as H1.
  pose proof (conta_drop c k (Py.drop (String.length d) s)) as H2.
  lia.
Qed.

Lemma compiled_pattern_cases : forall s g n,
  compiled_pattern s = Some (g, n) ->
  (exists k, casa_pattern "**" s = Some k) \/
  (exists k, casa_pattern "__" s = Some k) \/
  (exists k, casa_pattern "_" s = Some k) \/
  (exists k, casa_pattern "^" s = Some k).
Proof.
  intros s g n H. unfold compiled_pattern in H. simpl in H.
  destruct (casa_pattern "**" s) eqn:E1; [left; eauto|].
  destruct (casa_pattern "__" s) eqn:E2; [right; left; eauto|].
  destruct (casa_pattern "_" s) eqn:E3; [right; right; left; eauto|].
  destruct (casa_pattern "^" s) eqn:E4; [right; right; right; eauto|].
  discriminate.
Qed.

(** The text a paragraph gets when no pattern matches anywhere. *)
Lemma sem_match_um_run : forall texto,
  finditer texto = [] -> texto <> "" ->
  _aplicar_formatacao [] texto = [add_run texto].
Proof.
  intros texto H Hne. unfold _aplicar_formatacao. rewrite H. simpl.
  destruct texto as [|c t]; [congruence|]. reflexivity.
Qed.

Lemma contem_tail : forall sub c s,
  contem sub (String c s) = false ->
  prefix sub (String c s) = false /\ contem sub s = false.
Proof.
  intros sub c s H. simpl in H. apply orb_false_iff in H.
  destruct H as [H1 H2]. split; [|exact H2].
  simpl. exact H1.
Qed.

Lemma sem_delimitadores_finditer : forall s pos,
  sem_delimitadores s -> finditer_aux 0 pos s = [].
Proof.
  induction s as [|c s IH]; intros pos (H1 & H2 & H3 & H4); [reflexivity|].
  apply contem_tail in H1, H2, H3, H4.
  destruct H1 as [P1 T1], H2 as [P2 T2], H3 as [P3 T3], H4 as [P4 T4].
  cbn [finditer_aux].
  assert (E : compiled_pattern (String c s) = None).
  { unfold compiled_pattern. cbn [map PATTERNS fst snd casa_alternativas].
    unfold casa_pattern. now rewrite P1, P2, P3, P4. }
  rewrite E. apply IH. repeat split; assumption.
Qed.

Lemma poucos_delimitadores_finditer : forall s pos,
  conta "*" s <= 3 -> conta "_" s <= 1 -> conta "^" s <= 1 ->
  finditer_aux 0 pos s = [].
Proof.
  induction s as [|c s IH]; intros pos Ha Hu Hc; [reflexivity|].
  cbn [finditer_aux].
  destruct (compiled_pattern (String c s)) as [[g n]|] eqn:E.
  - exfalso. apply compiled_pattern_cases in E.
    destruct E as [[k E]|[[k E]|[[k E]|[k E]]]].
    + apply (casa_pattern_conta "*") in E.
      change (conta "*" "**") with 2 in E. lia.
    + apply (casa_pattern_conta "_") in E.
      change (conta "_" "__") with 2 in E. lia.
    + apply (casa_pattern_conta "_") in E.
      change (conta "_" "_") with 1 in E. lia.
    + apply (casa_pattern_conta "^") in E.
      change (conta "^" "^") with 1 in E. lia.
  - cbn [conta] in Ha, Hu, Hc. apply IH; lia.
Qed.

(** C5, as the code has it: the text ["**A** and _B_ and ^C^ and __D__"]
    gives seven runs, in the order of the text: ["A"] bold, [" and "]
    plain, ["B"] italic, [" and "] plain, ["C"] superscript, [" and "]
    plain, ["D"] subscript; the delimiters are gone. *)
Theorem C5_sete_runs :
  _aplicar_formatacao [] "**A** and _B_ and ^C^ and __D__"
  = [ set_bold (add_run "A"); add_run " and ";
      set_italic (add_run "B"); add_run " and ";
      set_superscript (add_run "C"); add_run " and ";
      set_subscript (add_run "D") ]
  /\ runs (adicionar_paragrafo_formatado "**A** and _B_ and ^C^ and __D__")
     = _aplicar_formatacao [] "**A** and _B_ and ^C^ and __D__".
Proof. split; vm_compute; reflexivity. Qed.

(** C5 as stated fails: the runs are seven, not five. *)
Lemma C5_nao_cinco_runs :
  length (_aplicar_formatacao [] "**A** and _B_ and ^C^ and __D__") <> 5.
Proof. vm_compute. discriminate. Qed.

(** C6, amended: a text that is not empty and has none of the delimiters
    [**], [__], [_], [^] gives exactly one run, without format, whose text
    is the input; the empty text gives no run. *)
Theorem C6_sem_delimitadores : forall texto,
  sem_delimitadores texto ->
  (texto <> "" ->
   exists r, _aplicar_formatacao [] texto = [r] /\ text r = texto /\ sem_formato r)
  /\ (texto = "" -> _aplicar_formatacao [] texto = []).
Proof.
  intros texto H. split.
  - intros Hne. exists (add_run texto). split.
    + apply sem_match_um_run; [|exact Hne].
      unfold finditer. now apply sem_delimitadores_finditer.
    + split; [reflexivity|]. repeat split.
  - intros ->. reflexivity.
Qed.

Lemma C6_sem_delimitadores_witness :
  exists r, _aplicar_formatacao [] "2 * x = 10" = [r]
            /\ text r = "2 * x = 10" /\ sem_formato r.
Proof.
  refine (proj1 (C6_sem_delimitadores "2 * x = 10" _) _).
  - repeat split; reflexivity.
  - discriminate.
Defined.

(** C6 as stated fails on the empty text, which has no delimiter and gives
    no run at all. *)
Lemma C6_texto_vazio :
  sem_delimitadores "" /\
  ~ (exists r, _aplicar_formatacao [] "" = [r] /\ text r = "" /\ sem_formato r).
Proof.
  split; [repeat split; reflexivity|].
  intros (r & H & _). vm_compute in H. discriminate.
Qed.

(** In a text with at most three [*], at most one [_] and at most one
    [^] no span can close: no pattern matches, and the text, when not
    empty, is one run without format. *)
Lemma poucos_delimitadores_um_run : forall texto,
  conta "*" texto <= 3 -> conta "_" texto <= 1 -> conta "^" texto <= 1 ->
  finditer texto = []
  /\ (texto <> "" ->
      exists r, _aplicar_formatacao [] texto = [r] /\ text r = texto /\ sem_formato r).
Proof.
  intros texto Ha Hu Hc.
  assert (F : finditer texto = []) by now apply poucos_delimitadores_finditer.
  split; [exact F|]. intros Hne. exists (add_run texto).
  split; [now apply sem_match_um_run|]. split; [reflexivity|]. repeat split.
Qed.

(** C7 as stated fails on a lone [__]: the italic pattern takes the two
    underscores as its opening and closing delimiter, so the text does not
    pass through; the paragraph gets one italic run with empty text. *)
Lemma C7_sublinhado_duplo :
  finditer "__" = [mkMatch 0 2 3]
  /\ _aplicar_formatacao [] "__" = [set_italic (add_run "")]
  /\ _aplicar_formatacao [] "x__y" = [add_run "x"; set_italic (add_run ""); add_run "y"].
Proof. repeat split. Qed.

(** A closed span followed by an opening delimiter without its pair: the
    span is styled, the rest stays plain. *)
Lemma delimitador_aberto_depois :
  _aplicar_formatacao [] "**a** and **b"
  = [set_bold (add_run "a"); add_run " and **b"].
Proof. reflexivity. Qed.

(** A delimiter without its pair inside the span of another pattern is
    not at the start of a match attempt: it takes the format of the
    span. *)
Lemma delimitador_dentro_de_outro :
  finditer "_a ** b_" = [mkMatch 0 8 3]
  /\ _aplicar_formatacao [] "_a ** b_" = [set_italic (add_run "a ** b")].
Proof. split; reflexivity. Qed.

(** Through [adicionar_paragrafo_formatado] the text is stripped and
    loses a leading list marker first; what is left, when it is not empty
    and has no delimiter, is the one run of the paragraph. *)
Lemma paragrafo_sem_delimitadores : forall texto,
  sem_delimitadores (_extrair_conteudo (Py.strip texto)) ->
  _extrair_conteudo (Py.strip texto) <> "" ->
  runs (adicionar_paragrafo_formatado texto)
  = [add_run (_extrair_conteudo (Py.strip texto))].
Proof.
  intros texto H Hne. unfold adicionar_paragrafo_formatado. cbn [runs].
  assert (E : runs (_criar_paragrafo_base (Py.strip texto)) = []).
  { unfold _criar_paragrafo_base. now destruct (_eh_lista_marcador _). }
  rewrite E. apply sem_match_um_run; [|exact Hne].
  unfold finditer. now apply sem_delimitadores_finditer.
Qed.

Lemma paragrafo_com_marcador :
  adicionar_paragrafo_formatado "  * - item text "
  = mkParagrafo (Some "List Bullet") [add_run "item text"].
Proof. reflexivity. Qed.

End Markup.

(** ** Sorting *)

Section Ordenados.
Context {A : Type}.
Variable R : A -> A -> Prop.

Lemma StronglySorted_firstn : forall n l,
  StronglySorted R l -> StronglySorted R (firstn n l).
Proof.
  induction n as [|n IH]; intros l H; [constructor|].
  destruct l as [|x l]; [constructor|].
  apply StronglySorted_inv in H. destruct H as [Hs Hx]. simpl.
  constructor; [now apply IH|].
  rewrite Forall_forall in *. intros y Hy. apply Hx.
  rewrite <- (firstn_skipn n l). apply in_or_app. now left.
Qed.

(** In a sorted list every row of a prefix is below every row after
    it. *)
Lemma StronglySorted_corte : forall n l,
  StronglySorted R l ->
  Forall (fun x => Forall (R x) (skipn n l)) (firstn n l).
Proof.
  induction n as [|n IH]; intros l H; [constructor|].
  destruct l as [|x l]; [constructor|].
  apply StronglySorted_inv in H. destruct H as [Hs Hx]. simpl.
  constructor; [|now apply IH].
  rewrite Forall_forall in *. intros y Hy. apply Hx.
  rewrite <- (firstn_skipn n l). apply in_or_app. now right.
Qed.

Lemma StronglySorted_filter : forall (f : A -> bool) l,
  StronglySorted R l -> StronglySorted R (filter f l).
Proof.
  intros f l H. induction H as [|x l Hs IH Hx]; simpl; [constructor|].
  destruct (f x); [|exact IH].
  constructor; [exact IH|].
  rewrite Forall_forall in *. intros y Hy.
  apply filter_In in Hy. now apply Hx.
Qed.

(** A sorted list whose order respects a property puts the rows with the
    property first. *)
Lemma StronglySorted_particao : forall (p : A -> bool) l,
  (forall x y, In x l -> In y l -> R x y -> p y = true -> p x = true) ->
  StronglySorted R l ->
  l = filter p l ++ filter (fun x => negb (p x)) l.
Proof.
  intros p l Hp H. induction H as [|x l Hs IH Hx]; [reflexivity|].
  assert (Hp' : forall a b, In a l -> In b l -> R a b -> p b = true -> p a = true).
  { intros a b Ha Hb. apply Hp; now right. }
  specialize (IH Hp').
  simpl. destruct (p x) eqn:E; simpl.
  - now rewrite <- IH.
  - assert (N : filter p l = []).
    { rewrite Forall_forall in Hx.
      assert (F : forall y, In y l -> p y = false).
      { intros y Hy. destruct (p y) eqn:Ey; [|reflexivity].
        rewrite (Hp x y (or_introl eq_refl) (or_intror Hy) (Hx y Hy) Ey) in E.
        discriminate. }
      clear - F. induction l as [|y l IHl]; [reflexivity|]. simpl.
      rewrite (F y (or_introl eq_refl)). apply IHl.
      intros z Hz. apply F. now right. }
    rewrite N in IH |- *. simpl in *. now rewrite <- IH.
Qed.

Lemma filter_filter : forall (f g : A -> bool) l,
  filter f (filter g l) = filter (fun x => g x && f x) l.
Proof.
  intros f g l. induction l as [|x l IH]; [reflexivity|]. simpl.
  destruct (g x); simpl; [destruct (f x)|]; now rewrite IH.
Qed.

Lemma Permutation_filter : forall (f : A -> bool) l l',
  Permutation l l' -> Permutation (filter f l) (filter f l').
Proof.
  intros f l l' H. induction H as [|x l l' H IH|x y l|l l' l'' H1 IH1 H2 IH2]; simpl.
  - constructor.
  - destruct (f x); [now constructor|exact IH].
  - destruct (f x), (f y); try reflexivity. apply perm_swap.
  - now transitivity (filter f l').
Qed.

Lemma filter_nenhum : forall (f : A -> bool) l,
  (forall x, In x l -> f x = false) -> filter f l = [].
Proof.
  intros f l H. induction l as [|x l IH]; [reflexivity|]. simpl.
  rewrite (H x (or_introl eq_refl)). apply IH. intros y Hy. apply H. now right.
Qed.

Lemma filter_todos : forall (f : A -> bool) l,
  (forall x, In x l -> f x = true) -> filter f l = l.
Proof.
  intros f l H. apply forallb_filter_id, forallb_forall. exact H.
Qed.

(** Two sorted arrangements of the same rows agree when the order is
    antisymmetric on them. *)
Lemma StronglySorted_unico : forall l1 l2,
  (forall x y, In x l1 -> In y l1 -> R x y -> R y x -> x = y) ->
  StronglySorted R l1 -> StronglySorted R l2 -> Permutation l1 l2 ->
  l1 = l2.
Proof.
  induction l1 as [|a l1 IH]; intros l2 Has H1 H2 HP.
  - apply Permutation_nil in HP. now subst.
  - destruct l2 as [|b l2].
    { apply Permutation_sym, Permutation_nil in HP. discriminate. }
    apply StronglySorted_inv in H1. destruct H1 as [S1 F1].
    apply StronglySorted_inv in H2. destruct H2 as [S2 F2].
    rewrite Forall_forall in F1, F2.
    assert (E : a = b).
    { assert (Ia : In a (b :: l2)) by (apply (Permutation_in _ HP); now left).
      assert (Ib : In b (a :: l1))
        by (apply (Permutation_in _ (Permutation_sym HP)); now left).
      destruct Ia as [->|Ia]; [reflexivity|].
      destruct Ib as [->|Ib]; [reflexivity|].
      apply Has; [now left|now right|now apply F1|now apply F2]. }
    subst b. f_equal. apply IH; try assumption.
    + intros x y Hx Hy. apply Has; now right.
    + now apply Permutation_cons_inv in HP.
Qed.

Lemma StronglySorted_impl : forall (R' : A -> A -> Prop) l,
  (forall x y, In x l -> In y l -> R x y -> R' x y) ->
  StronglySorted R l -> StronglySorted R' l.
Proof.
  intros R' l Hi H. induction H as [|x l Hs IH Hx]; [constructor|].
  constructor.
  - apply IH. intros a b Ha Hb. apply Hi; now right.
  - rewrite Forall_forall in *. intros y Hy.
    apply Hi; [now left|now right|now apply Hx].
Qed.

End Ordenados.

Section SortValues.
Import Pandas.
Context {A : Type}.
Variable le : A -> A -> bool.

Lemma insere_perm : forall x l, Permutation (insere le x l) (x :: l).
Proof.
  intros x l. induction l as [|y l IH]; simpl; [reflexivity|].
  destruct (le x y); [reflexivity|].
  rewrite IH. apply perm_swap.
Qed.

Lemma sort_values_perm : forall l, Permutation (sort_values le l) l.
Proof.
  induction l as [|x l IH]; simpl; [constructor|].
  rewrite insere_perm. now constructor.
Qed.

Lemma sort_values_length : forall l, length (sort_values le l) = length l.
Proof. intros l. apply Permutation_length, sort_values_perm. Qed.

Lemma sort_values_In : forall l x, In x (sort_values le l) <-> In x l.
Proof.
  intros l x. split; apply Permutation_in;
    [|apply Permutation_sym]; apply sort_values_perm.
Qed.

Hypothesis le_total : forall a b, le a b = false -> le b a = true.
Hypothesis le_trans : forall a b c, le a b = true -> le b c = true -> le a c = true.

Lemma insere_sorted : forall x l,
  StronglySorted (fun a b => le a b = true) l ->
  StronglySorted (fun a b => le a b = true) (insere le x l).
Proof.
  intros x l H. induction H as [|y l Hs IH Hy]; simpl.
  - repeat constructor.
  - destruct (le x y) eqn:E.
    + constructor; [now constructor|].
      constructor; [exact E|].
      rewrite Forall_forall in *. intros z Hz. eapply le_trans; eauto.
    + constructor; [exact IH|].
      rewrite Forall_forall in *. intros z Hz.
      apply (Permutation_in _ (insere_perm x l)) in Hz.
      destruct Hz as [<-|Hz]; [now apply le_total|now apply Hy].
Qed.

Lemma sort_values_sorted : forall l,
  StronglySorted (fun a b => le a b = true) (sort_values le l).
Proof.
  induction l as [|x l IH]; simpl; [constructor|now apply insere_sorted].
Qed.

End SortValues.

(** ** The orders of the pipeline *)

Section Ordens.
Import Pandas Main.
Local Open Scope string_scope.
Local Open Scope list_scope.

Lemma le_float_total : forall a b, le_float a b = false -> le_float b a = true.
Proof.
  intros [x|] [y|]; simpl; try congruence.
  intros H. apply Qle_bool_iff.
  destruct (Qlt_le_dec y x) as [L|L]; [now apply Qlt_le_weak|].
  apply Qle_bool_iff in L. congruence.
Qed.

Lemma le_float_trans : forall a b c,
  le_float a b = true -> le_float b c = true -> le_float a c = true.
Proof.
  intros [x|] [y|] [z|]; simpl; try congruence.
  rewrite !Qle_bool_iff. apply Qle_trans.
Qed.

Lemma le_float_spec : forall a b, le_float a b = true <-> dificuldade_le a b.
Proof.
  intros [x|] [y|]; simpl; try tauto; try (split; [discriminate|tauto]).
  apply Qle_bool_iff.
Qed.

Lemma le_codigo_total : forall a b, le_codigo a b = false -> le_codigo b a = true.
Proof.
  intros [x|] [y|]; simpl; try congruence.
  rewrite Nat.leb_gt, Nat.leb_le. lia.
Qed.

Lemma le_codigo_trans : forall a b c,
  le_codigo a b = true -> le_codigo b c = true -> le_codigo a c = true.
Proof.
  intros [x|] [y|] [z|]; simpl; try congruence.
  rewrite !Nat.leb_le. lia.
Qed.

Lemma ltb_lt : forall a b, String.ltb a b = true <-> String_as_OT.lt a b.
Proof.
  intros a b. rewrite <- String_as_OT.cmp_lt.
  unfold String.ltb, String_as_OT.cmp.
  destruct (String.compare a b); split; congruence.
Qed.

Lemma ltb_trans : forall a b c,
  String.ltb a b = true -> String.ltb b c = true -> String.ltb a c = true.
Proof. intros a b c. rewrite !ltb_lt. apply String_as_OT.lt_trans. Qed.

Lemma ltb_irrefl : forall a, String.ltb a a = false.
Proof.
  intros a. destruct (String.ltb a a) eqn:E; [|reflexivity].
  apply ltb_lt in E. apply String_as_OT.lt_not_eq in E.
  exfalso. apply E. reflexivity.
Qed.

Lemma ltb_total : forall a b,
  String.ltb a b = false -> String.eqb a b = false -> String.ltb b a = true.
Proof.
  intros a b H1 H2. unfold String.ltb in *.
  rewrite String.compare_antisym in H1.
  destruct (String.compare b a) eqn:E; simpl in H1;
    try reflexivity; try discriminate.
  apply String.compare_eq_iff in E. subst. now rewrite String.eqb_refl in H2.
Qed.

Lemma por_ano_dificuldade_spec : forall a b,
  por_ano_dificuldade a b = true <-> ano_dificuldade_le a b.
Proof.
  intros a b. unfold por_ano_dificuldade, ano_dificuldade_le, linha_le.
  destruct (String.ltb (ANO a) (ANO b)) eqn:L; [tauto|].
  destruct (String.eqb_spec (ANO a) (ANO b)) as [E|E].
  - rewrite le_float_spec. split; [tauto|]. now intros [?|[_ ?]].
  - split; [discriminate|]. intros [?|[? _]]; congruence.
Qed.

Lemma por_ano_dificuldade_total : forall a b,
  por_ano_dificuldade a b = false -> por_ano_dificuldade b a = true.
Proof.
  intros a b. unfold por_ano_dificuldade.
  destruct (String.ltb (ANO a) (ANO b)) eqn:L; [discriminate|].
  destruct (String.eqb (ANO a) (ANO b)) eqn:E.
  - apply String.eqb_eq in E. rewrite <- E, ltb_irrefl, String.eqb_refl.
    apply le_float_total.
  - intros _. now rewrite (ltb_total _ _ L E).
Qed.

Lemma por_ano_dificuldade_trans : forall a b c,
  por_ano_dificuldade a b = true -> por_ano_dificuldade b c = true ->
  por_ano_dificuldade a c = true.
Proof.
  intros a b c. unfold por_ano_dificuldade.
  destruct (String.ltb (ANO a) (ANO b)) eqn:L1.
  - intros _. destruct (String.ltb (ANO b) (ANO c)) eqn:L2.
    + intros _. now rewrite (ltb_trans _ _ _ L1 L2).
    + destruct (String.eqb_spec (ANO b) (ANO c)) as [E|E]; [|discriminate].
      intros _. rewrite <- E. now rewrite L1.
  - destruct (String.eqb_spec (ANO a) (ANO b)) as [E|E]; [|discriminate].
    rewrite E. intros H1.
    destruct (String.ltb (ANO b) (ANO c)); [reflexivity|].
    destruct (String.eqb (ANO b) (ANO c)); [|discriminate].
    now apply le_float_trans.
Qed.

End Ordens.

(** ** The difficulty stage and the quantity cap *)

Section Dificuldade.
Import Pandas Main Exemplos.
Local Open Scope string_scope.
Local Open Scope list_scope.

Lemma ordenado_por_dificuldade : forall l,
  StronglySorted linha_le (sort_values por_dificuldade l).
Proof.
  intros l.
  apply StronglySorted_impl with (R := fun a b => por_dificuldade a b = true).
  - intros x y _ _ H. now apply le_float_spec.
  - apply sort_values_sorted.
    + intros a b. apply le_float_total.
    + intros a b c. apply le_float_trans.
Qed.

Lemma ordenado_por_ano_dificuldade : forall l,
  StronglySorted ano_dificuldade_le (sort_values por_ano_dificuldade l).
Proof.
  intros l.
  apply StronglySorted_impl with (R := fun a b => por_ano_dificuldade a b = true).
  - intros x y _ _ H. now apply por_ano_dificuldade_spec.
  - apply sort_values_sorted.
    + apply por_ano_dificuldade_total.
    + apply por_ano_dificuldade_trans.
Qed.

Lemma menor_igual_spec : forall x b,
  menor_igual x b = true <-> exists d, x = Some d /\ (d <= b)%Q.
Proof.
  intros [v|] b; simpl.
  - rewrite Qle_bool_iff. split; [eauto|]. now intros (d & [= <-] & H).
  - split; [discriminate|]. now intros (d & H & _).
Qed.

Lemma maior_igual_spec : forall x b,
  maior_igual x b = true <-> exists d, x = Some d /\ (b <= d)%Q.
Proof.
  intros [v|] b; simpl.
  - rewrite Qle_bool_iff. split; [eauto|]. now intros (d & [= <-] & H).
  - split; [discriminate|]. now intros (d & H & _).
Qed.

(** The rows [_filtrar_por_dificuldade] keeps. *)
Lemma filtrar_por_dificuldade_In : forall df min_dif max_dif r,
  In r (_filtrar_por_dificuldade df min_dif max_dif)
  <-> In r df /\ dentro_dos_limites min_dif max_dif r.
Proof.
  intros df min_dif max_dif r. unfold _filtrar_por_dificuldade, dentro_dos_limites.
  destruct df as [|r0 df]; [simpl; tauto|].
  change (empty (r0 :: df)) with false. remember (r0 :: df) as l eqn:El.
  destruct (Qeq_bool min_dif 0) eqn:E1; destruct (Qeq_bool max_dif 2000) eqn:E2;
    cbn [andb]; cbv iota; rewrite sort_values_In; try rewrite filter_In.
  - apply Qeq_bool_eq in E1, E2. tauto.
  - apply Qeq_bool_eq in E1. apply Qeq_bool_neq in E2.
    rewrite menor_igual_spec. split.
    + intros (Hin & d & Hd & Hle). split; [exact Hin|]. right.
      exists d. split; [exact Hd|]. split; [now left|now right].
    + intros (Hin & [[_ H]|(d & Hd & _ & [H|H])]); try contradiction.
      split; [exact Hin|]. now exists d.
  - apply Qeq_bool_neq in E1. apply Qeq_bool_eq in E2.
    rewrite maior_igual_spec. split.
    + intros (Hin & d & Hd & Hle). split; [exact Hin|]. right.
      exists d. split; [exact Hd|]. split; [now right|now left].
    + intros (Hin & [[H _]|(d & Hd & [H|H] & _)]); try contradiction.
      split; [exact Hin|]. now exists d.
  - apply Qeq_bool_neq in E1, E2.
    rewrite andb_true_iff, maior_igual_spec, menor_igual_spec. split.
    + intros (Hin & (d & Hd & Hle) & (d' & Hd' & Hle')).
      split; [exact Hin|]. right. exists d. rewrite Hd in Hd'.
      injection Hd' as <-. split; [exact Hd|]. split; now right.
    + intros (Hin & [[H _]|(d & Hd & [H|H] & [H'|H'])]); try contradiction.
      split; [exact Hin|]. split; now exists d.
Qed.

Lemma filtrar_por_dificuldade_ordenado : forall df min_dif max_dif,
  StronglySorted linha_le (_filtrar_por_dificuldade df min_dif max_dif).
Proof.
  intros df min_dif max_dif. unfold _filtrar_por_dificuldade.
  destruct (empty df) eqn:E.
  - destruct df; [constructor|discriminate].
  - destruct (Qeq_bool min_dif 0 && Qeq_bool max_dif 2000);
      apply ordenado_por_dificuldade.
Qed.

(** C4, amended: the rows that survive the difficulty stage are in
    ascending order of difficulty (rows without a numeric difficulty
    last); each has a difficulty [d] with [min <= d] unless [min] is [0],
    and with [d <= max] unless [max] is [2000]; [0] and [2000] stand for no
    bound, and with both no row is excluded. *)
Theorem C4_intervalo_de_dificuldade : forall df min_dif max_dif,
  let sobram := _filtrar_por_dificuldade df min_dif max_dif in
  StronglySorted linha_le sobram
  /\ (~ (min_dif == 0)%Q ->
      Forall (fun r => exists d, NU_PARAM_B r = Some d /\ (min_dif <= d)%Q) sobram)
  /\ (~ (max_dif == 2000)%Q ->
      Forall (fun r => exists d, NU_PARAM_B r = Some d /\ (d <= max_dif)%Q) sobram)
  /\ (forall r, In r sobram <-> In r df /\ dentro_dos_limites min_dif max_dif r).
Proof.
  intros df min_dif max_dif sobram. subst sobram.
  split; [apply filtrar_por_dificuldade_ordenado|].
  split; [|split; [|apply filtrar_por_dificuldade_In]].
  - intros Hmin. apply Forall_forall. intros r Hr.
    apply filtrar_por_dificuldade_In in Hr.
    destruct Hr as (_ & [[H _]|(d & Hd & [H|H] & _)]); try contradiction. eauto.
  - intros Hmax. apply Forall_forall. intros r Hr.
    apply filtrar_por_dificuldade_In in Hr.
    destruct Hr as (_ & [[_ H]|(d & Hd & _ & [H|H])]); try contradiction. eauto.
Qed.

(** The form starts the minimum at 1, not at 0, so with the difficulty
    filter left off a row easier than 1 is still excluded. *)
Lemma minimo_padrao_do_formulario :
  _filtrar_por_dificuldade [linha_de 2020 "MT" 587 136 (Some (1 # 2)%Q)] 1 2000 = [].
Proof. reflexivity. Qed.

(** C2: with a quantity cap [q] and no position filter, a combined table
    of at most [q] rows is returned as it is; of a longer one exactly [q]
    rows survive, in ascending (year, difficulty) order, and each of them
    is below every row that was cut. *)
Theorem C2_limite_de_quantidade : forall df filtros q log,
  filtrar_quantidade filtros = Some true ->
  quantidade filtros = Some q -> (0 < q)%Z ->
  verdadeiro_str (posicoes filtros) = false ->
  ((Z.of_nat (length df) <= q)%Z ->
   fst (_aplicar_filtros_globais df filtros log) = Ok df)
  /\ ((q < Z.of_nat (length df))%Z ->
      exists mantidas cortadas,
        fst (_aplicar_filtros_globais df filtros log) = Ok mantidas
        /\ Z.of_nat (length mantidas) = q
        /\ Permutation (mantidas ++ cortadas) df
        /\ StronglySorted ano_dificuldade_le mantidas
        /\ Forall (fun m => Forall (ano_dificuldade_le m) cortadas) mantidas).
Proof.
  intros df filtros q log Hf Hq Hpos Hp.
  unfold _aplicar_filtros_globais.
  rewrite Hf, Hq, Hp. cbn [verdadeiro_bool verdadeiro_int get negb].
  assert (Hq0 : Z.eqb q 0 = false) by (apply Z.eqb_neq; lia).
  rewrite Hq0. cbn [negb andb].
  split.
  - intros Hle. destruct df as [|r df]; [reflexivity|]. cbn [empty].
    destruct (Z.gtb_spec (Z.of_nat (length (r :: df))) q) as [G|G]; [lia|].
    reflexivity.
  - intros Hgt. destruct df as [|r df]; [simpl in Hgt; lia|]. cbn [empty].
    destruct (Z.gtb_spec (Z.of_nat (length (r :: df))) q) as [G|G]; [|lia].
    set (ord := sort_values por_ano_dificuldade (r :: df)).
    exists (firstn (Z.to_nat q) ord), (skipn (Z.to_nat q) ord).
    assert (Hlen : length ord = length (r :: df)) by apply sort_values_length.
    split; [|split; [|split; [|split]]].
    + unfold bind, logger, ret, head. cbn [fst].
      destruct (Z.leb_spec 0 q); [reflexivity|lia].
    + rewrite length_firstn, Hlen. lia.
    + rewrite firstn_skipn. apply sort_values_perm.
    + apply StronglySorted_firstn, ordenado_por_ano_dificuldade.
    + apply StronglySorted_corte, ordenado_por_ano_dificuldade.
Qed.

End Dificuldade.

(** ** The position filter *)

Section Posicao.
Import Pandas Main Exemplos.
Local Open Scope string_scope.
Local Open Scope list_scope.

Lemma isin_In : forall x l, isin x l = true <-> In x l.
Proof.
  intros x l. unfold isin. rewrite existsb_exists. split.
  - intros (y & Hy & E). apply Z.eqb_eq in E. now subst.
  - intros H. exists x. split; [exact H|apply Z.eqb_refl].
Qed.

Lemma isin_not_In : forall x l, isin x l = false <-> ~ In x l.
Proof.
  intros x l. rewrite <- isin_In. destruct (isin x l); split; congruence.
Qed.

Lemma is_unique_NoDup : forall l, is_unique l = true <-> NoDup l.
Proof.
  induction l as [|x l IH]; simpl.
  - split; [constructor|reflexivity].
  - rewrite andb_true_iff, negb_true_iff, isin_not_In, IH. split.
    + intros [H1 H2]. now constructor.
    + intros H. inversion H. now split.
Qed.

Lemma codigo_In : forall ps p i, codigo ps p = Some i -> In p ps.
Proof.
  induction ps as [|c ps IH]; intros p i H; [discriminate|].
  simpl in H. destruct (Z.eqb_spec p c) as [->|N]; [now left|].
  destruct (codigo ps p) as [j|] eqn:E; [|discriminate].
  right. now apply (IH p j).
Qed.

Lemma In_codigo : forall ps p, In p ps -> exists i, codigo ps p = Some i.
Proof.
  induction ps as [|c ps IH]; intros p H; [contradiction|].
  simpl. destruct (Z.eqb_spec p c) as [->|N]; [eauto|].
  destruct H as [->|H]; [congruence|].
  destruct (IH p H) as [i ->]. simpl. eauto.
Qed.

Lemma codigo_inj : forall ps p q i,
  codigo ps p = Some i -> codigo ps q = Some i -> p = q.
Proof.
  induction ps as [|c ps IH]; intros p q i Hp Hq; [discriminate|].
  simpl in Hp, Hq.
  destruct (Z.eqb_spec p c) as [->|Np]; destruct (Z.eqb_spec q c) as [->|Nq].
  - reflexivity.
  - injection Hp as <-. destruct (codigo ps q); discriminate.
  - injection Hq as <-. destruct (codigo ps p); discriminate.
  - destruct (codigo ps p) as [j|] eqn:Ep; [|discriminate].
    destruct (codigo ps q) as [k|] eqn:Eq; [|discriminate].
    simpl in Hp, Hq. apply (IH p q j); congruence.
Qed.

Lemma le_codigo_S : forall a b,
  le_codigo (option_map S a) (option_map S b) = le_codigo a b.
Proof. now intros [x|] [y|]. Qed.

(** The requested positions are in the order of their own codes. *)
Lemma codigo_ordenado : forall ps,
  NoDup ps ->
  StronglySorted (fun p q => le_codigo (codigo ps p) (codigo ps q) = true) ps.
Proof.
  induction ps as [|c ps IH]; intros H; [constructor|].
  inversion H as [|? ? Hc Hn]; subst. constructor.
  - apply StronglySorted_impl
      with (R := fun p q => le_codigo (codigo ps p) (codigo ps q) = true);
      [|now apply IH].
    intros x y Hx Hy Hxy. simpl.
    destruct (Z.eqb_spec x c) as [->|_]; [contradiction|].
    destruct (Z.eqb_spec y c) as [->|_]; [contradiction|].
    now rewrite le_codigo_S.
  - apply Forall_forall. intros y Hy. simpl. rewrite Z.eqb_refl.
    destruct (Z.eqb y c); [reflexivity|].
    now destruct (codigo ps y).
Qed.

Lemma StronglySorted_map : forall {A B : Type} (f : A -> B) (R : B -> B -> Prop) l,
  StronglySorted (fun a b => R (f a) (f b)) l -> StronglySorted R (map f l).
Proof.
  intros A B f R l H. induction H as [|x l Hs IH Hx]; simpl; constructor.
  - exact IH.
  - rewrite Forall_forall in *. intros y Hy.
    apply in_map_iff in Hy. destruct Hy as (z & <- & Hz). now apply Hx.
Qed.

Section Duplicatas.
Context {A : Type}.
Variable col : A -> Z.

Lemma drop_duplicates_aux_In : forall l vistos r,
  In r (drop_duplicates_aux col vistos l) -> In r l /\ ~ In (col r) vistos.
Proof.
  induction l as [|x l IH]; intros vistos r H; [contradiction|].
  simpl in H. destruct (isin (col x) vistos) eqn:E.
  - destruct (IH _ _ H). split; [now right|assumption].
  - destruct H as [<-|H].
    + split; [now left|now apply isin_not_In].
    + destruct (IH _ _ H) as [H1 H2]. split; [now right|].
      intros N. apply H2. now right.
Qed.

Lemma drop_duplicates_aux_col : forall l vistos p,
  In p (map col (drop_duplicates_aux col vistos l))
  <-> In p (map col l) /\ ~ In p vistos.
Proof.
  induction l as [|x l IH]; intros vistos p; simpl; [tauto|].
  destruct (isin (col x) vistos) eqn:E.
  - rewrite IH. apply isin_In in E. split.
    + intros [H1 H2]. split; [now right|assumption].
    + intros [[<-|H1] H2]; [contradiction|now split].
  - apply isin_not_In in E. simpl. rewrite IH. simpl. split.
    + intros [<-|[H1 H2]]; [now split; [left|]|].
      split; [now right|]. intros N. apply H2. now right.
    + intros [[<-|H1] H2]; [now left|].
      destruct (Z.eq_dec (col x) p) as [->|N]; [now left|].
      right. split; [exact H1|]. now intros [?|?].
Qed.

Lemma drop_duplicates_aux_NoDup : forall l vistos,
  NoDup (map col (drop_duplicates_aux col vistos l)).
Proof.
  induction l as [|x l IH]; intros vistos; simpl; [constructor|].
  destruct (isin (col x) vistos); [apply IH|].
  simpl. constructor; [|apply IH].
  rewrite drop_duplicates_aux_col. intros [_ N]. apply N. now left.
Qed.

(** A row [drop_duplicates] keeps is the first one of its key. *)
Lemma drop_duplicates_aux_primeira : forall l vistos r,
  In r (drop_duplicates_aux col vistos l) ->
  find (fun x => Z.eqb (col x) (col r)) l = Some r.
Proof.
  induction l as [|x l IH]; intros vistos r H; [contradiction|].
  simpl in H. simpl. destruct (isin (col x) vistos) eqn:E.
  - pose proof (drop_duplicates_aux_In _ _ _ H) as [_ N].
    apply isin_In in E.
    destruct (Z.eqb_spec (col x) (col r)) as [Q|_]; [congruence|].
    now apply (IH vistos).
  - destruct H as [<-|H]; [now rewrite Z.eqb_refl|].
    pose proof (drop_duplicates_aux_In _ _ _ H) as [_ N].
    destruct (Z.eqb_spec (col x) (col r)) as [Q|_].
    + exfalso. apply N. now left.
    + now apply (IH (col x :: vistos)).
Qed.

Lemma find_filter : forall (f : A -> bool) p l,
  (forall x, col x = p -> f x = true) ->
  find (fun x => Z.eqb (col x) p) (filter f l) = find (fun x => Z.eqb (col x) p) l.
Proof.
  intros f p l Hf. induction l as [|x l IH]; [reflexivity|]. simpl.
  destruct (f x) eqn:E; simpl.
  - now rewrite IH.
  - destruct (Z.eqb_spec (col x) p) as [Q|_]; [|exact IH].
    rewrite (Hf x Q) in E. discriminate.
Qed.

End Duplicatas.

(** C3, amended: when the position filter lists pairwise different
    positions [p1..pk] (at least one) and the table has a row at each of
    them, the positions of the filtered rows are [p1..pk] in the order
    given, whatever the storage order, and each row is the first row of the
    table at its position. *)
Theorem C3_ordem_das_posicoes : forall df posicoes_str ps,
  converte_posicoes posicoes_str = ps ->
  ps <> [] -> NoDup ps ->
  (forall p, In p ps -> exists r, In r df /\ CO_POSICAO r = p) ->
  exists res,
    _filtrar_por_posicao df posicoes_str = Ok res
    /\ map CO_POSICAO res = ps
    /\ Forall (fun r => primeira_linha df (CO_POSICAO r) = Some r) res.
Proof.
  intros df posicoes_str ps Hps Hne Hnd Hall.
  unfold _filtrar_por_posicao. rewrite Hps.
  destruct ps as [|p0 ps0] eqn:Eps; [congruence|]. rewrite <- Eps in *.
  assert (Hemp : empty ps = false) by now rewrite Eps.
  rewrite Hemp. rewrite (proj2 (is_unique_NoDup ps) Hnd).
  set (filtrado := filter (fun r => isin (CO_POSICAO r) ps) df).
  set (unicas := drop_duplicates CO_POSICAO filtrado).
  set (chave := fun a b : Linha =>
                  le_codigo (codigo ps (CO_POSICAO a)) (codigo ps (CO_POSICAO b))).
  exists (sort_values chave unicas). split; [reflexivity|].
  assert (Hin : forall p, In p (map CO_POSICAO (sort_values chave unicas)) <-> In p ps).
  { intros p. rewrite in_map_iff. setoid_rewrite sort_values_In.
    rewrite <- in_map_iff.
    unfold unicas, drop_duplicates. rewrite drop_duplicates_aux_col.
    unfold filtrado. rewrite in_map_iff. split.
    - intros [(r & <- & Hr) _]. apply filter_In in Hr.
      now apply isin_In.
    - intros Hp. split; [|tauto].
      destruct (Hall p Hp) as (r & Hr & <-). exists r. split; [reflexivity|].
      apply filter_In. split; [exact Hr|now apply isin_In]. }
  split.
  - apply StronglySorted_unico
      with (R := fun p q => le_codigo (codigo ps p) (codigo ps q) = true).
    + intros x y Hx Hy Hxy Hyx. apply Hin in Hx, Hy.
      destruct (In_codigo _ _ Hx) as [i Hi], (In_codigo _ _ Hy) as [j Hj].
      rewrite Hi, Hj in Hxy, Hyx. simpl in Hxy, Hyx.
      apply Nat.leb_le in Hxy, Hyx.
      apply (codigo_inj ps x y i); [exact Hi|]. rewrite Hj. f_equal. lia.
    + apply StronglySorted_map. apply sort_values_sorted.
      * intros a b. apply le_codigo_total.
      * intros a b c. apply le_codigo_trans.
    + now apply codigo_ordenado.
    + apply NoDup_Permutation; [|exact Hnd|exact Hin].
      eapply Permutation_NoDup.
      * apply Permutation_map, Permutation_sym, sort_values_perm.
      * apply drop_duplicates_aux_NoDup.
  - apply Forall_forall. intros r Hr. apply sort_values_In in Hr.
    unfold primeira_linha.
    pose proof (drop_duplicates_aux_In _ _ _ _ Hr) as [Hf _].
    apply drop_duplicates_aux_primeira in Hr.
    rewrite <- Hr. unfold filtrado. symmetry. apply find_filter.
    intros x Hx. apply filter_In in Hf. destruct Hf as [_ Hf]. now rewrite Hx.
Qed.

End Posicao.

(** ** Numbering of the assembled questions *)

Section Numeracao.
Import Pandas Main Exemplos.
Local Open Scope string_scope.
Local Open Scope list_scope.
Local Open Scope Z_scope.

Lemma numera_numeros : forall d n,
  map NUMERO_QUESTAO (numera n d) = contagem n (length d).
Proof.
  induction d as [|r d IH]; intros n; [reflexivity|].
  simpl. now rewrite IH.
Qed.

Lemma numera_linhas : forall d n, map linha_ano (numera n d) = d.
Proof.
  induction d as [|r d IH]; intros n; [reflexivity|].
  simpl. now rewrite IH.
Qed.

Lemma numera_length : forall d n, length (numera n d) = length d.
Proof.
  induction d as [|r d IH]; intros n; [reflexivity|].
  simpl. now rewrite IH.
Qed.

Lemma contagem_limites : forall len n x,
  In x (contagem n len) -> n <= x < n + Z.of_nat len.
Proof.
  induction len as [|len IH]; intros n x H; [contradiction|].
  destruct H as [<-|H]; [lia|]. apply IH in H. lia.
Qed.

(** The loop of [_processar_questoes] on rows numbered from [idx]: it
    ends, and appends one question per row whose details were found, with
    the number of the row. *)
Lemma laco_questoes_numeros : forall arquivos d idx questoes log,
  Forall (fun r => Py.int_str (ANO r) <> None) d ->
  exists novas log',
    laco_questoes arquivos idx (numera idx d) questoes log
    = (Ok (questoes ++ novas)%list, log')
    /\ map numero novas
       = map NUMERO_QUESTAO (filter (tem_detalhes arquivos) (numera idx d)).
Proof.
  intros arquivos d. induction d as [|r d IH]; intros idx questoes log H.
  - exists [], log. split; [|reflexivity]. simpl. now rewrite app_nil_r.
  - apply Forall_cons_iff in H. destruct H as [Hr Hd].
    cbn [numera laco_questoes filter]. unfold tem_detalhes at 1.
    cbn [linha_ano NUMERO_QUESTAO].
    destruct (Py.int_str (ANO r)) as [ano|] eqn:Ea; [|congruence].
    unfold bind at 1, carregar_detalhes_questao.
    destruct (arquivos ano (CO_POSICAO (linha r))) as [| |[|kv dados]] eqn:Earq.
    + destruct (IH (idx + 1) questoes
                   ((log ++ [AvisoJsonNaoEncontrado ano (CO_POSICAO (linha r))])
                      ++ [AvisoDadosJson ano (CO_POSICAO (linha r))])%list Hd)
        as (novas & log' & E & Hn).
      exists novas, log'. split; [|exact Hn].
      unfold bind, logger, ret. cbn. exact E.
    + destruct (IH (idx + 1) questoes
                   ((log ++ [ErroJson ano (CO_POSICAO (linha r))])
                      ++ [AvisoDadosJson ano (CO_POSICAO (linha r))])%list Hd)
        as (novas & log' & E & Hn).
      exists novas, log'. split; [|exact Hn].
      unfold bind, logger, ret. cbn. exact E.
    + destruct (IH (idx + 1) questoes
                   (log ++ [AvisoDadosJson ano (CO_POSICAO (linha r))])%list Hd)
        as (novas & log' & E & Hn).
      exists novas, log'. split; [|exact Hn].
      unfold bind, logger, ret. cbn. exact E.
    + destruct (IH (idx + 1)
                   (questoes ++ [criar_objeto_questao (mkLinhaNum idx r)
                                   (kv :: dados) idx ano])%list log Hd)
        as (novas & log' & E & Hn).
      exists (criar_objeto_questao (mkLinhaNum idx r) (kv :: dados) idx ano :: novas),
             log'.
      split.
      * unfold ret. cbn. rewrite E. now rewrite <- app_assoc.
      * cbn. now rewrite Hn.
Qed.

Lemma filter_contagem : forall (f : LinhaNum -> bool) d n,
  let numeros := map NUMERO_QUESTAO (filter f (numera n d)) in
  StronglySorted Z.lt numeros
  /\ Forall (fun x => n <= x < n + Z.of_nat (length d)) numeros
  /\ (forallb f (numera n d) = true -> numeros = contagem n (length d)).
Proof.
  intros f d n numeros. subst numeros. split; [|split].
  - apply StronglySorted_map.
    apply StronglySorted_filter.
    assert (G : forall d n, StronglySorted
                (fun a b => NUMERO_QUESTAO a < NUMERO_QUESTAO b) (numera n d)).
    { clear. induction d as [|r d IH]; intros n; simpl; constructor; [apply IH|].
      apply Forall_forall. intros x Hx.
      assert (Hm : In (NUMERO_QUESTAO x) (map NUMERO_QUESTAO (numera (n + 1) d)))
        by now apply in_map.
      rewrite numera_numeros in Hm. apply contagem_limites in Hm. simpl. lia. }
    apply G.
  - apply Forall_forall. intros x Hx. apply in_map_iff in Hx.
    destruct Hx as (r & <- & Hr). apply filter_In in Hr. destruct Hr as [Hr _].
    assert (Hm : In (NUMERO_QUESTAO r) (map NUMERO_QUESTAO (numera n d)))
      by now apply in_map.
    rewrite numera_numeros in Hm. now apply contagem_limites.
  - intros Hall. rewrite <- numera_numeros. f_equal.
    apply forallb_filter_id. exact Hall.
Qed.

End Numeracao.

(** ** The log monad *)

Section Monada.
Import Main.

Lemma regular_ret : forall {A : Type} (a : A), regular (ret a).
Proof. intros A a log. unfold ret, resultado, registros. simpl. now rewrite app_nil_r. Qed.

Lemma regular_logger : forall e, regular (logger e).
Proof. intros e log. reflexivity. Qed.

Lemma regular_raise : forall {A : Type} e, regular (@raise A e).
Proof. intros A e log. unfold raise, resultado, registros. simpl. now rewrite app_nil_r. Qed.

Lemma regular_lift : forall {A : Type} (r : Resultado A), regular (lift r).
Proof. intros A r log. unfold lift, resultado, registros. simpl. now rewrite app_nil_r. Qed.

Lemma regular_bind : forall {A B : Type} (m : M A) (f : A -> M B),
  regular m -> (forall a, regular (f a)) -> regular (bind m f).
Proof.
  intros A B m f Hm Hf log. unfold resultado, registros, bind.
  rewrite (Hm log), (Hm []).
  destruct (resultado m) as [a|e]; [|reflexivity].
  rewrite (Hf a (log ++ registros m)%list), (Hf a ([] ++ registros m)%list).
  simpl. now rewrite app_assoc.
Qed.

Lemma resultado_bind : forall {A B : Type} (m : M A) (f : A -> M B),
  regular m -> (forall a, regular (f a)) ->
  resultado (bind m f)
  = match resultado m with
    | Ok a => resultado (f a)
    | Raise e => Raise e
    end.
Proof.
  intros A B m f Hm Hf. unfold resultado at 1. unfold bind.
  rewrite (Hm []). destruct (resultado m) as [a|e]; [|reflexivity].
  now rewrite (Hf a).
Qed.

Lemma registros_bind : forall {A B : Type} (m : M A) (f : A -> M B),
  regular m -> (forall a, regular (f a)) ->
  registros (bind m f)
  = match resultado m with
    | Ok a => (registros m ++ registros (f a))%list
    | Raise e => registros m
    end.
Proof.
  intros A B m f Hm Hf. unfold registros at 1. unfold bind.
  rewrite (Hm []). destruct (resultado m) as [a|e]; [|reflexivity].
  now rewrite (Hf a).
Qed.

Lemma regular_fst : forall {A : Type} (m : M A) log,
  regular m -> fst (m log) = resultado m.
Proof. intros A m log H. now rewrite (H log). Qed.

End Monada.

Create HintDb regular.
#[local] Hint Resolve regular_ret regular_logger regular_raise regular_lift : regular.

(** ** The filters of one year *)

Section FiltrosDoAno.
Import Pandas Main Exemplos.
Local Open Scope string_scope.
Local Open Scope list_scope.

Lemma regular_laco_materias : forall provas_ano ano materias provas,
  regular (laco_materias provas_ano ano materias provas).
Proof.
  intros provas_ano ano materias. induction materias as [|m ms IH]; intros provas.
  - apply regular_ret.
  - simpl. destruct (dict_get provas_ano m); [apply IH|].
    apply regular_bind; [apply regular_logger|]. intros _. apply IH.
Qed.

Lemma regular_obter_provas : forall ano materias,
  regular (_obter_provas_escolhidas ano materias).
Proof.
  intros ano materias. unfold _obter_provas_escolhidas.
  destruct (dict_get ListaProva.provas_regulares ano).
  - apply regular_laco_materias.
  - apply regular_bind; auto with regular.
Qed.

Lemma regular_filtrar_por_habilidade : forall df habilidades,
  regular (_filtrar_por_habilidade df habilidades).
Proof.
  intros df habilidades. unfold _filtrar_por_habilidade.
  destruct (empty df); [apply regular_ret|].
  destruct (empty _); apply regular_bind; auto with regular.
Qed.

Lemma regular_aplicar_filtros : forall df ano materias filtros,
  regular (_aplicar_filtros df ano materias filtros).
Proof.
  intros df ano materias filtros. unfold _aplicar_filtros.
  apply regular_bind; [apply regular_obter_provas|]. intros provas.
  destruct (empty provas).
  - apply regular_bind; auto with regular.
  - apply regular_bind.
    + destruct (_ && _); [apply regular_filtrar_por_habilidade|apply regular_ret].
    + intros df'. destruct (verdadeiro_str _); [apply regular_lift|].
      destruct (get _ _); apply regular_ret.
Qed.

Lemma regular_aplicar_filtros_globais : forall df filtros,
  regular (_aplicar_filtros_globais df filtros).
Proof.
  intros df filtros. unfold _aplicar_filtros_globais.
  destruct (empty df); [apply regular_ret|].
  destruct (_ && _); [|apply regular_ret].
  destruct (_ >? _)%Z; [|apply regular_ret].
  apply regular_bind; auto with regular.
Qed.

Lemma regular_laco_anos : forall df_anos anos_int materias filtros dfs,
  regular (laco_anos df_anos anos_int materias filtros dfs).
Proof.
  intros df_anos anos_int materias filtros.
  induction anos_int as [|a l IH]; intros dfs; [apply regular_ret|].
  simpl. apply regular_bind; [apply regular_aplicar_filtros|].
  intros r. apply IH.
Qed.

Lemma regular_carregar_questoes : forall tbl anos materias filtros,
  regular (carregar_questoes tbl anos materias filtros).
Proof.
  intros tbl anos materias filtros. unfold carregar_questoes.
  destruct (empty tbl); [apply regular_bind; auto with regular|].
  apply regular_bind; [apply regular_lift|]. intros anos_int.
  destruct (empty _); [apply regular_bind; auto with regular|].
  apply regular_bind; [apply regular_laco_anos|]. intros dfs.
  destruct (empty dfs); [apply regular_ret|].
  apply regular_bind; [apply regular_aplicar_filtros_globais|].
  intros r. apply regular_ret.
Qed.

End FiltrosDoAno.

(** ** The scenario of two years and a cap of ten *)

Section Cenario.
Import Pandas Main Exemplos.
Local Open Scope string_scope.
Local Open Scope list_scope.

(** [_filtrar_por_dificuldade] keeps the rows within the bounds in
    force. *)
Lemma filtrar_por_dificuldade_mantem : forall df lo hi,
  Permutation (_filtrar_por_dificuldade df lo hi)
    (filter (fun r => (Qeq_bool lo 0 || maior_igual (NU_PARAM_B r) lo)
                      && (Qeq_bool hi 2000 || menor_igual (NU_PARAM_B r) hi)) df).
Proof.
  intros df lo hi. unfold _filtrar_por_dificuldade.
  destruct df as [|r0 df]; [reflexivity|].
  change (empty (r0 :: df)) with false. cbv iota.
  destruct (Qeq_bool lo 0), (Qeq_bool hi 2000); cbn [andb orb]; cbv zeta.
  - rewrite sort_values_perm. rewrite filter_todos; reflexivity.
  - apply sort_values_perm.
  - rewrite sort_values_perm.
    rewrite (filter_ext (fun r => maior_igual (NU_PARAM_B r) lo && true)
                        (fun r => maior_igual (NU_PARAM_B r) lo));
      [reflexivity|intros r; apply andb_true_r].
  - apply sort_values_perm.
Qed.

(** One year of a request with a cap and neither positions nor skills:
    the rows of the requested subjects and resolved exams that the
    difficulty filter lets pass, in some order. *)
Lemma aplicar_filtros_so_quantidade : forall q filtros df ano materias provas,
  so_quantidade q filtros ->
  resultado (_obter_provas_escolhidas ano materias) = Ok provas ->
  empty provas = false ->
  exists res,
    resultado (_aplicar_filtros df ano materias filtros) = Ok res
    /\ Permutation res
         (filter (passa_dificuldade filtros)
            (filter (fun r => isin_str (SG_AREA r) materias
                              && isin (CO_PROVA r) (values provas)) df)).
Proof.
  intros q filtros df ano materias provas (Hp & Hh & _) Hprov Hne.
  unfold resultado, _aplicar_filtros, bind.
  rewrite (regular_obter_provas ano materias []), Hprov, Hne, Hh.
  unfold ret at 1. rewrite Hp. unfold passa_dificuldade. cbv zeta.
  destruct (get (filtrar_dificuldade filtros) true); unfold ret; cbn [fst negb orb].
  - eexists. split; [reflexivity|]. apply filtrar_por_dificuldade_mantem.
  - eexists. split; [reflexivity|].
    rewrite (filter_todos (fun _ : Linha => true)); reflexivity.
Qed.

Lemma laco_anos_passo : forall df a l materias filtros dfs,
  resultado (laco_anos df (a :: l) materias filtros dfs)
  = match resultado (_aplicar_filtros (filter (fun r => Z.eqb (ANO_PROVA r) a) df)
                       (Py.str a) materias filtros) with
    | Ok r =>
        resultado (laco_anos df l materias filtros
                     (if negb (empty r)
                      then (dfs ++ [map (mkLinhaAno (Py.str a)) r])%list
                      else dfs))
    | Raise e => Raise e
    end.
Proof.
  intros df a l materias filtros dfs. cbn [laco_anos].
  rewrite resultado_bind;
    [reflexivity|apply regular_aplicar_filtros|intros r; apply regular_laco_anos].
Qed.

Lemma carregar_questoes_resultado : forall tbl anos anos_int materias filtros,
  tbl <> [] -> converte_anos anos = Ok anos_int ->
  resultado (carregar_questoes tbl anos materias filtros)
  = let df_anos := filter (fun r => isin (ANO_PROVA r) anos_int) tbl in
    if empty df_anos then Ok []
    else match resultado (laco_anos df_anos anos_int materias filtros []) with
         | Ok dfs =>
             if empty dfs then Ok []
             else match resultado (_aplicar_filtros_globais (concat dfs) filtros) with
                  | Ok df_final => Ok (numera 1%Z df_final)
                  | Raise e => Raise e
                  end
         | Raise e => Raise e
         end.
Proof.
  intros tbl anos anos_int materias filtros Hne Hanos.
  unfold carregar_questoes. destruct tbl as [|r0 tbl]; [congruence|].
  change (empty (r0 :: tbl)) with false. cbv iota.
  unfold resultado at 1. unfold bind at 1. unfold lift. rewrite Hanos.
  cbv zeta.
  remember (filter (fun r => isin (ANO_PROVA r) anos_int) (r0 :: tbl)) as D.
  destruct (empty D); [reflexivity|].
  unfold bind at 1.
  rewrite (regular_laco_anos D anos_int materias filtros [] []).
  destruct (resultado (laco_anos D anos_int materias filtros [])) as [dfs|e];
    [|reflexivity].
  destruct (empty dfs); [reflexivity|].
  unfold bind.
  rewrite (regular_aplicar_filtros_globais (concat dfs) filtros _).
  now destruct (resultado (_aplicar_filtros_globais (concat dfs) filtros)).
Qed.

Lemma globais_so_quantidade : forall q filtros df,
  so_quantidade q filtros -> (0 < q)%Z -> (q < Z.of_nat (length df))%Z ->
  resultado (_aplicar_filtros_globais df filtros)
  = Ok (firstn (Z.to_nat q) (sort_values por_ano_dificuldade df)).
Proof.
  intros q filtros df (Hp & _ & Hf & Hq) Hpos Hlen.
  unfold resultado, _aplicar_filtros_globais.
  destruct df as [|r df]; [simpl in Hlen; lia|].
  change (empty (r :: df)) with false. cbv iota.
  rewrite Hf, Hq, Hp. cbn [verdadeiro_bool verdadeiro_int get negb].
  destruct (Z.eqb_spec q 0) as [->|_]; [lia|]. cbn [negb andb].
  destruct (Z.gtb_spec (Z.of_nat (length (r :: df))) q) as [_|G]; [|lia].
  unfold bind, logger, ret, head. cbn [fst].
  destruct (Z.leb_spec 0 q); [reflexivity|lia].
Qed.

(** The rows one year gives in the scenario. *)
Lemma linhas_do_ano : forall tbl anos_int y c,
  In y anos_int ->
  filter (fun r => isin_str (SG_AREA r) ["MT"] && isin (CO_PROVA r) [c])
    (filter (fun r => Z.eqb (ANO_PROVA r) y)
       (filter (fun r => isin (ANO_PROVA r) anos_int) tbl))
  = filter (fun r => Z.eqb (ANO_PROVA r) y && String.eqb (SG_AREA r) "MT"
                     && Z.eqb (CO_PROVA r) c) tbl.
Proof.
  intros tbl anos_int y c Hy. rewrite !filter_filter. apply filter_ext.
  intros r. unfold isin_str. cbn [existsb isin]. rewrite !orb_false_r.
  destruct (Z.eqb_spec (ANO_PROVA r) y) as [->|N].
  - rewrite (proj2 (isin_In y anos_int) Hy). reflexivity.
  - now rewrite andb_false_r.
Qed.

Lemma ano_dificuldade_mesmo_ano : forall a b,
  ANO a = ANO b -> ano_dificuldade_le a b -> linha_le (linha a) (linha b).
Proof.
  intros a b E [L|[_ H]]; [|exact H].
  rewrite E, ltb_irrefl in L. discriminate.
Qed.

(** The ten rows the scenario keeps, out of the rows [a20] of 2020 and
    [a21] of 2021 in either order. *)
Lemma dez_primeiras : forall (a20 a21 : list Linha) (combinado : list LinhaAno),
  length a20 = 50 ->
  Permutation combinado
    (map (mkLinhaAno "2020") a20 ++ map (mkLinhaAno "2021") a21) ->
  exists mantidas resto,
    firstn 10 (sort_values por_ano_dificuldade combinado) = mantidas
    /\ length mantidas = 10
    /\ Permutation (map linha mantidas ++ resto) a20
    /\ Forall (fun r => ANO r = "2020") mantidas
    /\ StronglySorted linha_le (map linha mantidas)
    /\ Forall (fun r => Forall (linha_le (linha r)) resto) mantidas.
Proof.
  intros a20 a21 combinado H20 Hperm.
  set (ord := sort_values por_ano_dificuldade combinado).
  set (p := fun r : LinhaAno => String.eqb (ANO r) "2020").
  assert (Hord : Permutation ord
                   (map (mkLinhaAno "2020") a20 ++ map (mkLinhaAno "2021") a21)).
  { transitivity combinado; [apply sort_values_perm|exact Hperm]. }
  assert (Hanos : forall r, In r ord -> ANO r = "2020" \/ ANO r = "2021").
  { intros r Hr. apply (Permutation_in _ Hord) in Hr.
    apply in_app_or in Hr. destruct Hr as [Hr|Hr];
      apply in_map_iff in Hr; destruct Hr as (x & <- & _); auto. }
  assert (Hsorted : StronglySorted ano_dificuldade_le ord)
    by apply ordenado_por_ano_dificuldade.
  assert (Hpart : ord = filter p ord ++ filter (fun x => negb (p x)) ord).
  { apply StronglySorted_particao with (R := ano_dificuldade_le); [|exact Hsorted].
    intros x y Hx Hy Hxy Hpy. unfold p in *. apply String.eqb_eq in Hpy.
    apply String.eqb_eq.
    destruct (Hanos x Hx) as [E|E]; [exact E|].
    destruct Hxy as [L|[E' _]]; [|congruence].
    rewrite E, Hpy in L. discriminate. }
  assert (Hp20 : Permutation (filter p ord) (map (mkLinhaAno "2020") a20)).
  { rewrite (Permutation_filter p _ _ Hord), filter_app.
    rewrite filter_todos, filter_nenhum, app_nil_r; [reflexivity| |].
    - intros x Hx. apply in_map_iff in Hx. now destruct Hx as (y & <- & _).
    - intros x Hx. apply in_map_iff in Hx. now destruct Hx as (y & <- & _). }
  assert (Hlen : length (filter p ord) = 50).
  { rewrite (Permutation_length Hp20), length_map. exact H20. }
  assert (Hs20 : StronglySorted ano_dificuldade_le (filter p ord))
    by now apply StronglySorted_filter.
  assert (Hall20 : forall r, In r (filter p ord) -> ANO r = "2020").
  { intros r Hr. apply filter_In in Hr. destruct Hr as [_ Hr].
    now apply String.eqb_eq in Hr. }
  exists (firstn 10 (filter p ord)), (map linha (skipn 10 (filter p ord))).
  split; [|split; [|split; [|split; [|split]]]].
  - rewrite Hpart at 1. rewrite firstn_app, Hlen. simpl (10 - 50).
    now rewrite firstn_O, app_nil_r.
  - rewrite firstn_length_le; [reflexivity|lia].
  - rewrite <- map_app, firstn_skipn.
    rewrite (Permutation_map linha Hp20), map_map. simpl. now rewrite map_id.
  - apply Forall_forall. intros r Hr. apply Hall20.
    rewrite <- (firstn_skipn 10 (filter p ord)). apply in_or_app. now left.
  - apply StronglySorted_map.
    apply StronglySorted_impl with (R := ano_dificuldade_le).
    + intros x y Hx Hy. apply ano_dificuldade_mesmo_ano.
      rewrite !Hall20; [reflexivity| |];
        rewrite <- (firstn_skipn 10 (filter p ord)); apply in_or_app; now left.
    + now apply StronglySorted_firstn.
  - pose proof (StronglySorted_corte ano_dificuldade_le 10 _ Hs20) as Hc.
    rewrite Forall_forall in Hc |- *. intros r Hr.
    specialize (Hc r Hr). rewrite Forall_forall in Hc |- *.
    intros x Hx. apply in_map_iff in Hx. destruct Hx as (y & <- & Hy).
    apply ano_dificuldade_mesmo_ano; [|now apply Hc].
    rewrite !Hall20; [reflexivity| |];
      rewrite <- (firstn_skipn 10 (filter p ord)); apply in_or_app; auto.
Qed.

End Cenario.

Section CenarioTeorema.
Import Pandas Main Exemplos.
Local Open Scope string_scope.
Local Open Scope list_scope.

Lemma linhas_da_prova_2020 : forall tbl,
  linhas_da_prova tbl 2020 "MT"
  = filter (fun r => Z.eqb (ANO_PROVA r) 2020 && String.eqb (SG_AREA r) "MT"
                     && Z.eqb (CO_PROVA r) 587) tbl.
Proof. reflexivity. Qed.

Lemma linhas_da_prova_2021 : forall tbl,
  linhas_da_prova tbl 2021 "MT"
  = filter (fun r => Z.eqb (ANO_PROVA r) 2021 && String.eqb (SG_AREA r) "MT"
                     && Z.eqb (CO_PROVA r) 899) tbl.
Proof. reflexivity. Qed.

(** The rows of one year of the scenario, as the year loop gets them. *)
Lemma ano_do_cenario : forall tbl anos_int filtros y c,
  so_quantidade 10 filtros -> In y anos_int ->
  resultado (_obter_provas_escolhidas (Py.str y) ["MT"]) = Ok [("MT", c)] ->
  exists res,
    resultado (_aplicar_filtros
                 (filter (fun r => Z.eqb (ANO_PROVA r) y)
                    (filter (fun r => isin (ANO_PROVA r) anos_int) tbl))
                 (Py.str y) ["MT"] filtros)
    = Ok res
    /\ Permutation res
         (filter (passa_dificuldade filtros)
            (filter (fun r => Z.eqb (ANO_PROVA r) y && String.eqb (SG_AREA r) "MT"
                              && Z.eqb (CO_PROVA r) c) tbl)).
Proof.
  intros tbl anos_int filtros y c Hf Hy Hprov.
  destruct (aplicar_filtros_so_quantidade 10 filtros
              (filter (fun r => Z.eqb (ANO_PROVA r) y)
                 (filter (fun r => isin (ANO_PROVA r) anos_int) tbl))
              _ _ _ Hf Hprov eq_refl) as (res & E & P).
  exists res. split; [exact E|].
  cbn [values map snd] in P. now rewrite linhas_do_ano in P.
Qed.

Lemma nao_vazia : forall {A : Type} (l : list A),
  0 < length l -> empty l = false.
Proof. intros A [|x l] H; [simpl in H; lia|reflexivity]. Qed.

(** The combined table of the scenario has the fifty rows of 2020 and the
    rows of 2021 that the difficulty filter lets pass, and ten of the rows
    of 2020 are kept. *)
Lemma cenario_combinado : forall tbl filtros res20 res21 (combinado : list LinhaAno),
  so_quantidade 10 filtros ->
  length (linhas_da_prova tbl 2020 "MT") = 50 ->
  Permutation res20 (linhas_da_prova tbl 2020 "MT") ->
  Permutation combinado
    (map (mkLinhaAno "2020") res20 ++ map (mkLinhaAno "2021") res21) ->
  exists res resto,
    match resultado (_aplicar_filtros_globais combinado filtros) with
    | Ok df_final => Ok (numera 1 df_final)
    | Raise e => Raise e
    end = Ok res
    /\ map NUMERO_QUESTAO res = [1; 2; 3; 4; 5; 6; 7; 8; 9; 10]%Z
    /\ Forall (fun r => ANO (linha_ano r) = "2020") res
    /\ Permutation (map linha_de_num res ++ resto) (linhas_da_prova tbl 2020 "MT")
    /\ StronglySorted linha_le (map linha_de_num res)
    /\ Forall (fun r => Forall (linha_le (linha_de_num r)) resto) res.
Proof.
  intros tbl filtros res20 res21 combinado Hf H20 P20 Hperm.
  assert (L20 : length res20 = 50) by now rewrite (Permutation_length P20).
  assert (Hlen : 50 <= length combinado).
  { rewrite (Permutation_length Hperm), length_app, !length_map, L20. lia. }
  rewrite (globais_so_quantidade 10 filtros combinado Hf); [|lia|lia].
  change (Z.to_nat 10) with 10.
  destruct (dez_primeiras _ _ combinado L20 Hperm)
    as (mantidas & resto & E & Hl & Hp & Ha & Hs & Hc).
  rewrite E. exists (numera 1 mantidas), resto.
  assert (Hmap : map linha_de_num (numera 1 mantidas) = map linha mantidas).
  { unfold linha_de_num. rewrite <- (map_map linha_ano linha).
    now rewrite numera_linhas. }
  split; [reflexivity|]. split; [now rewrite numera_numeros, Hl|].
  split; [|split; [|split]].
  - apply Forall_forall. intros r Hr. rewrite Forall_forall in Ha. apply Ha.
    rewrite <- (numera_linhas mantidas 1). now apply in_map.
  - rewrite Hmap, Hp. exact P20.
  - now rewrite Hmap.
  - apply Forall_forall. intros r Hr. rewrite Forall_forall in Hc.
    apply (Hc (linha_ano r)). rewrite <- (numera_linhas mantidas 1).
    now apply in_map.
Qed.

(** The rows one year adds to the list of the year loop: none when the
    year has no row left. *)
Lemma concat_do_ano : forall (dfs : list (list LinhaAno)) ano (res : list Linha),
  concat (if negb (empty res) then dfs ++ [map (mkLinhaAno ano) res] else dfs)
  = concat dfs ++ map (mkLinhaAno ano) res.
Proof.
  intros dfs ano [|r res]; cbn [empty negb].
  - cbn [map]. now rewrite app_nil_r.
  - rewrite concat_app. cbn [concat]. now rewrite app_nil_r.
Qed.

Lemma nao_vazia_do_ano : forall (dfs : list (list LinhaAno)) ano (res : list Linha),
  empty dfs = false \/ empty res = false ->
  empty (if negb (empty res) then dfs ++ [map (mkLinhaAno ano) res] else dfs)
  = false.
Proof.
  intros dfs ano res [H|H].
  - destruct (negb (empty res)); [|exact H]. now destruct dfs.
  - rewrite H. cbn [negb]. now destruct dfs.
Qed.

(** C1, amended: with the years 2020 and 2021, the subject MT, a cap of
    ten, no position filter, no skill filter and a difficulty filter that
    removes no MT row of 2020 (the filter is off, or its bounds are the
    values 0 and 2000 that stand for no bound, or every MT row of 2020 is
    within the bounds in force), over a table with fifty MT rows of the
    reference exam in each of the two years, the result has exactly ten
    questions, numbered 1..10; they are rows of 2020, in ascending
    difficulty, and no MT row of 2020 left out is easier than one of them:
    the ten are the first ten in (year, difficulty) order. *)
Theorem C1_dez_questoes_do_primeiro_ano : forall tbl anos filtros log,
  Permutation anos ["2020"; "2021"] ->
  length (linhas_da_prova tbl 2020 "MT") = 50 ->
  length (linhas_da_prova tbl 2021 "MT") = 50 ->
  so_quantidade 10 filtros ->
  forallb (passa_dificuldade filtros) (linhas_da_prova tbl 2020 "MT") = true ->
  exists res resto,
    fst (carregar_questoes tbl anos ["MT"] filtros log) = Ok res
    /\ map NUMERO_QUESTAO res = [1; 2; 3; 4; 5; 6; 7; 8; 9; 10]%Z
    /\ Forall (fun r => ANO (linha_ano r) = "2020") res
    /\ Permutation (map linha_de_num res ++ resto) (linhas_da_prova tbl 2020 "MT")
    /\ StronglySorted linha_le (map linha_de_num res)
    /\ Forall (fun r => Forall (linha_le (linha_de_num r)) resto) res.
Proof.
  intros tbl anos filtros log Hanos H20 _ Hf Hdif.
  assert (Hne : tbl <> []).
  { intros ->. simpl in H20. discriminate. }
  rewrite (regular_fst _ log (regular_carregar_questoes _ _ _ _)).
  assert (Hdf : forall anos_int, In 2020%Z anos_int ->
            empty (filter (fun r => isin (ANO_PROVA r) anos_int) tbl) = false).
  { intros anos_int Hin. rewrite linhas_da_prova_2020 in H20.
    destruct (filter _ tbl) as [|r l] eqn:E in H20; [discriminate|].
    assert (Hr : In r (r :: l)) by now left. rewrite <- E in Hr.
    apply filter_In in Hr. destruct Hr as [Hr Hc].
    apply andb_true_iff in Hc. destruct Hc as [Hc _].
    apply andb_true_iff in Hc. destruct Hc as [Hc _]. apply Z.eqb_eq in Hc.
    destruct (filter (fun r => isin (ANO_PROVA r) anos_int) tbl) eqn:E';
      [|reflexivity].
    assert (Hr' : In r (filter (fun r => isin (ANO_PROVA r) anos_int) tbl)).
    { apply filter_In. split; [exact Hr|]. rewrite Hc. now apply isin_In. }
    rewrite E' in Hr'. contradiction. }
  assert (Hano20 : forall anos_int, In 2020%Z anos_int ->
            exists res20,
              resultado (_aplicar_filtros
                           (filter (fun r => Z.eqb (ANO_PROVA r) 2020)
                              (filter (fun r => isin (ANO_PROVA r) anos_int) tbl))
                           (Py.str 2020) ["MT"] filtros) = Ok res20
              /\ Permutation res20 (linhas_da_prova tbl 2020 "MT")).
  { intros anos_int Hin.
    destruct (ano_do_cenario tbl anos_int filtros 2020 587 Hf Hin eq_refl)
      as (res20 & E & P).
    exists res20. split; [exact E|].
    rewrite <- linhas_da_prova_2020 in P.
    rewrite filter_todos in P; [exact P|].
    intros r Hr. rewrite forallb_forall in Hdif. now apply Hdif. }
  assert (Hano21 : forall anos_int, In 2021%Z anos_int ->
            exists res21,
              resultado (_aplicar_filtros
                           (filter (fun r => Z.eqb (ANO_PROVA r) 2021)
                              (filter (fun r => isin (ANO_PROVA r) anos_int) tbl))
                           (Py.str 2021) ["MT"] filtros) = Ok res21).
  { intros anos_int Hin.
    destruct (ano_do_cenario tbl anos_int filtros 2021 899 Hf Hin eq_refl)
      as (res21 & E & _).
    now exists res21. }
  apply Permutation_sym, Permutation_length_2_inv in Hanos.
  destruct Hanos as [-> | ->].
  - rewrite (carregar_questoes_resultado tbl ["2020"; "2021"] [2020; 2021]%Z
               ["MT"] filtros Hne eq_refl).
    cbv zeta. rewrite Hdf by (now left).
    destruct (Hano20 [2020; 2021]%Z) as (res20 & E20 & P20); [now left|].
    destruct (Hano21 [2020; 2021]%Z) as (res21 & E21); [right; now left|].
    rewrite laco_anos_passo, E20, laco_anos_passo, E21.
    cbn [laco_anos]. unfold resultado at 1, ret at 1. cbn [fst].
    assert (N20 : empty res20 = false).
    { apply nao_vazia. rewrite (Permutation_length P20), H20. lia. }
    rewrite nao_vazia_do_ano by (left; apply nao_vazia_do_ano; now right).
    rewrite !concat_do_ano. cbn [concat app].
    change (Py.str 2020) with "2020". change (Py.str 2021) with "2021".
    apply (cenario_combinado tbl filtros res20 res21 _ Hf H20 P20). reflexivity.
  - rewrite (carregar_questoes_resultado tbl ["2021"; "2020"] [2021; 2020]%Z
               ["MT"] filtros Hne eq_refl).
    cbv zeta. rewrite Hdf by (right; now left).
    destruct (Hano20 [2021; 2020]%Z) as (res20 & E20 & P20); [right; now left|].
    destruct (Hano21 [2021; 2020]%Z) as (res21 & E21); [now left|].
    rewrite laco_anos_passo, E21, laco_anos_passo, E20.
    cbn [laco_anos]. unfold resultado at 1, ret at 1. cbn [fst].
    assert (N20 : empty res20 = false).
    { apply nao_vazia. rewrite (Permutation_length P20), H20. lia. }
    rewrite nao_vazia_do_ano by (now right).
    rewrite !concat_do_ano. cbn [concat app].
    change (Py.str 2020) with "2020". change (Py.str 2021) with "2021".
    apply (cenario_combinado tbl filtros res20 res21 _ Hf H20 P20).
    apply Permutation_app_comm.
Qed.

End CenarioTeorema.

(** ** What one year and the whole run return *)

Section Execucao.
Import Pandas Main Exemplos.
Local Open Scope string_scope.
Local Open Scope list_scope.

Lemma isin_str_In : forall x l, isin_str x l = true <-> In x l.
Proof.
  intros x l. unfold isin_str. rewrite existsb_exists. split.
  - intros (y & Hy & E). apply String.eqb_eq in E. now subst.
  - intros H. exists x. split; [exact H|apply String.eqb_refl].
Qed.

Lemma dict_set_In : forall {V : Type} (d : list (string * V)) k v k' v',
  In (k', v') (dict_set d k v) -> In (k', v') d \/ (k' = k /\ v' = v).
Proof.
  intros V d k v k' v'. induction d as [|[k0 v0] d IH]; simpl.
  - intros [[= <- <-]|[]]. now right.
  - destruct (String.eqb_spec k k0) as [->|N].
    + intros [[= <- <-]|H]; [now right|left; now right].
    + intros [H|H]; [left; now left|].
      destruct (IH H) as [H'|H']; [left; now right|now right].
Qed.

Lemma laco_materias_passo : forall provas_ano ano m ms provas,
  resultado (laco_materias provas_ano ano (m :: ms) provas)
  = resultado (laco_materias provas_ano ano ms
                 (match dict_get provas_ano m with
                  | Some c => dict_set provas m c
                  | None => provas
                  end)).
Proof.
  intros provas_ano ano m ms provas. cbn [laco_materias].
  destruct (dict_get provas_ano m); [reflexivity|].
  rewrite resultado_bind;
    [reflexivity|apply regular_logger|intros _; apply regular_laco_materias].
Qed.

Lemma laco_materias_ok : forall provas_ano ano ms provas,
  exists finais, resultado (laco_materias provas_ano ano ms provas) = Ok finais.
Proof.
  intros provas_ano ano ms. induction ms as [|m ms IH]; intros provas.
  - now exists provas.
  - rewrite laco_materias_passo. apply IH.
Qed.

Lemma laco_materias_origem : forall provas_ano ano ms provas finais,
  resultado (laco_materias provas_ano ano ms provas) = Ok finais ->
  forall k v, In (k, v) finais ->
    In (k, v) provas \/ (In k ms /\ dict_get provas_ano k = Some v).
Proof.
  intros provas_ano ano ms. induction ms as [|m ms IH]; intros provas finais H k v Hin.
  - injection H as <-. now left.
  - rewrite laco_materias_passo in H.
    destruct (IH _ _ H k v Hin) as [Hp|[Hk Hv]].
    + destruct (dict_get provas_ano m) as [c|] eqn:E; [|now left].
      apply dict_set_In in Hp. destruct Hp as [Hp|[-> ->]]; [now left|].
      right. split; [now left|exact E].
    + right. split; [now right|exact Hv].
Qed.

Lemma obter_provas_ok : forall ano materias,
  exists provas, resultado (_obter_provas_escolhidas ano materias) = Ok provas.
Proof.
  intros ano materias. unfold _obter_provas_escolhidas.
  destruct (dict_get ListaProva.provas_regulares ano).
  - apply laco_materias_ok.
  - now exists [].
Qed.

(** A code that was resolved is the code of a requested subject. *)
Lemma obter_provas_origem : forall ano materias provas c,
  resultado (_obter_provas_escolhidas ano materias) = Ok provas ->
  In c (values provas) ->
  exists m, In m materias /\ codigo_da_prova ano m = Some c.
Proof.
  intros ano materias provas c H Hc. unfold _obter_provas_escolhidas in H.
  unfold codigo_da_prova.
  destruct (dict_get ListaProva.provas_regulares ano) as [provas_ano|].
  - apply in_map_iff in Hc. destruct Hc as ([k v] & <- & Hin).
    destruct (laco_materias_origem _ _ _ _ _ H k v Hin) as [[]|[Hk Hv]].
    now exists k.
  - injection H as <-. contradiction.
Qed.

(** The outcome of the filters of one year, stage by stage. *)
Lemma aplicar_filtros_resultado : forall df ano materias filtros provas,
  resultado (_obter_provas_escolhidas ano materias) = Ok provas ->
  resultado (_aplicar_filtros df ano materias filtros)
  = if empty provas then Ok []
    else
      let df_base :=
        filter (fun r => isin_str (SG_AREA r) materias
                         && isin (CO_PROVA r) (values provas)) df in
      let df_hab :=
        if verdadeiro_bool (filtrar_habilidade filtros)
           && verdadeiro_lista (habilidades filtros)
        then filter (fun r => isin_float (CO_HABILIDADE r)
                                (map inject_Z (get (habilidades filtros) [])))
                    df_base
        else df_base in
      if verdadeiro_str (posicoes filtros)
      then _filtrar_por_posicao df_hab (get (posicoes filtros) "")
      else if get (filtrar_dificuldade filtros) true
      then Ok (_filtrar_por_dificuldade df_hab
                 (get (min_dif filtros) 0%Q) (get (max_dif filtros) 2000%Q))
      else Ok df_hab.
Proof.
  intros df ano materias filtros provas Hprov.
  unfold resultado at 1, _aplicar_filtros, bind at 1.
  rewrite (regular_obter_provas ano materias []), Hprov.
  destruct (empty provas); [reflexivity|]. cbv zeta.
  set (df_base := filter _ df).
  destruct (verdadeiro_bool (filtrar_habilidade filtros)
            && verdadeiro_lista (habilidades filtros)).
  - unfold bind at 1.
    rewrite (regular_filtrar_por_habilidade df_base _ _).
    assert (E : resultado (_filtrar_por_habilidade df_base
                             (get (habilidades filtros) []))
                = Ok (filter (fun r => isin_float (CO_HABILIDADE r)
                                (map inject_Z (get (habilidades filtros) [])))
                        df_base)).
    { unfold _filtrar_por_habilidade. destruct df_base as [|r0 l]; [reflexivity|].
      change (empty (r0 :: l)) with false. cbv iota zeta.
      now destruct (empty (filter _ (r0 :: l))). }
    rewrite E.
    destruct (verdadeiro_str (posicoes filtros)); [reflexivity|].
    now destruct (get (filtrar_dificuldade filtros) true).
  - unfold bind at 1, ret at 1.
    destruct (verdadeiro_str (posicoes filtros)); [reflexivity|].
    now destruct (get (filtrar_dificuldade filtros) true).
Qed.

Lemma filtrar_por_posicao_sub : forall df s res,
  _filtrar_por_posicao df s = Ok res -> forall r, In r res -> In r df.
Proof.
  intros df s res H r Hr. unfold _filtrar_por_posicao in H.
  destruct (empty (converte_posicoes s)); [injection H as <-; exact Hr|].
  destruct (is_unique (converte_posicoes s)); [|discriminate].
  injection H as <-. apply sort_values_In in Hr.
  apply drop_duplicates_aux_In in Hr. destruct Hr as [Hr _].
  now apply filter_In in Hr.
Qed.

Lemma filtrar_por_posicao_ok : forall df s,
  NoDup (converte_posicoes s) -> exists res, _filtrar_por_posicao df s = Ok res.
Proof.
  intros df s H. unfold _filtrar_por_posicao.
  destruct (empty (converte_posicoes s)); [eauto|].
  rewrite (proj2 (is_unique_NoDup _) H). eauto.
Qed.

(** Every row one year returns is a row of that year's table, of a
    requested subject, with the code of a requested subject's exam. *)
Lemma aplicar_filtros_origem : forall df ano materias filtros res r,
  resultado (_aplicar_filtros df ano materias filtros) = Ok res ->
  In r res ->
  In r df /\ In (SG_AREA r) materias
  /\ exists m, In m materias /\ codigo_da_prova ano m = Some (CO_PROVA r).
Proof.
  intros df ano materias filtros res r H Hr.
  destruct (obter_provas_ok ano materias) as [provas Hprov].
  rewrite (aplicar_filtros_resultado _ _ _ _ _ Hprov) in H.
  destruct (empty provas); [injection H as <-; contradiction|].
  cbv zeta in H.
  set (df_base := filter _ df) in H.
  assert (Hbase : forall x, In x df_base ->
            In x df /\ In (SG_AREA x) materias
            /\ exists m, In m materias /\ codigo_da_prova ano m = Some (CO_PROVA x)).
  { intros x Hx. apply filter_In in Hx. destruct Hx as [Hx Hc].
    apply andb_true_iff in Hc. destruct Hc as [Ha Hc].
    split; [exact Hx|]. split; [now apply isin_str_In|].
    apply isin_In in Hc. now apply (obter_provas_origem ano materias provas). }
  set (df_hab := if _ && _ then _ else df_base) in H.
  assert (Hhab : forall x, In x df_hab -> In x df_base).
  { intros x. unfold df_hab. destruct (_ && _); [|tauto].
    intros Hx. now apply filter_In in Hx. }
  apply Hbase, Hhab.
  destruct (verdadeiro_str (posicoes filtros)).
  - now apply (filtrar_por_posicao_sub _ _ _ H).
  - destruct (get (filtrar_dificuldade filtros) true); injection H as <-.
    + now apply filtrar_por_dificuldade_In in Hr.
    + exact Hr.
Qed.

Lemma aplicar_filtros_ok : forall df ano materias filtros,
  posicoes_distintas filtros ->
  exists res, resultado (_aplicar_filtros df ano materias filtros) = Ok res.
Proof.
  intros df ano materias filtros Hpos.
  destruct (obter_provas_ok ano materias) as [provas Hprov].
  rewrite (aplicar_filtros_resultado _ _ _ _ _ Hprov).
  destruct (empty provas); [eauto|]. cbv zeta.
  destruct Hpos as [Hpos|Hpos].
  - rewrite Hpos. destruct (get (filtrar_dificuldade filtros) true); eauto.
  - destruct (verdadeiro_str (posicoes filtros)).
    + now apply filtrar_por_posicao_ok.
    + destruct (get (filtrar_dificuldade filtros) true); eauto.
Qed.


End Execucao.

Section ExecucaoAnos.
Import Pandas Main Exemplos.
Local Open Scope string_scope.
Local Open Scope list_scope.


Lemma laco_anos_origem : forall df l materias filtros dfs finais,
  resultado (laco_anos df l materias filtros dfs) = Ok finais ->
  forall r, In r (concat finais) ->
    In r (concat dfs) \/ origem df l materias r.
Proof.
  intros df l materias filtros. induction l as [|a l IH]; intros dfs finais H r Hr.
  - injection H as <-. now left.
  - rewrite laco_anos_passo in H.
    destruct (resultado (_aplicar_filtros _ (Py.str a) materias filtros))
      as [res|e] eqn:E; [|discriminate].
    destruct (IH _ _ H r Hr) as [Hacc|(y & Hy & Hrest)].
    + destruct (negb (empty res)); [|now left].
      rewrite concat_app in Hacc. apply in_app_or in Hacc.
      destruct Hacc as [Hacc|Hacc]; [now left|]. right.
      simpl in Hacc. rewrite app_nil_r in Hacc.
      apply in_map_iff in Hacc. destruct Hacc as (x & <- & Hx).
      destruct (aplicar_filtros_origem _ _ _ _ _ _ E Hx) as (Hdf & Harea & Hm).
      apply filter_In in Hdf. destruct Hdf as [Hdf Hano]. apply Z.eqb_eq in Hano.
      exists a. cbn [ANO linha]. repeat split; auto. now left.
    + right. exists y. split; [now right|exact Hrest].
Qed.

Lemma head_In : forall {A : Type} n (l : list A) x, In x (head n l) -> In x l.
Proof.
  intros A n l x. unfold head.
  destruct (0 <=? n)%Z; intros H;
    match type of H with
    | In _ (firstn ?k _) =>
        rewrite <- (firstn_skipn k l); apply in_or_app; now left
    end.
Qed.

Lemma globais_resultado : forall df filtros,
  exists res,
    resultado (_aplicar_filtros_globais df filtros) = Ok res
    /\ forall r, In r res -> In r df.
Proof.
  intros df filtros. unfold _aplicar_filtros_globais.
  destruct (empty df); [exists df; now split|].
  destruct (_ && _); [|exists df; now split].
  destruct (_ >? _)%Z; [|exists df; now split].
  eexists. split; [reflexivity|]. intros r Hr. apply head_In in Hr.
  destruct (negb _); [now apply sort_values_In in Hr|exact Hr].
Qed.

Lemma origem_tabela : forall tbl anos_int l materias r,
  origem (filter (fun x => isin (ANO_PROVA x) anos_int) tbl) l materias r ->
  (forall y, In y l -> In y anos_int) ->
  origem tbl anos_int materias r.
Proof.
  intros tbl anos_int l materias r (y & Hy & Ha & Hin & Hrest) Hl.
  exists y. split; [now apply Hl|]. split; [exact Ha|].
  split; [|exact Hrest]. now apply filter_In in Hin.
Qed.

(** Every row of the result has its origin in the table and the
    request. *)
Lemma carregar_questoes_origem : forall tbl anos anos_int materias filtros res,
  converte_anos anos = Ok anos_int ->
  resultado (carregar_questoes tbl anos materias filtros) = Ok res ->
  Forall (fun r => origem tbl anos_int materias (linha_ano r)) res
  /\ map NUMERO_QUESTAO res = contagem 1 (length res).
Proof.
  intros tbl anos anos_int materias filtros res Hanos H.
  destruct tbl as [|r0 tbl].
  { injection H as <-. split; [constructor|reflexivity]. }
  assert (Hne : r0 :: tbl <> []) by discriminate.
  rewrite (carregar_questoes_resultado _ _ _ _ _ Hne Hanos) in H.
  cbv zeta in H. set (df_anos := filter _ (r0 :: tbl)) in H.
  destruct (empty df_anos).
  { injection H as <-. split; [constructor|reflexivity]. }
  destruct (resultado (laco_anos df_anos anos_int materias filtros []))
    as [dfs|e] eqn:El; [|discriminate].
  destruct (empty dfs).
  { injection H as <-. split; [constructor|reflexivity]. }
  destruct (globais_resultado (concat dfs) filtros) as (fin & Hfin & Hsub).
  rewrite Hfin in H. injection H as <-. split.
  - apply Forall_forall. intros r Hr.
    assert (Hl : In (linha_ano r) fin).
    { rewrite <- (numera_linhas fin 1). now apply in_map. }
    apply Hsub in Hl.
    destruct (laco_anos_origem _ _ _ _ _ _ El _ Hl) as [[]|Ho].
    now apply (origem_tabela _ _ anos_int).
  - now rewrite numera_numeros, numera_length.
Qed.


End ExecucaoAnos.

(** ** C9: the numbers of the assembled questions *)

Section NumerosDasQuestoes.
Import Pandas Main Exemplos.
Local Open Scope string_scope.
Local Open Scope list_scope.

(** The years [provas_regulares] knows are numerals. *)
Lemma anos_do_indice : forall a,
  dict_get ListaProva.provas_regulares a <> None -> Py.int_str a <> None.
Proof.
  intros a. unfold ListaProva.provas_regulares. cbn [dict_get].
  repeat match goal with
         | |- context [String.eqb a ?k] =>
             destruct (String.eqb_spec a k) as [->|_];
               [intros _; vm_compute; discriminate|]
         end.
  congruence.
Qed.

(** On the years [provas_regulares] knows, the order of the texts is the
    order of the numbers. *)
Lemma ordem_dos_anos_do_indice : forall a b,
  dict_get ListaProva.provas_regulares a <> None ->
  dict_get ListaProva.provas_regulares b <> None ->
  exists x y, Py.int_str a = Some x /\ Py.int_str b = Some y
              /\ String.ltb a b = Z.ltb x y.
Proof.
  intros a b. unfold ListaProva.provas_regulares. cbn [dict_get].
  repeat match goal with
         | |- context [String.eqb a ?k] =>
             destruct (String.eqb_spec a k) as [->|_];
               [intros _;
                repeat match goal with
                       | |- context [String.eqb b ?k'] =>
                           destruct (String.eqb_spec b k') as [->|_];
                             [intros _; eexists; eexists;
                              repeat split; vm_compute; reflexivity|]
                       end; congruence|]
         end.
  congruence.
Qed.

Lemma origem_ano_numeral : forall tbl anos_int materias r,
  origem tbl anos_int materias r -> Py.int_str (ANO r) <> None.
Proof.
  intros tbl anos_int materias r (y & _ & -> & _ & _ & _ & m & _ & Hc).
  apply anos_do_indice. unfold codigo_da_prova in Hc.
  destruct (dict_get ListaProva.provas_regulares (Py.str y)); congruence.
Qed.

Lemma numera_inversa : forall l n,
  map NUMERO_QUESTAO l = contagem n (length l) ->
  l = numera n (map linha_ano l).
Proof.
  induction l as [|[k r] l IH]; intros n H; [reflexivity|].
  simpl in H. injection H as -> H. simpl. f_equal. now apply IH.
Qed.

(** C9, amended: every question assembled by a run carries the
    sequential number its row got after the final ordering, before the
    detail lookup: the rows are numbered 1..M, the questions have, in the
    order of the rows, the numbers of the rows whose details were found;
    these are pairwise different, increasing and within 1..M, and they are
    exactly 1..N when no lookup is missing. *)
Theorem C9_numeros_das_questoes :
  forall tbl arquivos anos materias filtros df log0 log,
  carregar_questoes tbl anos materias filtros log0 = (Ok df, log) ->
  exists questoes log',
    _processar_questoes arquivos df log = (Ok questoes, log')
    /\ map NUMERO_QUESTAO df = contagem 1 (length df)
    /\ map numero questoes = map NUMERO_QUESTAO (filter (tem_detalhes arquivos) df)
    /\ StronglySorted Z.lt (map numero questoes)
    /\ Forall (fun n => (1 <= n <= Z.of_nat (length df))%Z) (map numero questoes)
    /\ (forallb (tem_detalhes arquivos) df = true ->
        map numero questoes = contagem 1 (length questoes)).
Proof.
  intros tbl arquivos anos materias filtros df log0 log H.
  assert (Hres : resultado (carregar_questoes tbl anos materias filtros) = Ok df).
  { rewrite <- (regular_fst _ log0 (regular_carregar_questoes _ _ _ _)).
    now rewrite H. }
  assert (Hdf : Forall (fun r => Py.int_str (ANO (linha_ano r)) <> None) df
                /\ map NUMERO_QUESTAO df = contagem 1 (length df)).
  { destruct tbl as [|r0 tbl].
    - injection Hres as <-. split; [constructor|reflexivity].
    - destruct (converte_anos anos) as [anos_int|e] eqn:Ea.
      + destruct (carregar_questoes_origem _ _ _ _ _ _ Ea Hres) as [Ho Hn].
        split; [|exact Hn]. eapply Forall_impl; [|exact Ho].
        intros r. apply origem_ano_numeral.
      + unfold resultado, carregar_questoes, bind, lift in Hres.
        cbn [empty] in Hres. rewrite Ea in Hres. discriminate. }
  destruct Hdf as [Hanos Hnum].
  pose proof (numera_inversa df 1%Z Hnum) as Eq.
  set (d := map linha_ano df) in Eq.
  assert (Hd : Forall (fun r => Py.int_str (ANO r) <> None) d).
  { apply Forall_forall. intros r Hr. apply in_map_iff in Hr.
    destruct Hr as (x & <- & Hx). rewrite Forall_forall in Hanos. now apply Hanos. }
  destruct (laco_questoes_numeros arquivos d 1%Z [] log Hd)
    as (novas & log' & E & Hn).
  rewrite <- Eq in E, Hn.
  exists novas, log'. split; [exact E|]. split; [exact Hnum|]. split; [exact Hn|].
  destruct (filter_contagem (tem_detalhes arquivos) d 1%Z) as (Hs & Hb & Hall).
  rewrite <- Eq in Hs, Hb, Hall. rewrite <- Hn in Hs, Hb, Hall.
  assert (Hlen : length d = length df) by apply length_map.
  split; [exact Hs|]. split.
  - eapply Forall_impl; [|exact Hb]. intros n Hn'. cbv beta in Hn'. lia.
  - intros Ht. rewrite (Hall Ht).
    f_equal. rewrite <- (length_map numero novas), (Hall Ht).
    clear. generalize 1%Z. induction (length d) as [|k IH]; intros n;
      [reflexivity|]. simpl. now rewrite <- IH.
Qed.

End NumerosDasQuestoes.

(** ** C8: pairs that the exam table does not resolve *)

Section ParesNaoResolvidos.
Import Pandas Main Exemplos.
Local Open Scope string_scope.
Local Open Scope list_scope.

(** *** The warnings *)

Lemma registros_logger_bind : forall {A : Type} e (m : M A),
  regular m -> registros (logger e ;;; m) = e :: registros m.
Proof.
  intros A e m Hm.
  rewrite registros_bind; [reflexivity|apply regular_logger|intros _; exact Hm].
Qed.









End ParesNaoResolvidos.

Section SemOPar.
Import Pandas Main Exemplos.
Local Open Scope string_scope.
Local Open Scope list_scope.

(** *** The run without an unknown year *)


Lemma filtro_do_ano : forall tbl anos_int a,
  In a anos_int ->
  filter (fun r => Z.eqb (ANO_PROVA r) a)
    (filter (fun r => isin (ANO_PROVA r) anos_int) tbl)
  = filter (fun r => Z.eqb (ANO_PROVA r) a) tbl.
Proof.
  intros tbl anos_int a Ha. rewrite filter_filter. apply filter_ext.
  intros r. destruct (Z.eqb_spec (ANO_PROVA r) a) as [->|_].
  - now rewrite (proj2 (isin_In a anos_int) Ha).
  - apply andb_false_r.
Qed.

Lemma laco_anos_tabela : forall tbl anos_int l materias filtros dfs,
  (forall a, In a l -> In a anos_int) ->
  resultado (laco_anos (filter (fun r => isin (ANO_PROVA r) anos_int) tbl)
               l materias filtros dfs)
  = resultado (laco_anos tbl l materias filtros dfs).
Proof.
  intros tbl anos_int l materias filtros. induction l as [|a l IH]; intros dfs Hl;
    [reflexivity|].
  rewrite !laco_anos_passo, filtro_do_ano by (apply Hl; now left).
  destruct (resultado (_aplicar_filtros _ _ _ _)); [|reflexivity].
  apply IH. intros x Hx. apply Hl. now right.
Qed.


Lemma aplicar_filtros_vazio : forall ano materias filtros,
  posicoes_distintas filtros ->
  resultado (_aplicar_filtros [] ano materias filtros) = Ok [].
Proof.
  intros ano materias filtros Hpos.
  destruct (aplicar_filtros_ok [] ano materias filtros Hpos) as [res E].
  rewrite E. f_equal. destruct res as [|r res]; [reflexivity|].
  destruct (aplicar_filtros_origem _ _ _ _ _ r E (or_introl eq_refl)) as [[] _].
Qed.

Lemma laco_anos_vazio : forall tbl l materias filtros dfs,
  posicoes_distintas filtros ->
  (forall a, In a l -> filter (fun r => Z.eqb (ANO_PROVA r) a) tbl = []) ->
  resultado (laco_anos tbl l materias filtros dfs) = Ok dfs.
Proof.
  intros tbl l materias filtros dfs Hpos. revert dfs.
  induction l as [|a l IH]; intros dfs Hl; [reflexivity|].
  rewrite laco_anos_passo, (Hl a (or_introl eq_refl)), aplicar_filtros_vazio
    by exact Hpos.
  cbn [empty negb]. apply IH. intros x Hx. apply Hl. now right.
Qed.

Lemma filtro_vazio_por_ano : forall (tbl : list Linha) anos_int a,
  filter (fun r => isin (ANO_PROVA r) anos_int) tbl = [] -> In a anos_int ->
  filter (fun r => Z.eqb (ANO_PROVA r) a) tbl = [].
Proof.
  intros tbl anos_int a H Ha. apply filter_nenhum. intros r Hr.
  destruct (Z.eqb_spec (ANO_PROVA r) a) as [E|_]; [|reflexivity].
  assert (Hin : In r (filter (fun r => isin (ANO_PROVA r) anos_int) tbl)).
  { apply filter_In. split; [exact Hr|]. rewrite E. now apply isin_In. }
  rewrite H in Hin. contradiction.
Qed.


End SemOPar.

Section SemAMateria.
Import Pandas Main Exemplos.
Local Open Scope string_scope.
Local Open Scope list_scope.

(** *** The run without an unknown subject *)







End SemAMateria.

Section ParNaoResolvido.
Import Pandas Main Exemplos.
Local Open Scope string_scope.
Local Open Scope list_scope.


End ParNaoResolvido.

(** ** The theorems at concrete inputs *)

Section Concretos.
Import Pandas Main Exemplos.
Local Open Scope string_scope.
Local Open Scope list_scope.

(** C1 at [tabela_dois_anos] and the request of the form, whose default
    interval of difficulty is 1 to 2000. *)
Lemma C1_dez_questoes_do_primeiro_ano_witness :
  exists res resto,
    fst (carregar_questoes tabela_dois_anos ["2020"; "2021"] ["MT"]
           (filtros_do_formulario 10) []) = Ok res
    /\ map NUMERO_QUESTAO res = [1; 2; 3; 4; 5; 6; 7; 8; 9; 10]%Z
    /\ Forall (fun r => ANO (linha_ano r) = "2020") res
    /\ Permutation (map linha_de_num res ++ resto)
                   (linhas_da_prova tabela_dois_anos 2020 "MT")
    /\ StronglySorted linha_le (map linha_de_num res)
    /\ Forall (fun r => Forall (linha_le (linha_de_num r)) resto) res.
Proof.
  apply (C1_dez_questoes_do_primeiro_ano tabela_dois_anos ["2020"; "2021"]
           (filtros_do_formulario 10) []).
  - reflexivity.
  - vm_compute. reflexivity.
  - vm_compute. reflexivity.
  - repeat split; reflexivity.
  - vm_compute. reflexivity.
Defined.

(** The difficulty filter has to let the MT rows of 2020 pass: the
    request of the form keeps the difficulties from 1 on, so over
    [tabela_2020_facil], whose MT rows of 2020 are all easier than 1, the
    ten questions are rows of 2021. *)
Lemma intervalo_do_formulario_exclui :
  length (linhas_da_prova tabela_2020_facil 2020 "MT") = 50
  /\ length (linhas_da_prova tabela_2020_facil 2021 "MT") = 50
  /\ exists res,
       fst (carregar_questoes tabela_2020_facil ["2020"; "2021"] ["MT"]
              (filtros_do_formulario 10) []) = Ok res
       /\ map (fun r => (ANO_PROVA (linha_de_num r), NU_PARAM_B (linha_de_num r))) res
          = map (fun i => (2021%Z, Some (inject_Z i))) (contagem 1 10).
Proof.
  split; [vm_compute; reflexivity|]. split; [vm_compute; reflexivity|].
  eexists. split; vm_compute; reflexivity.
Qed.

(** C1 as stated fails: over [tabela_dois_anos] the ten questions are the
    MT rows of 2020 with the difficulties 51..60, although the MT rows of
    2021 are all easier; the ten are not the easiest MT rows of the two
    years. *)
Lemma C1_nao_sao_as_mais_faceis :
  exists res,
    fst (carregar_questoes tabela_dois_anos ["2020"; "2021"] ["MT"]
           (filtros_quantidade 10) []) = Ok res
    /\ map (fun r => (ANO_PROVA (linha_de_num r), NU_PARAM_B (linha_de_num r))) res
       = map (fun i => (2020%Z, Some (inject_Z i))) (contagem 51 10)
    /\ ~ mais_faceis_de
           (filter (fun r => String.eqb (SG_AREA r) "MT") tabela_dois_anos)
           (map linha_de_num res).
Proof.
  eexists. split; [vm_compute; reflexivity|]. split; [vm_compute; reflexivity|].
  intros H.
  specialize (H (linha_de 2020 "MT" 587 136 (Some (inject_Z 51))) linha_mais_facil).
  assert (L : linha_le (linha_de 2020 "MT" 587 136 (Some (inject_Z 51)))
                       linha_mais_facil).
  { apply H.
    - left. reflexivity.
    - apply filter_In. split; [|reflexivity].
      unfold tabela_dois_anos. apply in_or_app. right. apply in_or_app. right.
      apply in_or_app. left. apply in_map_iff. exists 1%Z.
      split; [reflexivity|left; reflexivity].
    - intros Hin. apply in_map_iff in Hin. destruct Hin as (x & Hx & Hin).
      assert (Hano : ANO_PROVA (linha_de_num x) = 2020%Z).
      { cbn in Hin. repeat destruct Hin as [<-|Hin]; try reflexivity.
        contradiction. }
      rewrite Hx in Hano. discriminate. }
  vm_compute in L. apply L. reflexivity.
Qed.

(** C2 at three rows and a cap of two. *)
Lemma C2_limite_de_quantidade_witness :
  ((Z.of_nat (length combinado_tres) <= 2)%Z ->
   fst (_aplicar_filtros_globais combinado_tres (filtros_quantidade 2) [])
   = Ok combinado_tres)
  /\ ((2 < Z.of_nat (length combinado_tres))%Z ->
      exists mantidas cortadas,
        fst (_aplicar_filtros_globais combinado_tres (filtros_quantidade 2) [])
        = Ok mantidas
        /\ Z.of_nat (length mantidas) = 2%Z
        /\ Permutation (mantidas ++ cortadas) combinado_tres
        /\ StronglySorted ano_dificuldade_le mantidas
        /\ Forall (fun m => Forall (ano_dificuldade_le m) cortadas) mantidas).
Proof.
  apply (C2_limite_de_quantidade combinado_tres (filtros_quantidade 2) 2%Z []).
  - reflexivity.
  - reflexivity.
  - lia.
  - reflexivity.
Defined.

(** C3 at rows out of order, with the positions 7 and 5 asked for. *)
Lemma C3_ordem_das_posicoes_witness :
  exists res,
    _filtrar_por_posicao tabela_posicoes "7 5" = Ok res
    /\ map CO_POSICAO res = [7; 5]%Z
    /\ Forall (fun r => primeira_linha tabela_posicoes (CO_POSICAO r) = Some r) res.
Proof.
  apply (C3_ordem_das_posicoes tabela_posicoes "7 5" [7; 5]%Z).
  - reflexivity.
  - discriminate.
  - repeat constructor; simpl; lia.
  - intros p [<-|[<-|[]]].
    + exists (linha_de 2020 "MT" 587 7 (Some (inject_Z 6))).
      split; [simpl; auto 6|reflexivity].
    + exists (linha_de 2020 "MT" 587 5 (Some (inject_Z 9))).
      split; [simpl; auto 6|reflexivity].
Defined.

(** C3 as stated fails when a position is asked for twice: the rows are
    there, but [pd.Categorical] raises on the repeated category, so no
    result with the positions [5; 5] comes back.  It fails as well when
    the text of the filter has no number, where every row is returned. *)
Lemma C3_posicao_repetida :
  converte_posicoes "5 5" = [5; 5]%Z
  /\ (forall p, In p [5; 5]%Z ->
        exists r, In r tabela_posicoes /\ CO_POSICAO r = p)
  /\ ~ (exists res, _filtrar_por_posicao tabela_posicoes "5 5" = Ok res
                    /\ map CO_POSICAO res = [5; 5]%Z)
  /\ converte_posicoes "x" = []
  /\ _filtrar_por_posicao tabela_posicoes "x" = Ok tabela_posicoes.
Proof.
  split; [reflexivity|]. split.
  - intros p [<-|[<-|[]]];
      exists (linha_de 2020 "MT" 587 5 (Some (inject_Z 9)));
      (split; [simpl; auto 6|reflexivity]).
  - split; [|split; reflexivity].
    intros (res & H & _). vm_compute in H. discriminate.
Qed.

(** C4 at bounds that are both enforced. *)
Lemma C4_intervalo_de_dificuldade_witness :
  Forall (fun r => exists d, NU_PARAM_B r = Some d /\ (1 <= d)%Q)
         (_filtrar_por_dificuldade tabela_duas_linhas 1 3)
  /\ Forall (fun r => exists d, NU_PARAM_B r = Some d /\ (d <= 3)%Q)
            (_filtrar_por_dificuldade tabela_duas_linhas 1 3).
Proof.
  pose proof (C4_intervalo_de_dificuldade tabela_duas_linhas 1 3) as H.
  cbv zeta in H. destruct H as (_ & Hmin & Hmax & _). split.
  - apply Hmin. intros E. vm_compute in E. discriminate.
  - apply Hmax. intros E. vm_compute in E. discriminate.
Defined.

(** C4 as stated fails at the bounds [0] and [2000]: with the interval
    [0, 1000] the row of difficulty -1 survives, and with [501, 2000] the
    row of difficulty 2500 survives. *)
Lemma C4_limites_nao_aplicados :
  ~ Forall (fun r => exists d, NU_PARAM_B r = Some d /\ (0 <= d)%Q /\ (d <= 1000)%Q)
           (_filtrar_por_dificuldade tabela_extremos 0 1000)
  /\ ~ Forall (fun r => exists d, NU_PARAM_B r = Some d
                                  /\ (501 <= d)%Q /\ (d <= 2000)%Q)
              (_filtrar_por_dificuldade tabela_extremos 501 2000).
Proof.
  split; intros H; vm_compute in H;
    inversion H as [|x l (d & Hd & H1 & H2) _]; subst;
    injection Hd as <-; vm_compute in H1, H2; auto.
Qed.



(** [tabela_duas_linhas] is coherent, and a request for it with an unknown
    subject returns its two rows and logs the warning for the subject. *)
Lemma tabela_duas_linhas_coerente : tabela_coerente tabela_duas_linhas.
Proof.
  intros r a m Hin Hc.
  assert (E : SG_AREA r = "MT" /\ CO_PROVA r = 587%Z).
  { destruct Hin as [<-|[<-|[]]]; split; reflexivity. }
  destruct E as [-> E]. rewrite E in Hc. clear E Hin. revert Hc.
  unfold codigo_da_prova, ListaProva.provas_regulares. cbn [dict_get].
  repeat match goal with
         | |- context [String.eqb a ?k] =>
             destruct (String.eqb_spec a k) as [_|_];
               [cbn [dict_get];
                repeat match goal with
                       | |- context [String.eqb m ?k'] =>
                           destruct (String.eqb_spec m k') as [->|_];
                             [intros [=]; reflexivity|]
                       end; discriminate|]
         end.
  discriminate.
Qed.

Lemma materia_desconhecida_exemplo :
  carregar_questoes tabela_duas_linhas ["2020"] ["MT"; "XX"] filtros_vazios []
  = (Ok questoes_duas_linhas, [AvisoMateriaNaoEncontrada "XX" "2020"]).
Proof. vm_compute. reflexivity. Qed.

(** C9 at two rows, the details of the first one missing. *)
Lemma C9_numeros_das_questoes_witness :
  exists questoes log',
    _processar_questoes arquivos_sem_136 questoes_duas_linhas [] = (Ok questoes, log')
    /\ map NUMERO_QUESTAO questoes_duas_linhas
       = contagem 1 (length questoes_duas_linhas)
    /\ map numero questoes
       = map NUMERO_QUESTAO (filter (tem_detalhes arquivos_sem_136) questoes_duas_linhas)
    /\ StronglySorted Z.lt (map numero questoes)
    /\ Forall (fun n => (1 <= n <= Z.of_nat (length questoes_duas_linhas))%Z)
              (map numero questoes)
    /\ (forallb (tem_detalhes arquivos_sem_136) questoes_duas_linhas = true ->
        map numero questoes = contagem 1 (length questoes)).
Proof.
  apply (C9_numeros_das_questoes tabela_duas_linhas arquivos_sem_136
           ["2020"] ["MT"] filtros_vazios questoes_duas_linhas [] []).
  vm_compute. reflexivity.
Defined.

(** C9 as stated fails when a lookup is missing before the last row: of
    the two rows of a run the first has no details, and the one question
    assembled has the number 2, not 1. *)
Lemma C9_numero_com_lacuna :
  carregar_questoes tabela_duas_linhas ["2020"] ["MT"] filtros_vazios []
  = (Ok questoes_duas_linhas, [])
  /\ exists questoes log',
       _processar_questoes arquivos_sem_136 questoes_duas_linhas [] = (Ok questoes, log')
       /\ map numero questoes = [2%Z]
       /\ map numero questoes <> contagem 1 (length questoes).
Proof.
  split; [vm_compute; reflexivity|].
  eexists. eexists. split; [vm_compute; reflexivity|].
  split; [reflexivity|]. vm_compute. discriminate.
Qed.

(** C10 fails on the code: the form with the position 136 typed twice
    passes [validar], [entradas] hands the text ["136 136"] on, and the run
    ends in the [ValueError] of [pd.Categorical], which nothing
    catches. *)
Theorem C10_posicao_repetida_aborta :
  Entradas.validar formulario_repetido = (true, None)
  /\ Entradas._processar_numeros_questoes "136 136" = Some [136; 136]%Z
  /\ Entradas.t_posicoes (Entradas.entradas formulario_repetido) = Some "136 136"
  /\ fst (executar tabela_duas_linhas arquivos_completos formulario_repetido [])
     = Raise (ValueError "Categorical categories must be unique").
Proof. repeat split; vm_compute; reflexivity. Qed.

End Concretos.

(** ** Facts on text *)

Section FatosDeTexto.
Local Open Scope string_scope.
Local Open Scope list_scope.

Lemma append_vazio : forall s, (s ++ "")%string = s.
Proof. induction s as [|c s IH]; simpl; [reflexivity|now rewrite IH]. Qed.

Lemma append_associativa : forall a b c,
  ((a ++ b) ++ c)%string = (a ++ (b ++ c))%string.
Proof. induction a as [|x a IH]; intros b c; simpl; [reflexivity|now rewrite IH]. Qed.

Lemma length_append : forall a b,
  String.length (a ++ b)%string = String.length a + String.length b.
Proof. induction a as [|x a IH]; intros b; simpl; [reflexivity|now rewrite IH]. Qed.

Lemma prefix_decompoe : forall d s,
  prefix d s = true -> s = (d ++ Py.drop (String.length d) s)%string.
Proof.
  induction d as [|a d IH]; intros s H.
  - now destruct s.
  - destruct s as [|b s]; simpl in H; [discriminate|].
    destruct (Ascii.ascii_dec a b) as [->|]; [|discriminate].
    simpl. f_equal. now apply IH.
Qed.

Lemma prefix_do_append : forall d s, prefix d (d ++ s)%string = true.
Proof.
  induction d as [|a d IH]; intros s; simpl; [now destruct s|].
  destruct (Ascii.ascii_dec a a); [apply IH|congruence].
Qed.

Lemma prefix_um : forall a c s,
  prefix (String a "") (String c s) = if Ascii.ascii_dec a c then true else false.
Proof.
  intros a c s. cbn [prefix]. destruct (Ascii.ascii_dec a c); [now destruct s|reflexivity].
Qed.

Lemma prefix_cons : forall a d c s,
  prefix (String a d) (String c s) = if Ascii.ascii_dec a c then prefix d s else false.
Proof. reflexivity. Qed.

Lemma prefix_outro : forall a d c s,
  a <> c -> prefix (String a d) (String c s) = false.
Proof.
  intros a d c s H. rewrite prefix_cons. now destruct (Ascii.ascii_dec a c).
Qed.

Lemma drop_seguinte : forall n t c s,
  Py.drop n t = String c s -> Py.drop (S n) t = s.
Proof.
  induction n as [|n IH]; intros t c s H.
  - destruct t as [|x t]; simpl in H; [discriminate|]. injection H as _ <-.
    now destruct t.
  - destruct t as [|x t]; simpl in H; [discriminate|].
    rewrite drop_tail. now apply IH with (c := c).
Qed.

Lemma length_drop : forall n t, String.length (Py.drop n t) = String.length t - n.
Proof.
  induction n as [|n IH]; intros t.
  - destruct t; simpl; lia.
  - destruct t as [|x t]; [reflexivity|]. rewrite drop_tail, IH. reflexivity.
Qed.

Lemma substring_emenda : forall a b s,
  (substring 0 a s ++ substring a b s)%string = substring 0 (a + b) s.
Proof.
  induction a as [|a IH]; intros b s.
  - simpl. now destruct s.
  - destruct s as [|c s]; simpl; [now destruct b|].
    now rewrite IH.
Qed.

Lemma substring_do_drop : forall n m s,
  substring n m s = substring 0 m (Py.drop n s).
Proof.
  induction n as [|n IH]; intros m s.
  - now destruct s.
  - destruct s as [|c s]; [now destruct m|]. rewrite drop_tail. simpl. apply IH.
Qed.

Lemma substring_e_resto : forall n s,
  (substring 0 n s ++ Py.drop n s)%string = s.
Proof.
  induction n as [|n IH]; intros s.
  - now destruct s.
  - destruct s as [|c s]; [reflexivity|]. rewrite drop_tail. simpl. now rewrite IH.
Qed.

Lemma substring_inteiro : forall n s, String.length s <= n -> substring 0 n s = s.
Proof.
  induction n as [|n IH]; intros s H.
  - destruct s; [reflexivity|simpl in H; lia].
  - destruct s as [|c s]; [reflexivity|]. simpl. rewrite IH; [reflexivity|simpl in H; lia].
Qed.

Lemma substring_do_append : forall a b,
  substring 0 (String.length a) (a ++ b)%string = a.
Proof. induction a as [|x a IH]; intros b; simpl; [now destruct b|now rewrite IH]. Qed.

Lemma length_substring : forall a b s,
  a + b <= String.length s -> String.length (substring a b s) = b.
Proof.
  induction a as [|a IH]; intros b s H.
  - revert s H. induction b as [|b IHb]; intros s H; [now destruct s|].
    destruct s as [|c s]; simpl in H; [lia|]. simpl. rewrite IHb; [reflexivity|lia].
  - destruct s as [|c s]; simpl in H; [lia|]. simpl. apply IH. lia.
Qed.

End FatosDeTexto.

(** ** The markup written back from the runs *)

Section IdaEVolta.
Import ConfigDocx Marcacao.
Local Open Scope string_scope.
Local Open Scope list_scope.

Lemma corpo_lazy_decompoe : forall d s k,
  corpo_lazy d s = Some k ->
  exists body rest,
    s = (body ++ d ++ rest)%string /\ String.length body = k
    /\ (d = "_" -> contem "_" body = false).
Proof.
  intros d s. induction s as [|c s IH]; intros k H.
  - cbn [corpo_lazy] in H. destruct (prefix d "") eqn:E; [|discriminate H].
    injection H as <-. exists "", (Py.drop (String.length d) "").
    split; [now apply prefix_decompoe|]. split; reflexivity.
  - cbn [corpo_lazy] in H. destruct (prefix d (String c s)) eqn:E.
    + injection H as <-. exists "", (Py.drop (String.length d) (String c s)).
      split; [now apply prefix_decompoe|]. split; reflexivity.
    + destruct (Ascii.eqb c nova_linha); [discriminate|].
      destruct (corpo_lazy d s) as [k'|] eqn:E'; [|discriminate].
      injection H as <-. destruct (IH k' eq_refl) as (body & rest & -> & <- & Hc).
      exists (String c body), rest. split; [reflexivity|]. split; [reflexivity|].
      intros ->. cbn [contem]. rewrite (Hc eq_refl), orb_false_r.
      rewrite prefix_um in E |- *. exact E.
Qed.

Lemma casa_pattern_decompoe : forall d s n,
  casa_pattern d s = Some n ->
  exists body rest,
    s = (d ++ body ++ d ++ rest)%string
    /\ n = String.length d + String.length body + String.length d
    /\ (d = "_" -> contem "_" body = false).
Proof.
  intros d s n H. unfold casa_pattern in H.
  destruct (prefix d s) eqn:E; [|discriminate].
  destruct (corpo_lazy d (Py.drop (String.length d) s)) as [k|] eqn:E'; [|discriminate].
  injection H as <-. destruct (corpo_lazy_decompoe _ _ _ E') as (body & rest & Hs & <- & Hc).
  exists body, rest. split; [|split; [reflexivity|exact Hc]].
  rewrite (prefix_decompoe d s E) at 1. now rewrite Hs.
Qed.

(** What a match of the compiled pattern is: the delimiter of its group
    twice, around a body. *)
Lemma compiled_pattern_decompoe : forall s g n,
  compiled_pattern s = Some (g, n) ->
  exists d body rest,
    In (g, d) [(1, "**"); (2, "__"); (3, "_"); (4, "^")]
    /\ s = (d ++ body ++ d ++ rest)%string
    /\ n = String.length d + String.length body + String.length d
    /\ (d = "_" -> contem "_" body = false).
Proof.
  intros s g n H. unfold compiled_pattern in H.
  cbn [map PATTERNS fst snd casa_alternativas] in H.
  destruct (casa_pattern "**" s) as [n1|] eqn:E1.
  { injection H as <- <-. destruct (casa_pattern_decompoe _ _ _ E1) as (b & r & H).
    exists "**", b, r. split; [simpl; auto|exact H]. }
  destruct (casa_pattern "__" s) as [n2|] eqn:E2.
  { injection H as <- <-. destruct (casa_pattern_decompoe _ _ _ E2) as (b & r & H).
    exists "__", b, r. split; [simpl; auto|exact H]. }
  destruct (casa_pattern "_" s) as [n3|] eqn:E3.
  { injection H as <- <-. destruct (casa_pattern_decompoe _ _ _ E3) as (b & r & H).
    exists "_", b, r. split; [simpl; auto|exact H]. }
  destruct (casa_pattern "^" s) as [n4|] eqn:E4; [|discriminate].
  injection H as <- <-. destruct (casa_pattern_decompoe _ _ _ E4) as (b & r & H).
  exists "^", b, r. split; [simpl; auto 6|exact H].
Qed.

Lemma no_fim_fecho : forall x d,
  In d delimitadores -> no_fim (x ++ d)%string = false.
Proof.
  intros x d Hd. unfold no_fim.
  unfold delimitadores in Hd; simpl in Hd.
  destruct x as [|a [|b x]];
    destruct Hd as [<-|[<-|[<-|[<-|[]]]]]; try reflexivity;
    cbn [String.append String.eqb orb];
    destruct (Ascii.eqb a nova_linha); reflexivity.
Qed.

Lemma casa_limpeza_dentro : forall c b d,
  In d delimitadores -> (d = "_" -> contem "_" (String c b) = false) ->
  casa_limpeza false (String c (b ++ d)%string) = 0.
Proof.
  intros c b d Hd Hc. unfold casa_limpeza. cbn [andb].
  destruct b as [|c2 b].
  - change (Py.drop 1 (String c ("" ++ d)%string)) with d.
    change (Py.drop 2 (String c ("" ++ d)%string)) with (Py.drop 1 d).
    change ("" ++ d)%string with d.
    pose proof (no_fim_fecho "" d Hd) as Hn. change ("" ++ d)%string with d in Hn.
    rewrite Hn, !andb_false_r.
    unfold delimitadores in Hd; simpl in Hd. destruct Hd as [<-|[<-|[<-|[<-|[]]]]].
    + change (no_fim (Py.drop 1 "**")) with false. now rewrite !andb_false_r.
    + change (no_fim (Py.drop 1 "__")) with false. now rewrite !andb_false_r.
    + specialize (Hc eq_refl). cbn [contem] in Hc. apply orb_false_iff in Hc.
      destruct Hc as [Hc _]. rewrite prefix_um in Hc.
      rewrite !prefix_cons.
      destruct (Ascii.ascii_dec "_" c) as [|_]; [discriminate Hc|].
      destruct (Ascii.ascii_dec "*" c); reflexivity.
    + rewrite !prefix_cons.
      destruct (Ascii.ascii_dec "*" c); destruct (Ascii.ascii_dec "_" c); reflexivity.
  - change (Py.drop 1 (String c (String c2 b ++ d)%string)) with (String c2 b ++ d)%string.
    change (Py.drop 2 (String c (String c2 b ++ d)%string)) with (b ++ d)%string.
    now rewrite !no_fim_fecho, !andb_false_r by exact Hd.
Qed.

(** The clean-up of [_processar_match] takes the closing delimiter off
    the end of a body, and nothing else. *)
Lemma limpa_fecho : forall d body,
  In d delimitadores -> (d = "_" -> contem "_" body = false) ->
  limpa_aux false (body ++ d)%string = body.
Proof.
  intros d body Hd. induction body as [|c b IH]; intros Hc.
  - unfold delimitadores in Hd; simpl in Hd.
    destruct Hd as [<-|[<-|[<-|[<-|[]]]]]; reflexivity.
  - change (String c b ++ d)%string with (String c (b ++ d)%string).
    cbn [limpa_aux]. rewrite (casa_limpeza_dentro c b d Hd Hc). f_equal.
    apply IH. intros E. specialize (Hc E). now apply contem_tail in Hc.
Qed.

(** A matched group without its delimiters is its body. *)
Lemma limpa_grupo : forall d body,
  In d delimitadores -> (d = "_" -> contem "_" body = false) ->
  limpa (d ++ body ++ d)%string = body.
Proof.
  intros d body Hd Hc. pose proof (limpa_fecho d body Hd Hc) as Hf.
  unfold limpa. unfold delimitadores in Hd; simpl in Hd.
  destruct Hd as [<-|[<-|[<-|[<-|[]]]]].
  - change ("**" ++ body ++ "**")%string
      with (String "*" (String "*" (body ++ "**")%string)).
    cbn [limpa_aux].
    replace (casa_limpeza true (String "*" (String "*" (body ++ "**")%string)))
      with 2; [exact Hf|].
    unfold casa_limpeza.
    change (String "*" (String "*" (body ++ "**")%string))
      with ("**" ++ (body ++ "**"))%string.
    now rewrite prefix_do_append.
  - change ("__" ++ body ++ "__")%string
      with (String "_" (String "_" (body ++ "__")%string)).
    cbn [limpa_aux].
    replace (casa_limpeza true (String "_" (String "_" (body ++ "__")%string)))
      with 2; [exact Hf|].
    unfold casa_limpeza. rewrite (prefix_outro "*") by discriminate.
    change (String "_" (String "_" (body ++ "__")%string))
      with ("__" ++ (body ++ "__"))%string.
    now rewrite prefix_do_append.
  - destruct body as [|c b]; [reflexivity|].
    specialize (Hc eq_refl). apply contem_tail in Hc. destruct Hc as [Hc _].
    rewrite prefix_um in Hc.
    destruct (Ascii.ascii_dec "_" c) as [|N]; [discriminate Hc|].
    change ("_" ++ String c b ++ "_")%string
      with (String "_" (String c (b ++ "_")%string)).
    cbn [limpa_aux].
    replace (casa_limpeza true (String "_" (String c (b ++ "_")%string)))
      with 1; [exact Hf|].
    unfold casa_limpeza. rewrite (prefix_outro "*") by discriminate.
    rewrite (prefix_cons "_" "_"). destruct (Ascii.ascii_dec "_" "_") as [_|]; [|congruence].
    rewrite (prefix_outro "_" "" c) by exact N.
    now rewrite prefix_um.
  - change ("^" ++ body ++ "^")%string with (String "^" (body ++ "^")%string).
    cbn [limpa_aux].
    replace (casa_limpeza true (String "^" (body ++ "^")%string))
      with 1; [exact Hf|].
    unfold casa_limpeza. rewrite (prefix_outro "*"), !(prefix_outro "_") by discriminate.
    now rewrite prefix_um.
Qed.

Lemma escreve_app : forall a b,
  escreve (a ++ b) = (escreve a ++ escreve b)%string.
Proof.
  induction a as [|r a IH]; intros b; [reflexivity|].
  cbn [app escreve]. now rewrite IH, append_associativa.
Qed.

Lemma marca_add_run : forall x, marca (add_run x) = x.
Proof. intros x. unfold marca. cbn. apply append_vazio. Qed.

(** [_processar_match] on a match of the compiled pattern: one run, with
    the body as text and the format of the group. *)
Lemma processar_match_grupo : forall par texto m d body,
  In (m_grupo m, d) [(1, "**"); (2, "__"); (3, "_"); (4, "^")] ->
  (d = "_" -> contem "_" body = false) ->
  Py.slice texto (m_start m) (m_end m) = (d ++ body ++ d)%string ->
  exists run,
    _processar_match par texto m = par ++ [run]
    /\ marca run = (d ++ body ++ d)%string
    /\ text run = body /\ formatos run = 1.
Proof.
  intros par texto m d body Hg Hc Hs. unfold _processar_match. rewrite Hs.
  assert (Hd : In d delimitadores).
  { simpl in Hg. unfold delimitadores.
    destruct Hg as [H|[H|[H|[H|[]]]]]; injection H as _ <-; simpl; auto. }
  rewrite (limpa_grupo d body Hd Hc).
  simpl in Hg. destruct Hg as [H|[H|[H|[H|[]]]]]; injection H as <- <-;
    eexists; (split; [reflexivity|]); repeat split.
Qed.

(** The loop of [_aplicar_formatacao] over the matches found from the
    position [pos] on: the runs built so far, written back, are the text
    up to [last_index]. *)
Lemma laco_matches_escreve : forall texto s salto pos par last_index,
  Py.drop pos texto = s -> pos + String.length s = String.length texto ->
  last_index <= pos + salto -> (0 < salto -> last_index = pos + salto) ->
  last_index <= String.length texto ->
  escreve par = substring 0 last_index texto ->
  Forall bem_formado par ->
  let final := laco_matches texto (finditer_aux salto pos s) par last_index in
  escreve (fst final) = substring 0 (snd final) texto
  /\ snd final <= String.length texto
  /\ Forall bem_formado (fst final).
Proof.
  intros texto s. induction s as [|c s IH];
    intros salto pos par last_index Hd Hlen Hle Hsalto Hmax Hesc Hbem.
  - cbn. auto.
  - pose proof (drop_seguinte _ _ _ _ Hd) as Hd'.
    assert (Hlen' : S pos + String.length s = String.length texto)
      by (simpl in Hlen; lia).
    cbn [finditer_aux]. destruct salto as [|k].
    + destruct (compiled_pattern (String c s)) as [[g n]|] eqn:E.
      * destruct (compiled_pattern_decompoe _ _ _ E)
          as (d & body & rest & Hg & Hs & Hn & Hc).
        assert (Hdl : 1 <= String.length d).
        { simpl in Hg. destruct Hg as [H|[H|[H|[H|[]]]]]; injection H as _ <-;
            simpl; lia. }
        assert (Hns : n <= String.length (String c s)).
        { rewrite Hs, !length_append. lia. }
        assert (Hgrupo : Py.slice texto pos (pos + n) = (d ++ body ++ d)%string).
        { unfold Py.slice. replace (pos + n - pos) with n by lia.
          rewrite substring_do_drop, Hd, Hs.
          replace n with (String.length (d ++ body ++ d)%string)
            by (rewrite !length_append; lia).
          rewrite <- !append_associativa. rewrite (append_associativa d body d).
          apply substring_do_append. }
        cbn [laco_matches m_start m_end].
        set (par1 := if Nat.ltb last_index pos
                     then par ++ [add_run (Py.slice texto last_index pos)]
                     else par).
        assert (Hpar1 : escreve par1 = substring 0 pos texto
                        /\ Forall bem_formado par1).
        { unfold par1. destruct (Nat.ltb_spec last_index pos) as [Hlt|Hge].
          - split.
            + rewrite escreve_app, Hesc. cbn [escreve].
              rewrite marca_add_run, append_vazio. unfold Py.slice.
              rewrite substring_emenda. f_equal. lia.
            + apply Forall_app. split; [exact Hbem|]. constructor; [|constructor].
              split; [cbn; lia|]. intros _. cbn [text add_run]. unfold Py.slice.
              intros Hvazio.
              assert (Hl : String.length (substring last_index (pos - last_index) texto)
                           = pos - last_index)
                by (apply length_substring; simpl in Hlen; lia).
              rewrite Hvazio in Hl. simpl in Hl. lia.
          - replace pos with last_index by lia. now split. }
        destruct Hpar1 as [Hesc1 Hbem1].
        destruct (processar_match_grupo par1 texto (mkMatch pos (pos + n) g) d body
                    Hg Hc Hgrupo) as (run & Hrun & Hmarca & _ & Hfmt).
        rewrite Hrun.
        apply IH.
        -- exact Hd'.
        -- exact Hlen'.
        -- lia.
        -- lia.
        -- simpl in Hns. simpl in Hlen. lia.
        -- rewrite escreve_app, Hesc1. cbn [escreve].
           rewrite append_vazio, Hmarca, <- Hgrupo. unfold Py.slice.
           replace (pos + n - pos) with n by lia. apply substring_emenda.
        -- apply Forall_app. split; [exact Hbem1|]. constructor; [|constructor].
           split; [lia|]. intros H0. lia.
      * apply IH; try assumption; lia.
    + apply IH; try assumption; lia.
Qed.

Lemma aplicar_formatacao_invariante : forall texto,
  escreve (_aplicar_formatacao [] texto) = texto
  /\ Forall bem_formado (_aplicar_formatacao [] texto).
Proof.
  intros texto. unfold _aplicar_formatacao, finditer.
  assert (H0 : Py.drop 0 texto = texto) by now destruct texto.
  assert (He : escreve [] = substring 0 0 texto) by now destruct texto.
  destruct (laco_matches_escreve texto texto 0 0 [] 0 H0 eq_refl
              (Nat.le_refl 0) ltac:(lia) ltac:(lia) He (Forall_nil _))
    as (Hesc & Hmax & Hbem).
  cbv zeta in Hesc, Hmax, Hbem.
  destruct (laco_matches texto (finditer_aux 0 0 texto) [] 0) as [par1 last_index].
  cbn [fst snd] in Hesc, Hmax, Hbem.
  destruct (Nat.ltb_spec last_index (String.length texto)) as [Hlt|Hge].
  - split.
    + rewrite escreve_app, Hesc. cbn [escreve].
      rewrite marca_add_run, append_vazio. apply substring_e_resto.
    + apply Forall_app. split; [exact Hbem|]. constructor; [|constructor].
      split; [cbn; lia|]. intros _ Hvazio. cbn [text add_run] in Hvazio.
      pose proof (length_drop last_index texto) as Hl.
      rewrite Hvazio in Hl. simpl in Hl. lia.
  - split; [|exact Hbem]. rewrite Hesc. apply substring_inteiro. lia.
Qed.

(** X1: writing the runs of a formatted paragraph back as markup, each
    formatted run between the delimiters of its format and the plain runs
    as they are, gives the text the paragraph was formatted from: the
    formatter drops and reorders nothing, and the text of a formatted run
    is exactly what stood between its delimiters. *)
Theorem X1_marcacao_ida_e_volta : forall texto,
  escreve (_aplicar_formatacao [] texto) = texto.
Proof. intros texto. apply aplicar_formatacao_invariante. Qed.

(** X2: every run the formatter builds carries at most one of the four
    formats, and a run without format is never empty. *)
Theorem X2_runs_bem_formados : forall texto,
  Forall (fun r => formatos r <= 1 /\ (formatos r = 0 -> text r <> ""))
         (_aplicar_formatacao [] texto).
Proof. intros texto. apply aplicar_formatacao_invariante. Qed.

End IdaEVolta.

(** ** An opening delimiter without its pair *)

Section DelimitadorAberto.
Import ConfigDocx Marcacao.
Local Open Scope string_scope.
Local Open Scope list_scope.

Lemma aplicar_formatacao_termina : forall par texto,
  _aplicar_formatacao par texto
  = termina texto (laco_matches texto (finditer texto) par 0).
Proof. reflexivity. Qed.

Lemma prefix_ate_nova_linha : forall d s,
  In d ["**"; "_"; "^"] -> prefix d s = true ->
  prefix d (ate_nova_linha s) = true.
Proof.
  intros d s Hd H. destruct Hd as [<-|[<-|[<-|[]]]].
  - destruct s as [|c1 [|c2 s]]; try discriminate H.
    + rewrite prefix_cons in H. destruct (Ascii.ascii_dec "*" c1); discriminate H.
    + rewrite !prefix_cons in H.
      destruct (Ascii.ascii_dec "*" c1) as [<-|]; [|discriminate H].
      destruct (Ascii.ascii_dec "*" c2) as [<-|]; [|discriminate H].
      cbn [ate_nova_linha]. change (Ascii.eqb "*" nova_linha) with false.
      cbv iota. rewrite !prefix_cons.
      destruct (Ascii.ascii_dec "*" "*"); [|congruence].
      now destruct (ate_nova_linha s).
  - destruct s as [|c1 s]; [discriminate H|]. rewrite prefix_um in H.
    destruct (Ascii.ascii_dec "_" c1) as [<-|]; [|discriminate H].
    cbn [ate_nova_linha]. change (Ascii.eqb "_" nova_linha) with false.
    cbv iota. rewrite prefix_um. now destruct (Ascii.ascii_dec "_" "_").
  - destruct s as [|c1 s]; [discriminate H|]. rewrite prefix_um in H.
    destruct (Ascii.ascii_dec "^" c1) as [<-|]; [|discriminate H].
    cbn [ate_nova_linha]. change (Ascii.eqb "^" nova_linha) with false.
    cbv iota. rewrite prefix_um. now destruct (Ascii.ascii_dec "^" "^").
Qed.

Lemma contem_prefix : forall d s, prefix d s = true -> contem d s = true.
Proof. intros d s H. destruct s; cbn [contem]; now rewrite H. Qed.

Lemma contem_cons : forall d c s, contem d s = true -> contem d (String c s) = true.
Proof. intros d c s H. cbn [contem]. rewrite H. apply orb_true_r. Qed.

(** A closing delimiter found by the lazy body stands in the same line. *)
Lemma corpo_lazy_contem : forall d s k,
  In d ["**"; "_"; "^"] -> corpo_lazy d s = Some k ->
  contem d (ate_nova_linha s) = true.
Proof.
  intros d s k Hd. revert k. induction s as [|c s IH]; intros k H.
  - cbn [corpo_lazy] in H. destruct (prefix d "") eqn:E; [|discriminate H].
    apply contem_prefix. now apply prefix_ate_nova_linha.
  - cbn [corpo_lazy] in H. destruct (prefix d (String c s)) eqn:E.
    + apply contem_prefix. now apply prefix_ate_nova_linha.
    + cbn [ate_nova_linha].
      destruct (Ascii.eqb c nova_linha); [discriminate H|].
      destruct (corpo_lazy d s) as [k'|] eqn:E'; [|discriminate H].
      apply contem_cons. now apply (IH k').
Qed.


Lemma corpo_lazy_sem_par : forall d s,
  In d ["**"; "_"; "^"] -> contem d (ate_nova_linha s) = false ->
  corpo_lazy d s = None.
Proof.
  intros d s Hd H. destruct (corpo_lazy d s) as [k|] eqn:E; [|reflexivity].
  rewrite (corpo_lazy_contem d s k Hd E) in H. discriminate H.
Qed.

(** No pattern matches at an opening delimiter that does not occur again
    in its line, nor at the second character of such a delimiter. *)
Lemma compiled_pattern_sem_par : forall d depois,
  In d ["**"; "_"; "^"] -> contem d (ate_nova_linha depois) = false ->
  compiled_pattern (d ++ depois)%string = None
  /\ (d = "**" -> compiled_pattern (String "*" depois) = None).
Proof.
  intros d depois Hd H. pose proof (corpo_lazy_sem_par d depois Hd H) as Hc.
  unfold compiled_pattern. cbn [map PATTERNS fst snd casa_alternativas].
  unfold casa_pattern.
  destruct Hd as [<-|[<-|[<-|[]]]].
  - split.
    + change ("**" ++ depois)%string with (String "*" (String "*" depois)).
      rewrite !prefix_cons.
      destruct (Ascii.ascii_dec "*" "*") as [_|N]; [|congruence].
      destruct (Ascii.ascii_dec "_" "*") as [N|_]; [discriminate N|].
      destruct (Ascii.ascii_dec "^" "*") as [N|_]; [discriminate N|].
      assert (P : prefix "" depois = true) by now destruct depois.
      rewrite P.
      change (Py.drop (String.length "**") (String "*" (String "*" depois)))
        with depois.
      now rewrite Hc.
    + intros _. rewrite !prefix_cons.
      destruct (Ascii.ascii_dec "*" "*") as [_|N]; [|congruence].
      destruct (Ascii.ascii_dec "_" "*") as [N|_]; [discriminate N|].
      destruct (Ascii.ascii_dec "^" "*") as [N|_]; [discriminate N|].
      destruct depois as [|c r]; [reflexivity|].
      rewrite prefix_um. destruct (Ascii.ascii_dec "*" c) as [<-|]; [|reflexivity].
      change (Py.drop (String.length "**") (String "*" (String "*" r))) with r.
      cbn [ate_nova_linha] in H. change (Ascii.eqb "*" nova_linha) with false in H.
      cbv iota in H. cbn [contem] in H. apply orb_false_iff in H.
      destruct H as [_ H].
      now rewrite (corpo_lazy_sem_par "**" r (or_introl eq_refl) H).
  - split; [|discriminate].
    change ("_" ++ depois)%string with (String "_" depois).
    rewrite !prefix_cons.
    destruct (Ascii.ascii_dec "*" "_") as [N|_]; [discriminate N|].
    destruct (Ascii.ascii_dec "_" "_") as [_|N]; [|congruence].
    destruct (Ascii.ascii_dec "^" "_") as [N|_]; [discriminate N|].
    assert (P : prefix "" depois = true) by now destruct depois.
    rewrite P.
    change (Py.drop (String.length "_") (String "_" depois)) with depois.
    rewrite Hc.
    destruct depois as [|c r]; [reflexivity|].
    rewrite prefix_um. destruct (Ascii.ascii_dec "_" c) as [<-|]; [|reflexivity].
    cbn [ate_nova_linha] in H. change (Ascii.eqb "_" nova_linha) with false in H.
    cbv iota in H. cbn [contem] in H. rewrite prefix_um in H.
    destruct (Ascii.ascii_dec "_" "_") as [_|N]; [discriminate H|congruence].
  - split; [|discriminate].
    change ("^" ++ depois)%string with (String "^" depois).
    rewrite !prefix_cons.
    destruct (Ascii.ascii_dec "*" "^") as [N|_]; [discriminate N|].
    destruct (Ascii.ascii_dec "_" "^") as [N|_]; [discriminate N|].
    destruct (Ascii.ascii_dec "^" "^") as [_|N]; [|congruence].
    assert (P : prefix "" depois = true) by now destruct depois.
    rewrite P.
    change (Py.drop (String.length "^") (String "^" depois)) with depois.
    now rewrite Hc.
Qed.

(** The matches found from a position on start at that position or
    later. *)
Lemma finditer_aux_inicio : forall s salto pos m,
  In m (finditer_aux salto pos s) -> pos <= m_start m.
Proof.
  induction s as [|c s IH]; intros salto pos m H; [destruct H|].
  cbn [finditer_aux] in H. destruct salto as [|k].
  - destruct (compiled_pattern (String c s)) as [[g n]|].
    + destruct H as [<-|H]; [cbn; lia|]. apply IH in H. lia.
    + apply IH in H. lia.
  - apply IH in H. lia.
Qed.


(** One match of the loop of [_aplicar_formatacao]: the runs written
    back are the text up to the end of the match. *)
Lemma passo_escreve : forall texto pos c s g n par last_index,
  Py.drop pos texto = String c s ->
  pos + String.length (String c s) = String.length texto ->
  compiled_pattern (String c s) = Some (g, n) ->
  last_index <= pos ->
  escreve par = substring 0 last_index texto ->
  escreve (_processar_match
             (if Nat.ltb last_index pos
              then par ++ [add_run (Py.slice texto last_index pos)]
              else par)
             texto (mkMatch pos (pos + n) g))
  = substring 0 (pos + n) texto
  /\ 1 <= n /\ pos + n <= String.length texto.
Proof.
  intros texto pos c s g n par last_index Hd Hlen E Hle Hesc.
  destruct (compiled_pattern_decompoe _ _ _ E)
    as (d & body & rest & Hg & Hs & Hn & Hc).
  assert (Hdl : 1 <= String.length d).
  { simpl in Hg. destruct Hg as [H|[H|[H|[H|[]]]]]; injection H as _ <-;
      simpl; lia. }
  assert (Hns : n <= String.length (String c s)).
  { rewrite Hs, !length_append. lia. }
  assert (Hgrupo : Py.slice texto pos (pos + n) = (d ++ body ++ d)%string).
  { unfold Py.slice. replace (pos + n - pos) with n by lia.
    rewrite substring_do_drop, Hd, Hs.
    replace n with (String.length (d ++ body ++ d)%string)
      by (rewrite !length_append; lia).
    rewrite <- !append_associativa. rewrite (append_associativa d body d).
    apply substring_do_append. }
  set (par1 := if Nat.ltb last_index pos
               then par ++ [add_run (Py.slice texto last_index pos)]
               else par).
  assert (Hesc1 : escreve par1 = substring 0 pos texto).
  { unfold par1. destruct (Nat.ltb_spec last_index pos) as [Hlt|Hge].
    - rewrite escreve_app, Hesc. cbn [escreve].
      rewrite marca_add_run, append_vazio. unfold Py.slice.
      rewrite substring_emenda. f_equal. lia.
    - replace pos with last_index by lia. exact Hesc. }
  destruct (processar_match_grupo par1 texto (mkMatch pos (pos + n) g) d body
              Hg Hc Hgrupo) as (run & Hrun & Hmarca & _ & _).
  rewrite Hrun. split; [|split; [lia|lia]].
  rewrite escreve_app, Hesc1. cbn [escreve].
  rewrite append_vazio, Hmarca, <- Hgrupo. unfold Py.slice.
  replace (pos + n - pos) with n by lia. apply substring_emenda.
Qed.

(** The loop up to a position [p] that no match reaches from before: it
    arrives at [p] with the text up to some [last_index <= p] written. *)
Lemma laco_ate : forall texto p s salto pos par last_index,
  Py.drop pos texto = s -> pos + String.length s = String.length texto ->
  pos <= p -> p < String.length texto ->
  last_index <= pos + salto -> (0 < salto -> last_index = pos + salto) ->
  last_index <= p ->
  (forall m, In m (finditer_aux salto pos s) -> m_start m < p -> m_end m <= p) ->
  escreve par = substring 0 last_index texto ->
  exists par' last_index',
    laco_matches texto (finditer_aux salto pos s) par last_index
    = laco_matches texto (finditer_aux 0 p (Py.drop p texto)) par' last_index'
    /\ last_index' <= p
    /\ escreve par' = substring 0 last_index' texto
    /\ (forall m, In m (finditer_aux salto pos s) ->
          m_end m <= p \/ In m (finditer_aux 0 p (Py.drop p texto))).
Proof.
  intros texto p s. induction s as [|c s IH];
    intros salto pos par last_index Hd Hlen Hpos Hp Hle Hsalto Hli Hm Hesc.
  - simpl in Hlen. lia.
  - destruct (Nat.eq_dec pos p) as [->|Hne].
    + assert (salto = 0) as -> by lia.
      exists par, last_index. rewrite Hd. repeat split; auto.
    + pose proof (drop_seguinte _ _ _ _ Hd) as Hd'.
      assert (Hlen' : S pos + String.length s = String.length texto)
        by (simpl in Hlen; lia).
      cbn [finditer_aux] in Hm |- *. destruct salto as [|k].
      * destruct (compiled_pattern (String c s)) as [[g n]|] eqn:E.
        -- assert (Hfim : pos + n <= p).
           { apply (Hm (mkMatch pos (pos + n) g)); [now left|cbn; lia]. }
           destruct (passo_escreve texto pos c s g n par last_index
                       Hd Hlen E ltac:(lia) Hesc) as (Hesc2 & Hn1 & Hn2).
           cbn [laco_matches m_start m_end].
           destruct (IH (n - 1) (S pos) _ (pos + n) Hd' Hlen'
                       ltac:(lia) Hp ltac:(lia) ltac:(lia) Hfim
                       (fun m H => Hm m (or_intror H)) Hesc2)
             as (par' & li' & E1 & E2 & E3 & E4).
           exists par', li'. split; [exact E1|]. split; [exact E2|].
           split; [exact E3|]. intros m [<-|H]; [left; exact Hfim|now apply E4].
        -- apply (IH 0 (S pos) par last_index Hd' Hlen'
                    ltac:(lia) Hp ltac:(lia) ltac:(lia) Hli Hm Hesc).
      * apply (IH k (S pos) par last_index Hd' Hlen'
                 ltac:(lia) Hp ltac:(lia) ltac:(lia) Hli Hm Hesc).
Qed.

(** The loop and the end of [_aplicar_formatacao] only add runs. *)
Lemma termina_acrescenta : forall texto ms par last_index,
  exists novos,
    termina texto (laco_matches texto ms par last_index) = par ++ novos.
Proof.
  intros texto ms. induction ms as [|m ms IH]; intros par last_index.
  - cbn [laco_matches termina].
    destruct (Nat.ltb last_index (String.length texto)); [eauto|].
    exists []. now rewrite app_nil_r.
  - cbn [laco_matches].
    set (par1 := if Nat.ltb last_index (m_start m)
                 then par ++ [add_run (Py.slice texto last_index (m_start m))]
                 else par).
    destruct (IH (_processar_match par1 texto m) (m_end m)) as [novos ->].
    assert (H1 : exists a, par1 = par ++ a).
    { unfold par1. destruct (Nat.ltb last_index (m_start m)); [eauto|].
      exists []. now rewrite app_nil_r. }
    destruct H1 as [a ->].
    unfold _processar_match.
    destruct (aplica_grupo formatacoes (m_grupo m) _);
      rewrite <- ?app_assoc; eauto.
Qed.

(** The loop from a position behind the text written so far: the next
    run is plain and takes the text up to that position at least. *)
Lemma laco_depois : forall texto s pos par last_index,
  Py.drop pos texto = s -> pos + String.length s = String.length texto ->
  last_index < pos ->
  exists q rs2,
    pos <= q /\ q <= String.length texto
    /\ termina texto (laco_matches texto (finditer_aux 0 pos s) par last_index)
       = par ++ add_run (substring last_index (q - last_index) texto) :: rs2.
Proof.
  intros texto s. induction s as [|c s IH]; intros pos par last_index Hd Hlen Hli.
  - simpl in Hlen. cbn [finditer_aux laco_matches termina].
    destruct (Nat.ltb_spec last_index (String.length texto)) as [_|H]; [|lia].
    exists (String.length texto), []. split; [lia|]. split; [lia|].
    rewrite substring_do_drop, substring_inteiro; [reflexivity|].
    rewrite length_drop. lia.
  - pose proof (drop_seguinte _ _ _ _ Hd) as Hd'.
    assert (Hlen' : S pos + String.length s = String.length texto)
      by (simpl in Hlen; lia).
    cbn [finditer_aux].
    destruct (compiled_pattern (String c s)) as [[g n]|] eqn:E.
    + cbn [laco_matches m_start m_end].
      destruct (Nat.ltb_spec last_index pos) as [_|H]; [|lia].
      destruct (termina_acrescenta texto (finditer_aux (n - 1) (S pos) s)
                  (_processar_match
                     (par ++ [add_run (Py.slice texto last_index pos)])
                     texto (mkMatch pos (pos + n) g)) (pos + n)) as [novos ->].
      exists pos. unfold _processar_match.
      destruct (aplica_grupo formatacoes _ _); rewrite <- ?app_assoc;
        eexists; (split; [lia|]); (split; [simpl in Hlen; lia|]); reflexivity.
    + destruct (IH (S pos) par last_index Hd' Hlen' ltac:(lia))
        as (q & rs2 & H1 & H2 & H3).
      exists q, rs2. split; [lia|]. split; [exact H2|exact H3].
Qed.


Lemma drop_do_append : forall a b, Py.drop (String.length a) (a ++ b)%string = b.
Proof.
  induction a as [|x a IH]; intros b; [now destruct b|].
  cbn [String.length String.append]. rewrite drop_tail. apply IH.
Qed.

Lemma append_cancela : forall a x y, (a ++ x)%string = (a ++ y)%string -> x = y.
Proof.
  induction a as [|c a IH]; intros x y H; [exact H|].
  cbn [String.append] in H. injection H as H. now apply IH.
Qed.

Lemma substring_corta : forall a b c s,
  a <= b -> b <= c ->
  substring a (c - a) s = (substring a (b - a) s ++ substring b (c - b) s)%string.
Proof.
  induction a as [|a IH]; intros b c s Hab Hbc.
  - rewrite !Nat.sub_0_r. rewrite substring_emenda. f_equal. lia.
  - destruct b as [|b]; [lia|]. destruct c as [|c]; [lia|].
    destruct s as [|x s].
    + cbn [substring]. reflexivity.
    + cbn [substring Nat.sub]. apply IH; lia.
Qed.

Lemma substring_apos : forall d k r,
  substring 0 (String.length d + k) (d ++ r)%string
  = (d ++ substring 0 k r)%string.
Proof.
  induction d as [|x d IH]; intros k r; [reflexivity|].
  cbn [String.length String.append Nat.add substring]. now rewrite IH.
Qed.

(** C7, amended: an opening delimiter [**], [_] or [^] without its pair
    is never matched.  When the delimiter [d] stands after [antes], no
    match that starts in [antes] goes beyond [antes], and [d] does not
    occur again in the rest of its line, no match of the compiled pattern
    touches [d], and [d] lies in one run without format, between the runs
    of the text before it and the runs of the text after it. *)
Theorem C7_delimitador_sem_par : forall antes d depois,
  In d ["**"; "_"; "^"] ->
  contem d (ate_nova_linha depois) = false ->
  (forall m, In m (finditer (antes ++ d ++ depois)) ->
             m_start m < String.length antes -> m_end m <= String.length antes) ->
  (forall m, In m (finditer (antes ++ d ++ depois)) ->
             m_end m <= String.length antes
             \/ String.length antes + String.length d <= m_start m)
  /\ exists rs1 r rs2 t1 t2,
       _aplicar_formatacao [] (antes ++ d ++ depois) = rs1 ++ r :: rs2
       /\ sem_formato r
       /\ text r = (t1 ++ d ++ t2)%string
       /\ (escreve rs1 ++ t1)%string = antes
       /\ (t2 ++ escreve rs2)%string = depois.
Proof.
  intros antes d depois Hd Hpar Hlivre.
  set (texto := (antes ++ d ++ depois)%string) in *.
  set (p := String.length antes) in *.
  assert (Hdl : 1 <= String.length d)
    by (destruct Hd as [<-|[<-|[<-|[]]]]; simpl; lia).
  assert (Hlen : String.length texto
                 = p + String.length d + String.length depois).
  { unfold texto, p. rewrite !length_append. lia. }
  assert (Hdrop : Py.drop p texto = (d ++ depois)%string)
    by apply drop_do_append.
  assert (Hdrop2 : Py.drop (p + String.length d) texto = depois).
  { unfold texto, p. rewrite <- length_append, <- append_associativa.
    apply drop_do_append. }
  assert (H0 : Py.drop 0 texto = texto) by now destruct texto.
  assert (He : escreve [] = substring 0 0 texto) by now destruct texto.
  destruct (laco_ate texto p texto 0 0 [] 0 H0 eq_refl ltac:(lia) ltac:(lia)
              ltac:(lia) ltac:(lia) ltac:(lia) Hlivre He)
    as (par' & li' & E1 & Hli & Hesc & Hms).
  fold (finditer texto) in E1, Hms.
  destruct (compiled_pattern_sem_par d depois Hd Hpar) as [Hc1 Hc2].
  assert (Hfind : finditer_aux 0 p (Py.drop p texto)
                  = finditer_aux 0 (p + String.length d) depois).
  { rewrite Hdrop. destruct Hd as [<-|[<-|[<-|[]]]].
    - change ("**" ++ depois)%string with (String "*" (String "*" depois)) in *.
      cbn [finditer_aux]. rewrite Hc1. cbn [finditer_aux].
      rewrite (Hc2 eq_refl). f_equal. simpl. lia.
    - change ("_" ++ depois)%string with (String "_" depois) in *.
      cbn [finditer_aux]. rewrite Hc1. f_equal. simpl. lia.
    - change ("^" ++ depois)%string with (String "^" depois) in *.
      cbn [finditer_aux]. rewrite Hc1. f_equal. simpl. lia. }
  rewrite Hfind in E1, Hms.
  split.
  - intros m Hm. destruct (Hms m Hm) as [H|H]; [now left|].
    right. now apply finditer_aux_inicio in H.
  - destruct (laco_depois texto depois (p + String.length d) par' li'
                Hdrop2 ltac:(lia) ltac:(lia)) as (q & rs2 & Hq1 & Hq2 & Hruns).
    rewrite <- E1 in Hruns. rewrite <- aplicar_formatacao_termina in Hruns.
    set (t1 := substring li' (p - li') texto).
    set (t2 := substring 0 (q - p - String.length d) depois).
    assert (HX : substring li' (q - li') texto = (t1 ++ d ++ t2)%string).
    { rewrite (substring_corta li' p q texto) by lia. fold t1. f_equal.
      rewrite substring_do_drop, Hdrop.
      replace (q - p) with (String.length d + (q - p - String.length d)) by lia.
      apply substring_apos. }
    assert (Hantes : (escreve par' ++ t1)%string = antes).
    { unfold t1. rewrite Hesc, substring_emenda.
      replace (li' + (p - li')) with p by lia.
      apply substring_do_append. }
    exists par', (add_run (substring li' (q - li') texto)), rs2, t1, t2.
    split; [exact Hruns|]. split; [repeat split|]. split; [exact HX|].
    split; [exact Hantes|].
    pose proof (proj1 (aplicar_formatacao_invariante texto)) as Hinv.
    rewrite Hruns, escreve_app in Hinv. cbn [escreve] in Hinv.
    rewrite marca_add_run, HX in Hinv.
    rewrite <- append_associativa, <- (append_associativa (escreve par')) in Hinv.
    rewrite Hantes in Hinv. unfold texto in Hinv.
    rewrite !append_associativa in Hinv.
    apply append_cancela in Hinv. now apply append_cancela in Hinv.
Qed.

(** C7 at the text ["**a** and **b"], whose second [**] has no pair. *)
Lemma C7_delimitador_sem_par_witness :
  (forall m, In m (finditer ("**a** and " ++ "**" ++ "b")) ->
             m_end m <= String.length "**a** and "
             \/ String.length "**a** and " + String.length "**" <= m_start m)
  /\ exists rs1 r rs2 t1 t2,
       _aplicar_formatacao [] ("**a** and " ++ "**" ++ "b") = rs1 ++ r :: rs2
       /\ sem_formato r
       /\ text r = (t1 ++ "**" ++ t2)%string
       /\ (escreve rs1 ++ t1)%string = "**a** and "
       /\ (t2 ++ escreve rs2)%string = "b".
Proof.
  apply (C7_delimitador_sem_par "**a** and " "**" "b").
  - left. reflexivity.
  - reflexivity.
  - intros m [<-|[]] _. simpl. lia.
Defined.

End DelimitadorAberto.

(** ** Paragraphs of a bulleted list *)

Section Marcadores.
Import ConfigDocx.
Local Open Scope string_scope.
Local Open Scope list_scope.

Lemma rstrip_cons : forall c s,
  Py.isspace c = false -> Py.rstrip (String c s) = String c (Py.rstrip s).
Proof.
  intros c s H. cbn [Py.rstrip]. rewrite H. now destruct (Py.rstrip s).
Qed.

Lemma rstrip_antes : forall c s,
  Py.rstrip s <> "" -> Py.rstrip (String c s) = String c (Py.rstrip s).
Proof.
  intros c s H. cbn [Py.rstrip]. now destruct (Py.rstrip s).
Qed.

Lemma rstrip_idempotente : forall s, Py.rstrip (Py.rstrip s) = Py.rstrip s.
Proof.
  induction s as [|c s IH]; [reflexivity|].
  cbn [Py.rstrip]. destruct (Py.rstrip s) as [|a r] eqn:E.
  - destruct (Py.isspace c) eqn:Ec; [reflexivity|].
    cbn [Py.rstrip]. now rewrite Ec.
  - cbn [Py.rstrip]. cbn [Py.rstrip] in IH. now rewrite IH.
Qed.

Lemma lstrip_rstrip : forall s, Py.lstrip (Py.rstrip s) = Py.rstrip (Py.lstrip s).
Proof.
  induction s as [|c s IH]; [reflexivity|].
  destruct (Py.isspace c) eqn:Ec.
  - cbn [Py.lstrip]. rewrite Ec. cbn [Py.rstrip]. rewrite Ec.
    destruct (Py.rstrip s) as [|a r] eqn:E.
    + rewrite <- IH. reflexivity.
    + cbn [Py.lstrip]. rewrite Ec. exact IH.
  - cbn [Py.lstrip]. rewrite Ec. rewrite (rstrip_cons c s Ec).
    cbn [Py.lstrip]. now rewrite Ec.
Qed.

Lemma strip_rstrip : forall s, Py.strip (Py.rstrip s) = Py.strip s.
Proof.
  intros s. unfold Py.strip. now rewrite lstrip_rstrip, rstrip_idempotente.
Qed.

(** X3: a text that starts with the marker ["* -"], or with its escaped
    form ["* \-"], becomes a paragraph of style [List Bullet] whose runs
    are those of the rest of the text, stripped of the whitespace around
    it: the marker itself never reaches a run. *)
Theorem X3_paragrafo_de_lista : forall resto,
  adicionar_paragrafo_formatado ("* -" ++ resto)%string
  = mkParagrafo (Some "List Bullet") (_aplicar_formatacao [] (Py.strip resto))
  /\ adicionar_paragrafo_formatado ("* \-" ++ resto)%string
     = mkParagrafo (Some "List Bullet") (_aplicar_formatacao [] (Py.strip resto)).
Proof.
  intros resto. unfold adicionar_paragrafo_formatado.
  assert (E1 : Py.strip ("* -" ++ resto)%string = ("* -" ++ Py.rstrip resto)%string).
  { unfold Py.strip. change ("* -" ++ resto)%string
      with (String "*" (String " " (String "-" resto))).
    cbn [Py.lstrip]. change (Py.isspace "*") with false. cbv iota.
    rewrite (rstrip_cons "*") by reflexivity.
    rewrite (rstrip_antes " ") by (rewrite rstrip_cons by reflexivity; discriminate).
    now rewrite (rstrip_cons "-") by reflexivity. }
  assert (E2 : Py.strip ("* \-" ++ resto)%string = ("* \-" ++ Py.rstrip resto)%string).
  { unfold Py.strip. change ("* \-" ++ resto)%string
      with (String "*" (String " " (String "\" (String "-" resto)))).
    cbn [Py.lstrip]. change (Py.isspace "*") with false. cbv iota.
    rewrite (rstrip_cons "*") by reflexivity.
    rewrite (rstrip_antes " ") by (rewrite rstrip_cons by reflexivity; discriminate).
    rewrite (rstrip_cons "\") by reflexivity.
    now rewrite (rstrip_cons "-") by reflexivity. }
  rewrite E1, E2. split.
  - unfold _criar_paragrafo_base, _extrair_conteudo, _eh_lista_marcador, Py.startswith.
    rewrite (prefix_do_append "* -"), orb_true_r. cbn [style runs].
    f_equal. f_equal.
    change (remove_marcador ("* -" ++ Py.rstrip resto)%string) with (Py.rstrip resto).
    apply strip_rstrip.
  - unfold _criar_paragrafo_base, _extrair_conteudo, _eh_lista_marcador, Py.startswith.
    rewrite (prefix_do_append "* \-"). cbn [orb style runs].
    f_equal. f_equal.
    change (remove_marcador ("* \-" ++ Py.rstrip resto)%string) with (Py.rstrip resto).
    apply strip_rstrip.
Qed.

End Marcadores.

(** ** Positions the table does not have *)

Section PosicoesAusentes.
Import Pandas Main.
Local Open Scope string_scope.
Local Open Scope list_scope.

(** X4: a listed position the table has no row at is passed over
    without error: for a position text of pairwise different positions,
    the positions of the filtered rows are the listed positions that occur
    in the table, in the order listed, one row each; when none occurs the
    result is empty. *)
Theorem X4_posicoes_ausentes : forall df posicoes_str ps,
  converte_posicoes posicoes_str = ps ->
  ps <> [] -> NoDup ps ->
  exists res,
    _filtrar_por_posicao df posicoes_str = Ok res
    /\ map CO_POSICAO res = filter (fun p => isin p (map CO_POSICAO df)) ps
    /\ ((forall p, In p ps -> ~ In p (map CO_POSICAO df)) -> res = []).
Proof.
  intros df posicoes_str ps Hps Hne Hnd.
  unfold _filtrar_por_posicao. rewrite Hps.
  destruct ps as [|p0 ps0] eqn:Eps; [congruence|]. rewrite <- Eps in *.
  assert (Hemp : empty ps = false) by now rewrite Eps.
  rewrite Hemp. rewrite (proj2 (is_unique_NoDup ps) Hnd).
  set (filtrado := filter (fun r => isin (CO_POSICAO r) ps) df).
  set (unicas := drop_duplicates CO_POSICAO filtrado).
  set (chave := fun a b : Linha =>
                  le_codigo (codigo ps (CO_POSICAO a)) (codigo ps (CO_POSICAO b))).
  set (presentes := filter (fun p => isin p (map CO_POSICAO df)) ps).
  exists (sort_values chave unicas). split; [reflexivity|].
  assert (Hin : forall p, In p (map CO_POSICAO (sort_values chave unicas))
                          <-> In p presentes).
  { intros p. rewrite in_map_iff. setoid_rewrite sort_values_In.
    rewrite <- in_map_iff.
    unfold unicas, drop_duplicates. rewrite drop_duplicates_aux_col.
    unfold filtrado, presentes. rewrite in_map_iff, filter_In. split.
    - intros [(r & <- & Hr) _]. apply filter_In in Hr. destruct Hr as [Hr Hp].
      split; [now apply isin_In|]. apply isin_In. now apply in_map.
    - intros [Hp Hdf]. split; [|tauto].
      apply isin_In, in_map_iff in Hdf. destruct Hdf as (r & <- & Hr).
      exists r. split; [reflexivity|].
      apply filter_In. split; [exact Hr|now apply isin_In]. }
  assert (Hmap : map CO_POSICAO (sort_values chave unicas) = presentes).
  { apply StronglySorted_unico
      with (R := fun p q => le_codigo (codigo ps p) (codigo ps q) = true).
    - intros x y Hx Hy Hxy Hyx. apply Hin in Hx, Hy.
      apply filter_In in Hx, Hy. destruct Hx as [Hx _], Hy as [Hy _].
      destruct (In_codigo _ _ Hx) as [i Hi], (In_codigo _ _ Hy) as [j Hj].
      rewrite Hi, Hj in Hxy, Hyx. simpl in Hxy, Hyx.
      apply Nat.leb_le in Hxy, Hyx.
      apply (codigo_inj ps x y i); [exact Hi|]. rewrite Hj. f_equal. lia.
    - apply StronglySorted_map. apply sort_values_sorted.
      + intros a b. apply le_codigo_total.
      + intros a b c. apply le_codigo_trans.
    - apply StronglySorted_filter. now apply codigo_ordenado.
    - apply NoDup_Permutation; [|now apply NoDup_filter|exact Hin].
      eapply Permutation_NoDup.
      + apply Permutation_map, Permutation_sym, sort_values_perm.
      + apply drop_duplicates_aux_NoDup. }
  split; [exact Hmap|].
  intros Hnone.
  assert (Hp : presentes = []).
  { unfold presentes. apply filter_nenhum. intros p Hp.
    apply isin_not_In. now apply Hnone. }
  rewrite Hp in Hmap. now destruct (sort_values chave unicas).
Qed.

End PosicoesAusentes.

(** ** The whole run: cap, years, filters in force *)

Section Corrida.
Import Pandas Main Selecao.
Local Open Scope string_scope.
Local Open Scope list_scope.

Lemma carregar_questoes_ano_invalido : forall tbl anos materias filtros e,
  tbl <> [] -> converte_anos anos = Raise e ->
  forall log, carregar_questoes tbl anos materias filtros log = (Raise e, log).
Proof.
  intros tbl anos materias filtros e Hne Hanos log.
  unfold carregar_questoes. destruct tbl as [|r0 tbl]; [congruence|].
  cbn [empty]. unfold bind, lift. now rewrite Hanos.
Qed.

Lemma converte_anos_invalido : forall anos a,
  In a anos -> Py.int_str a = None ->
  converte_anos anos = Raise (ValueError "invalid literal for int() with base 10").
Proof.
  induction anos as [|x anos IH]; intros a Hin Ha; [contradiction|].
  cbn [converte_anos]. destruct (Py.int_str x) as [z|] eqn:Ex; [|reflexivity].
  destruct Hin as [->|Hin]; [congruence|].
  now rewrite (IH a Hin Ha).
Qed.

Lemma converte_anos_app : forall a1 a2 i1 i2,
  converte_anos a1 = Ok i1 -> converte_anos a2 = Ok i2 ->
  converte_anos (a1 ++ a2) = Ok (i1 ++ i2).
Proof.
  induction a1 as [|a a1 IH]; intros a2 i1 i2 H1 H2.
  - injection H1 as <-. exact H2.
  - cbn [converte_anos app] in *. destruct (Py.int_str a) as [z|]; [|discriminate].
    destruct (converte_anos a1) as [zs|e] eqn:E; [|discriminate].
    injection H1 as <-. now rewrite (IH a2 zs i2 eq_refl H2).
Qed.

(** X9: the years are turned into integers before anything else is done
    with a loaded table, so a requested year that is not an integer
    numeral ends the run in the [ValueError] of [int], with nothing
    logged; while the table is not loaded the run ends normally, empty and
    with the error logged, whatever the years are. *)
Theorem X9_ano_que_nao_e_numeral : forall tbl anos materias filtros a log,
  In a anos -> Py.int_str a = None ->
  carregar_questoes tbl anos materias filtros log
  = match tbl with
    | [] => (Ok [], log ++ [ErroConsolidadoIndisponivel])
    | _ => (Raise (ValueError "invalid literal for int() with base 10"), log)
    end.
Proof.
  intros tbl anos materias filtros a log Hin Ha.
  destruct tbl as [|r0 tbl]; [reflexivity|].
  apply carregar_questoes_ano_invalido; [discriminate|].
  now apply (converte_anos_invalido anos a).
Qed.

Lemma globais_limite : forall df filtros q fin,
  filtrar_quantidade filtros = Some true -> quantidade filtros = Some q ->
  (0 < q)%Z ->
  resultado (_aplicar_filtros_globais df filtros) = Ok fin ->
  (Z.of_nat (length fin) <= q)%Z.
Proof.
  intros df filtros q fin Hf Hq Hpos H.
  unfold resultado, _aplicar_filtros_globais in H.
  destruct df as [|r df]; [injection H as <-; simpl; lia|].
  cbn [empty] in H. rewrite Hf, Hq in H.
  cbn [verdadeiro_bool verdadeiro_int get] in H.
  destruct (Z.eqb_spec q 0) as [->|_]; [lia|]. cbn [negb andb] in H.
  destruct (Z.gtb_spec (Z.of_nat (length (r :: df))) q) as [G|G].
  - unfold bind, logger, ret, head in H. cbn [fst] in H.
    destruct (Z.leb_spec 0 q); [|lia]. injection H as <-.
    rewrite length_firstn. lia.
  - injection H as <-. lia.
Qed.

Lemma carregar_questoes_raise : forall tbl anos materias filtros res,
  tbl <> [] ->
  resultado (carregar_questoes tbl anos materias filtros) = Ok res ->
  exists anos_int, converte_anos anos = Ok anos_int.
Proof.
  intros tbl anos materias filtros res Hne H.
  destruct (converte_anos anos) as [anos_int|e] eqn:E; [eauto|].
  unfold resultado in H.
  rewrite (carregar_questoes_ano_invalido _ _ _ _ _ Hne E) in H. discriminate.
Qed.

(** X5: with a positive quantity cap a run never returns more rows
    than the cap, whatever the other filters are. *)
Theorem X5_nunca_mais_que_o_limite : forall tbl anos materias filtros q res,
  filtrar_quantidade filtros = Some true -> quantidade filtros = Some q ->
  (0 < q)%Z ->
  resultado (carregar_questoes tbl anos materias filtros) = Ok res ->
  (Z.of_nat (length res) <= q)%Z.
Proof.
  intros tbl anos materias filtros q res Hf Hq Hpos H.
  destruct tbl as [|r0 tbl]; [injection H as <-; simpl; lia|].
  assert (Hne : r0 :: tbl <> []) by discriminate.
  destruct (carregar_questoes_raise _ _ _ _ _ Hne H) as [anos_int Hanos].
  rewrite (carregar_questoes_resultado _ _ _ _ _ Hne Hanos) in H.
  cbv zeta in H. destruct (empty _); [injection H as <-; simpl; lia|].
  destruct (resultado (laco_anos _ anos_int materias filtros [])) as [dfs|e];
    [|discriminate].
  destruct (empty dfs); [injection H as <-; simpl; lia|].
  destruct (resultado (_aplicar_filtros_globais (concat dfs) filtros))
    as [fin|e] eqn:E; [|discriminate].
  injection H as <-. rewrite numera_length.
  now apply (globais_limite (concat dfs) filtros).
Qed.

(** X7: every row a run returns comes from the table and the request:
    it is a row of the table, of a requested year, whose text is the
    [ANO] of the row, of a requested subject, and its exam code is the
    code [provas_regulares] gives for that year and a requested
    subject. *)
Theorem X7_origem_das_linhas : forall tbl anos anos_int materias filtros res,
  converte_anos anos = Ok anos_int ->
  resultado (carregar_questoes tbl anos materias filtros) = Ok res ->
  Forall (fun r => origem tbl anos_int materias (linha_ano r)) res.
Proof.
  intros tbl anos anos_int materias filtros res Hanos H.
  now apply (carregar_questoes_origem tbl anos anos_int materias filtros).
Qed.

Lemma laco_anos_acumula : forall tbl l materias filtros dfs,
  resultado (laco_anos tbl l materias filtros dfs)
  = match resultado (laco_anos tbl l materias filtros []) with
    | Ok novos => Ok (dfs ++ novos)
    | Raise e => Raise e
    end.
Proof.
  intros tbl l materias filtros. induction l as [|a l IH]; intros dfs.
  - cbn. now rewrite app_nil_r.
  - rewrite !laco_anos_passo.
    destruct (resultado (_aplicar_filtros _ (Py.str a) materias filtros))
      as [res|e]; [|reflexivity].
    destruct (negb (empty res)).
    + rewrite (IH (dfs ++ _)), (IH ([] ++ _)).
      destruct (resultado (laco_anos tbl l materias filtros [])); [|reflexivity].
      now rewrite <- app_assoc.
    + apply IH.
Qed.

Lemma laco_anos_app : forall tbl l1 l2 materias filtros dfs,
  resultado (laco_anos tbl (l1 ++ l2) materias filtros dfs)
  = match resultado (laco_anos tbl l1 materias filtros dfs) with
    | Ok d1 => resultado (laco_anos tbl l2 materias filtros d1)
    | Raise e => Raise e
    end.
Proof.
  intros tbl l1 l2 materias filtros. induction l1 as [|a l1 IH]; intros dfs;
    [reflexivity|].
  cbn [app]. rewrite !laco_anos_passo.
  destruct (resultado (_aplicar_filtros _ (Py.str a) materias filtros));
    [apply IH|reflexivity].
Qed.

Lemma globais_sem_limite : forall df filtros,
  limite_ativo filtros = false ->
  resultado (_aplicar_filtros_globais df filtros) = Ok df.
Proof.
  intros df filtros H. unfold _aplicar_filtros_globais.
  destruct (empty df); [reflexivity|].
  unfold limite_ativo in H. now rewrite H.
Qed.

(** A run without a cap: the tables of the years, one after the other,
    numbered from 1. *)
Lemma carregar_questoes_sem_limite : forall tbl anos anos_int materias filtros,
  tbl <> [] -> converte_anos anos = Ok anos_int ->
  posicoes_distintas filtros -> limite_ativo filtros = false ->
  resultado (carregar_questoes tbl anos materias filtros)
  = match resultado (laco_anos tbl anos_int materias filtros []) with
    | Ok dfs => Ok (numera 1%Z (concat dfs))
    | Raise e => Raise e
    end.
Proof.
  intros tbl anos anos_int materias filtros Hne Hanos Hpos Hlim.
  rewrite (carregar_questoes_resultado _ _ _ _ _ Hne Hanos). cbv zeta.
  destruct (filter (fun r => isin (ANO_PROVA r) anos_int) tbl) as [|x l] eqn:E.
  - cbn [empty].
    rewrite (laco_anos_vazio tbl anos_int materias filtros [] Hpos); [reflexivity|].
    intros a Ha. now apply (filtro_vazio_por_ano tbl anos_int).
  - cbn [empty]. rewrite <- E.
    rewrite laco_anos_tabela by (intros a Ha; exact Ha).
    destruct (resultado (laco_anos tbl anos_int materias filtros []))
      as [dfs|e]; [|reflexivity].
    destruct dfs as [|d dfs]; [reflexivity|]. cbn [empty].
    now rewrite globais_sem_limite.
Qed.

(** X6: without a quantity cap the years of a request are handled
    independently of each other: the rows of a run for the years [anos1]
    followed by [anos2] are the rows of the run for [anos1] followed by the
    rows of the run for [anos2], numbered anew from 1. *)
Theorem X6_anos_independentes :
  forall tbl anos1 anos2 materias filtros res1 res2,
  posicoes_distintas filtros -> limite_ativo filtros = false ->
  resultado (carregar_questoes tbl anos1 materias filtros) = Ok res1 ->
  resultado (carregar_questoes tbl anos2 materias filtros) = Ok res2 ->
  resultado (carregar_questoes tbl (anos1 ++ anos2) materias filtros)
  = Ok (numera 1%Z (map linha_ano res1 ++ map linha_ano res2)).
Proof.
  intros tbl anos1 anos2 materias filtros res1 res2 Hpos Hlim H1 H2.
  destruct tbl as [|r0 tbl].
  { injection H1 as <-. injection H2 as <-. reflexivity. }
  assert (Hne : r0 :: tbl <> []) by discriminate.
  destruct (carregar_questoes_raise _ _ _ _ _ Hne H1) as [i1 Hi1].
  destruct (carregar_questoes_raise _ _ _ _ _ Hne H2) as [i2 Hi2].
  rewrite (carregar_questoes_sem_limite _ _ _ _ _ Hne Hi1 Hpos Hlim) in H1.
  rewrite (carregar_questoes_sem_limite _ _ _ _ _ Hne Hi2 Hpos Hlim) in H2.
  rewrite (carregar_questoes_sem_limite _ _ _ _ _ Hne
             (converte_anos_app _ _ _ _ Hi1 Hi2) Hpos Hlim).
  rewrite laco_anos_app.
  destruct (resultado (laco_anos (r0 :: tbl) i1 materias filtros []))
    as [d1|e]; [|discriminate].
  rewrite laco_anos_acumula.
  destruct (resultado (laco_anos (r0 :: tbl) i2 materias filtros []))
    as [d2|e]; [|discriminate].
  injection H1 as <-. injection H2 as <-.
  now rewrite !numera_linhas, concat_app.
Qed.

Lemma filtrar_por_habilidade_pedida : forall df hs r,
  In r (filter (fun r => isin_float (CO_HABILIDADE r) (map inject_Z hs)) df) ->
  habilidade_pedida hs r.
Proof.
  intros df hs r H. apply filter_In in H. destruct H as [_ H].
  unfold isin_float in H. destruct (CO_HABILIDADE r) as [q|] eqn:E; [|discriminate].
  apply existsb_exists in H. destruct H as (x & Hx & Hq).
  apply in_map_iff in Hx. destruct Hx as (h & <- & Hh).
  exists h, q. split; [exact Hh|]. split; [exact E|]. now apply Qeq_bool_iff.
Qed.

Lemma filtrar_por_posicao_In : forall df s res r,
  _filtrar_por_posicao df s = Ok res -> converte_posicoes s <> [] ->
  In r res -> In (CO_POSICAO r) (converte_posicoes s).
Proof.
  intros df s res r H Hne Hr. unfold _filtrar_por_posicao in H.
  destruct (converte_posicoes s) as [|p ps] eqn:E; [congruence|].
  cbn [empty] in H. destruct (is_unique (p :: ps)); [|discriminate].
  injection H as <-. apply sort_values_In in Hr.
  apply drop_duplicates_aux_In in Hr. destruct Hr as [Hr _].
  apply filter_In in Hr. destruct Hr as [_ Hr]. now apply isin_In.
Qed.

(** What one year returns respects the filters in force. *)
Lemma aplicar_filtros_respeita : forall df ano materias filtros res r,
  resultado (_aplicar_filtros df ano materias filtros) = Ok res ->
  In r res -> respeita filtros r.
Proof.
  intros df ano materias filtros res r H Hr.
  destruct (obter_provas_ok ano materias) as [provas Hprov].
  rewrite (aplicar_filtros_resultado _ _ _ _ _ Hprov) in H.
  destruct (empty provas); [injection H as <-; contradiction|].
  cbv zeta in H. set (df_base := filter _ df) in H.
  set (df_hab := if _ && _ then _ else df_base) in H.
  assert (Hhab : forall x, In x df_hab -> habilidade_ativa filtros = true ->
                           habilidade_pedida (get (habilidades filtros) []) x).
  { intros x Hx Ha. unfold df_hab in Hx. unfold habilidade_ativa in Ha.
    rewrite Ha in Hx. now apply filtrar_por_habilidade_pedida in Hx. }
  unfold respeita. destruct (verdadeiro_str (posicoes filtros)) eqn:Ep.
  - split; [|split; [|discriminate]].
    + apply Hhab. now apply (filtrar_por_posicao_sub _ _ _ H).
    + intros _ Hne. now apply (filtrar_por_posicao_In _ _ _ _ H Hne).
  - destruct (get (filtrar_dificuldade filtros) true) eqn:Ed; injection H as <-.
    + apply filtrar_por_dificuldade_In in Hr. destruct Hr as [Hr Hlim].
      split; [now apply Hhab|]. split; [discriminate|]. intros _ _. exact Hlim.
    + split; [now apply Hhab|]. split; discriminate.
Qed.

Lemma laco_anos_respeita : forall df l materias filtros dfs finais,
  resultado (laco_anos df l materias filtros dfs) = Ok finais ->
  Forall (fun r => respeita filtros (linha r)) (concat dfs) ->
  Forall (fun r => respeita filtros (linha r)) (concat finais).
Proof.
  intros df l materias filtros. induction l as [|a l IH]; intros dfs finais H Hacc.
  - injection H as <-. exact Hacc.
  - rewrite laco_anos_passo in H.
    destruct (resultado (_aplicar_filtros _ (Py.str a) materias filtros))
      as [res|e] eqn:E; [|discriminate].
    apply (IH _ _ H). destruct (negb (empty res)); [|exact Hacc].
    rewrite concat_app. apply Forall_app. split; [exact Hacc|].
    cbn [concat]. rewrite app_nil_r. apply Forall_forall. intros x Hx.
    apply in_map_iff in Hx. destruct Hx as (r & <- & Hr). cbn [linha].
    now apply (aplicar_filtros_respeita _ _ _ _ _ _ E).
Qed.

(** X8: every row a run returns respects the filters in force: with the
    skill filter its skill is a number of the requested list; with a
    position text that lists positions its position is a listed one; and
    without a position text, unless the difficulty stage is switched off,
    its difficulty is within the limits, [0] and [2000] standing for no
    limit. *)
Theorem X8_filtros_respeitados : forall tbl anos materias filtros res,
  resultado (carregar_questoes tbl anos materias filtros) = Ok res ->
  Forall (fun r => respeita filtros (linha_de_num r)) res.
Proof.
  intros tbl anos materias filtros res H.
  destruct tbl as [|r0 tbl]; [injection H as <-; constructor|].
  assert (Hne : r0 :: tbl <> []) by discriminate.
  destruct (carregar_questoes_raise _ _ _ _ _ Hne H) as [anos_int Hanos].
  rewrite (carregar_questoes_resultado _ _ _ _ _ Hne Hanos) in H.
  cbv zeta in H. destruct (empty _); [injection H as <-; constructor|].
  destruct (resultado (laco_anos _ anos_int materias filtros []))
    as [dfs|e] eqn:El; [|discriminate].
  destruct (empty dfs); [injection H as <-; constructor|].
  destruct (globais_resultado (concat dfs) filtros) as (fin & Hfin & Hsub).
  rewrite Hfin in H. injection H as <-.
  pose proof (laco_anos_respeita _ _ _ _ _ _ El (Forall_nil _)) as Hall.
  rewrite Forall_forall in Hall. apply Forall_forall. intros r Hr.
  unfold linha_de_num. apply Hall, Hsub.
  rewrite <- (numera_linhas fin 1). now apply in_map.
Qed.

End Corrida.

(** ** The warnings about exams that are not found *)

Section AvisosJustificados.
Import Pandas Main Selecao.
Local Open Scope string_scope.
Local Open Scope list_scope.

Lemma laco_materias_registros : forall provas_ano ano ms provas e,
  In e (registros (laco_materias provas_ano ano ms provas)) ->
  exists m, In m ms /\ dict_get provas_ano m = None
            /\ e = AvisoMateriaNaoEncontrada m ano.
Proof.
  intros provas_ano ano ms. induction ms as [|m0 ms IH]; intros provas e H;
    [contradiction|].
  cbn [laco_materias] in H. destruct (dict_get provas_ano m0) as [c|] eqn:E.
  - destruct (IH _ _ H) as (m & Hm & Hd & He). exists m. split; [now right|auto].
  - rewrite registros_logger_bind in H by apply regular_laco_materias.
    destruct H as [<-|H].
    + exists m0. split; [now left|auto].
    + destruct (IH _ _ H) as (m & Hm & Hd & He). exists m. split; [now right|auto].
Qed.

Lemma dict_set_nao_vazio : forall {V : Type} (d : list (string * V)) k v,
  dict_set d k v <> [].
Proof.
  intros V d k v. destruct d as [|[k' v'] d]; [discriminate|].
  cbn [dict_set]. destruct (String.eqb k k'); discriminate.
Qed.

Lemma laco_materias_nao_vazio : forall provas_ano ano ms provas m,
  provas <> [] \/ (In m ms /\ dict_get provas_ano m <> None) ->
  forall finais, resultado (laco_materias provas_ano ano ms provas) = Ok finais ->
  finais <> [].
Proof.
  intros provas_ano ano ms. induction ms as [|m0 ms IH]; intros provas m H finais E.
  - injection E as <-. destruct H as [H|[[] _]]. exact H.
  - rewrite laco_materias_passo in E.
    destruct (dict_get provas_ano m0) as [c|] eqn:Ed.
    + apply (IH _ m0 (or_introl (dict_set_nao_vazio _ _ _)) _ E).
    + apply (IH provas m); [|exact E].
      destruct H as [H|[[->|Hin] Hm]]; [now left|congruence|right; now split].
Qed.

Lemma obter_provas_vazio : forall ano materias provas,
  resultado (_obter_provas_escolhidas ano materias) = Ok provas ->
  empty provas = true ->
  forall m, In m materias -> codigo_da_prova ano m = None.
Proof.
  intros ano materias provas H Hemp m Hm.
  unfold codigo_da_prova. unfold _obter_provas_escolhidas in H.
  destruct (dict_get ListaProva.provas_regulares ano) as [provas_ano|];
    [|reflexivity].
  destruct (dict_get provas_ano m) as [c|] eqn:E; [|reflexivity].
  exfalso. apply (laco_materias_nao_vazio provas_ano ano materias [] m) in H.
  - now destruct provas.
  - right. split; [exact Hm|congruence].
Qed.

Lemma obter_provas_registros : forall ano materias e,
  In e (registros (_obter_provas_escolhidas ano materias)) ->
  (e = AvisoAnoNaoEncontrado ano
   /\ dict_get ListaProva.provas_regulares ano = None)
  \/ exists m, In m materias
               /\ dict_get ListaProva.provas_regulares ano <> None
               /\ codigo_da_prova ano m = None
               /\ e = AvisoMateriaNaoEncontrada m ano.
Proof.
  intros ano materias e H. unfold codigo_da_prova.
  unfold _obter_provas_escolhidas in H.
  destruct (dict_get ListaProva.provas_regulares ano) as [provas_ano|].
  - right. destruct (laco_materias_registros _ _ _ _ _ H) as (m & Hm & Hd & He).
    exists m. repeat split; auto. discriminate.
  - left. rewrite registros_logger_bind in H by apply regular_ret.
    destruct H as [<-|[]]. now split.
Qed.

Lemma filtrar_por_habilidade_registros : forall df hs x,
  In x (registros (_filtrar_por_habilidade df hs)) ->
  x = AvisoNenhumaHabilidade hs \/ exists n, x = InfoHabilidades n.
Proof.
  intros df hs x. unfold _filtrar_por_habilidade.
  destruct (empty df); [intros []|]. cbv zeta.
  destruct (empty _); rewrite registros_logger_bind by apply regular_ret;
    intros [<-|[]]; eauto.
Qed.

(** What one year logs about exams is justified by the year and the
    subjects. *)
Lemma aplicar_filtros_avisos : forall df y materias filtros e,
  In e (registros (_aplicar_filtros df (Py.str y) materias filtros)) ->
  aviso_justificado [y] materias e.
Proof.
  intros df y materias filtros e H.
  assert (Hy : exists y', In y' [y] /\ Py.str y = Py.str y')
    by (exists y; split; [now left|reflexivity]).
  unfold _aplicar_filtros in H.
  rewrite registros_bind in H;
    [|apply regular_obter_provas
     |intros p; destruct (empty p);
      [apply regular_bind; [apply regular_logger|intros _; apply regular_ret]
      |apply regular_bind;
       [destruct (_ && _); [apply regular_filtrar_por_habilidade|apply regular_ret]
       |intros x; destruct (verdadeiro_str _); [apply regular_lift|];
        destruct (get (filtrar_dificuldade filtros) true); apply regular_ret]]].
  destruct (resultado (_obter_provas_escolhidas (Py.str y) materias))
    as [provas|ex] eqn:Eprov.
  - apply in_app_or in H. destruct H as [H|H].
    + destruct (obter_provas_registros _ _ _ H) as [[-> Hn]|(m & Hm & Hi & Hc & ->)];
        cbn [aviso_justificado]; auto.
    + destruct (empty provas) eqn:Eemp.
      * rewrite registros_logger_bind in H by apply regular_ret.
        destruct H as [<-|[]]. cbn [aviso_justificado]. split; [exact Hy|].
        now apply (obter_provas_vazio _ _ _ Eprov Eemp).
      * assert (Houtros : forall m : M (list Linha), regular m ->
                  (forall x, In x (registros m) ->
                             aviso_justificado [y] materias x) ->
                  In e (registros
                          (df_filtrado <- m ;;
                           if verdadeiro_str (posicoes filtros)
                           then lift (_filtrar_por_posicao df_filtrado
                                        (get (posicoes filtros) ""))
                           else if get (filtrar_dificuldade filtros) true
                           then ret (_filtrar_por_dificuldade df_filtrado
                                       (get (min_dif filtros) 0%Q)
                                       (get (max_dif filtros) 2000%Q))
                           else ret df_filtrado)) ->
                  aviso_justificado [y] materias e).
        { intros m Hreg Hm He. rewrite registros_bind in He;
            [|exact Hreg
             |intros x; destruct (verdadeiro_str _); [apply regular_lift|];
              destruct (get (filtrar_dificuldade filtros) true); apply regular_ret].
          destruct (resultado m) as [x|ex]; [|now apply Hm].
          apply in_app_or in He. destruct He as [He|He]; [now apply Hm|].
          destruct (verdadeiro_str _); [contradiction|].
          destruct (get (filtrar_dificuldade filtros) true); contradiction. }
        cbv zeta in H. destruct (_ && _).
        -- refine (Houtros _ (regular_filtrar_por_habilidade _ _) _ H).
           intros x Hx. apply filtrar_por_habilidade_registros in Hx.
           destruct Hx as [->|[n ->]]; exact I.
        -- refine (Houtros _ (regular_ret _) _ H). intros x [].
  - destruct (obter_provas_ok (Py.str y) materias) as [p Hp]. congruence.
Qed.

Lemma aviso_justificado_mais : forall l l' materias e,
  (forall y, In y l -> In y l') ->
  aviso_justificado l materias e -> aviso_justificado l' materias e.
Proof.
  intros l l' materias e Hl. destruct e; cbn [aviso_justificado]; try tauto.
  - intros [(y & Hy & E) H]. split; [|exact H]. exists y. auto.
  - intros [(y & Hy & E) H]. split; [|exact H]. exists y. auto.
  - intros [(y & Hy & E) H]. split; [|exact H]. exists y. auto.
Qed.

Lemma laco_anos_avisos : forall df l materias filtros dfs e,
  In e (registros (laco_anos df l materias filtros dfs)) ->
  aviso_justificado l materias e.
Proof.
  intros df l materias filtros. induction l as [|a l IH]; intros dfs e H;
    [contradiction|].
  cbn [laco_anos] in H.
  rewrite registros_bind in H;
    [|apply regular_aplicar_filtros|intros r; apply regular_laco_anos].
  assert (Ha : In e (registros (_aplicar_filtros
                                  (filter (fun r => Z.eqb (ANO_PROVA r) a) df)
                                  (Py.str a) materias filtros)) ->
               aviso_justificado (a :: l) materias e).
  { intros He. apply aplicar_filtros_avisos in He.
    apply (aviso_justificado_mais [a]); [|exact He].
    intros y [->|[]]. now left. }
  destruct (resultado (_aplicar_filtros _ (Py.str a) materias filtros))
    as [res|ex]; [|now apply Ha].
  apply in_app_or in H. destruct H as [H|H]; [now apply Ha|].
  apply (aviso_justificado_mais l); [intros y Hy; now right|].
  now apply (IH _ _ H).
Qed.

(** The warnings of a run about exams are justified by the request. *)
Lemma carregar_questoes_avisos :
  forall tbl anos anos_int materias filtros e,
  converte_anos anos = Ok anos_int ->
  In e (registros (carregar_questoes tbl anos materias filtros)) ->
  aviso_justificado anos_int materias e.
Proof.
  intros tbl anos anos_int materias filtros e Hanos H.
  destruct tbl as [|r0 tbl].
  { cbn in H. destruct H as [<-|[]]. exact I. }
  assert (Hne : r0 :: tbl <> []) by discriminate.
  revert H. unfold carregar_questoes. cbn [empty].
  unfold registros at 1, bind at 1, lift. rewrite Hanos. cbv zeta.
  destruct (empty (filter (fun r => isin (ANO_PROVA r) anos_int) (r0 :: tbl))).
  { cbn. intros [<-|[]]. exact I. }
  unfold bind at 1.
  rewrite (regular_laco_anos _ anos_int materias filtros [] []). cbn [app].
  destruct (resultado (laco_anos _ anos_int materias filtros [])) as [dfs|ex].
  - destruct (empty dfs).
    + unfold ret. cbn [snd]. intros H. now apply laco_anos_avisos in H.
    + unfold bind.
      rewrite (regular_aplicar_filtros_globais (concat dfs) filtros _).
      destruct (resultado (_aplicar_filtros_globais (concat dfs) filtros));
        unfold ret; cbn [snd]; intros H; apply in_app_or in H;
        (destruct H as [H|H]; [now apply laco_anos_avisos in H|]).
      * revert H. unfold _aplicar_filtros_globais.
        destruct (empty (concat dfs)); [intros []|].
        destruct (_ && _); [|intros []].
        destruct (_ >? _)%Z; [|intros []].
        rewrite registros_logger_bind by apply regular_ret.
        intros [<-|[]]. exact I.
      * revert H. unfold _aplicar_filtros_globais.
        destruct (empty (concat dfs)); [intros []|].
        destruct (_ && _); [|intros []].
        destruct (_ >? _)%Z; [|intros []].
        rewrite registros_logger_bind by apply regular_ret.
        intros [<-|[]]. exact I.
  - cbn [snd]. intros H. now apply laco_anos_avisos in H.
Qed.

(** X10: a run warns about the exams of a year only with reason: a
    warning that a year is not found names a requested year that
    [provas_regulares] does not have; a warning that a subject is not found
    names a requested subject and a requested year that
    [provas_regulares] has, without that subject; a warning that no exam is
    found names a requested year for which no requested subject is
    resolved. *)
Theorem X10_avisos_justificados :
  forall tbl anos anos_int materias filtros e,
  converte_anos anos = Ok anos_int ->
  In e (registros (carregar_questoes tbl anos materias filtros)) ->
  aviso_justificado anos_int materias e.
Proof.
  intros tbl anos anos_int materias filtros e Hanos H.
  now apply (carregar_questoes_avisos tbl anos anos_int materias filtros).
Qed.

End AvisosJustificados.

(** ** Numerals: [str] and [int] *)

Section Numerais.
Import PyTexto.
Local Open Scope string_scope.
Local Open Scope list_scope.

Lemma int_aux_of_uint_acc : forall d acc,
  Py.int_aux (Z.pos acc) (NilEmpty.string_of_uint d) = Z.pos (Pos.of_uint_acc d acc).
Proof.
  induction d; intros acc; cbn [NilEmpty.string_of_uint Py.int_aux Pos.of_uint_acc];
    [reflexivity|..]; rewrite <- IHd; f_equal;
    repeat match goal with
           | |- context [Z.of_nat (nat_of_ascii ?c)] =>
               let v := eval vm_compute in (Z.of_nat (nat_of_ascii c)) in
               change (Z.of_nat (nat_of_ascii c)) with v
           end;
    lia.
Qed.

Lemma int_aux_of_uint : forall d,
  Py.int_aux 0%Z (NilEmpty.string_of_uint d) = Z.of_N (Pos.of_uint d).
Proof.
  induction d; cbn [NilEmpty.string_of_uint Py.int_aux Pos.of_uint];
    [reflexivity|exact IHd|..];
    cbn [Z.of_N]; rewrite <- int_aux_of_uint_acc; f_equal.
Qed.

Lemma todos_digitos_of_uint : forall d,
  Py.todos_digitos (NilEmpty.string_of_uint d) = true.
Proof. induction d; cbn; auto. Qed.

Lemma numeral_do_positivo : forall p,
  NilZero.string_of_uint (Pos.to_uint p) = NilEmpty.string_of_uint (Pos.to_uint p)
  /\ NilEmpty.string_of_uint (Pos.to_uint p) <> "".
Proof.
  intros p. pose proof (Unsigned.to_uint_nonnil p) as Hn.
  unfold NilZero.string_of_uint.
  destruct (Pos.to_uint p); try congruence; split; try reflexivity; discriminate.
Qed.


Lemma digito_nao_espaco : forall c, Py.digito c = true -> Py.isspace c = false.
Proof.
  intros c. unfold Py.digito, Py.isspace. cbv zeta.
  destruct (Nat.leb_spec 48 (nat_of_ascii c)); [|discriminate].
  destruct (Nat.leb_spec (nat_of_ascii c) 13); [lia|].
  destruct (Nat.leb_spec (nat_of_ascii c) 32); [lia|].
  now rewrite !andb_false_r.
Qed.

Lemma digitos_sem_espaco : forall s,
  Py.todos_digitos s = true -> sem_espaco s = true.
Proof.
  induction s as [|c s IH]; [reflexivity|]. cbn [Py.todos_digitos sem_espaco].
  intros H. apply andb_true_iff in H. destruct H as [Hc Hs].
  now rewrite (digito_nao_espaco c Hc), IH.
Qed.

Lemma rstrip_sem_espaco : forall s, sem_espaco s = true -> Py.rstrip s = s.
Proof.
  induction s as [|c s IH]; [reflexivity|]. cbn [sem_espaco]. intros H.
  apply andb_true_iff in H. destruct H as [Hc Hs]. apply negb_true_iff in Hc.
  now rewrite rstrip_cons, IH.
Qed.

Lemma strip_sem_espaco : forall s, sem_espaco s = true -> Py.strip s = s.
Proof.
  intros s H. unfold Py.strip.
  assert (E : Py.lstrip s = s).
  { destruct s as [|c s]; [reflexivity|]. cbn [sem_espaco] in H.
    apply andb_true_iff in H. destruct H as [Hc _]. apply negb_true_iff in Hc.
    cbn [Py.lstrip]. now rewrite Hc. }
  rewrite E. now apply rstrip_sem_espaco.
Qed.

Lemma literal_aux_digitos : forall s,
  Py.todos_digitos s = true -> Py.literal_aux true s = Some s.
Proof.
  induction s as [|c s IH]; [reflexivity|]. cbn [Py.todos_digitos Py.literal_aux].
  intros H. apply andb_true_iff in H. destruct H as [Hc Hs].
  now rewrite Hc, (IH Hs).
Qed.

Lemma int_str_of_uint : forall d,
  d <> Decimal.Nil ->
  Py.int_str (NilEmpty.string_of_uint d) = Some (Z.of_N (Pos.of_uint d))
  /\ Py.int_str (String "-" (NilEmpty.string_of_uint d))
     = Some (- Z.of_N (Pos.of_uint d))%Z.
Proof.
  intros d Hd. pose proof (todos_digitos_of_uint d) as Hdig.
  pose proof (int_aux_of_uint d) as Hint.
  unfold Py.int_str.
  rewrite (strip_sem_espaco (NilEmpty.string_of_uint d))
    by now apply digitos_sem_espaco.
  rewrite (strip_sem_espaco (String "-" (NilEmpty.string_of_uint d)))
    by (cbn [sem_espaco]; now rewrite digitos_sem_espaco).
  unfold Py.int.
  destruct d; try congruence; cbn [NilEmpty.string_of_uint] in *;
    cbn [Py.todos_digitos] in Hdig; apply andb_true_iff in Hdig;
    destruct Hdig as [_ Hdig];
    cbn [Py.literal_aux Py.digito nat_of_ascii]; 
    cbv beta iota;
    rewrite ?(literal_aux_digitos _ Hdig); cbn [option_map];
    repeat match goal with
           | |- context [Py.digito ?c] => change (Py.digito c) with true
           end;
    cbv iota; (split; [now rewrite Hint|now rewrite Hint]).
Qed.

(** [int(str(z))] is [z]. *)
Lemma int_str_str : forall z, Py.int_str (Py.str z) = Some z.
Proof.
  intros [|p|p]; [reflexivity| |];
    unfold Py.str; cbn [Z.to_int NilZero.string_of_int];
    destruct (numeral_do_positivo p) as [E _]; rewrite E;
    destruct (int_str_of_uint (Pos.to_uint p) (Unsigned.to_uint_nonnil p)) as [H1 H2].
  - rewrite H1. now rewrite Unsigned.of_to.
  - rewrite H2. now rewrite Unsigned.of_to.
Qed.

End Numerais.

(** ** The positions of the form on their way to the filter *)

Section PosicoesDoFormulario.
Import PyTexto Entradas InterfaceEntradas Main.
Local Open Scope string_scope.
Local Open Scope list_scope.









End PosicoesDoFormulario.

(** ** The questions built from the rows *)

Section QuestoesDasLinhas.
Import Pandas Main Selecao.
Local Open Scope string_scope.
Local Open Scope list_scope.

(** The loop of [_processar_questoes] on rows numbered from [idx]: it
    appends the questions of the rows whose details are found, and logs one
    warning of missing data for each of the other rows. *)
Lemma laco_questoes_das_linhas : forall arquivos d idx questoes log,
  Forall (fun r => Py.int_str (ANO r) <> None) d ->
  exists novos,
    laco_questoes arquivos idx (numera idx d) questoes log
    = (Ok (questoes ++ questoes_das_linhas arquivos (numera idx d)), log ++ novos)
    /\ length (questoes_das_linhas arquivos (numera idx d))
       + length (filter eh_aviso_dados novos) = length d.
Proof.
  intros arquivos d. induction d as [|r d IH]; intros idx questoes log H.
  - exists []. cbn. now rewrite !app_nil_r.
  - apply Forall_cons_iff in H. destruct H as [Hr Hd].
    cbn [numera laco_questoes questoes_das_linhas]. unfold questao_da_linha at 1 2.
    cbn [linha_ano NUMERO_QUESTAO].
    destruct (Py.int_str (ANO r)) as [ano|] eqn:Ea; [|congruence].
    unfold bind at 1, carregar_detalhes_questao.
    destruct (arquivos ano (CO_POSICAO (linha r))) as [| |[|kv dados]] eqn:Earq.
    + destruct (IH (idx + 1)%Z questoes
                   ((log ++ [AvisoJsonNaoEncontrado ano (CO_POSICAO (linha r))])
                      ++ [AvisoDadosJson ano (CO_POSICAO (linha r))]) Hd)
        as (novos & E & Hn).
      exists ([AvisoJsonNaoEncontrado ano (CO_POSICAO (linha r));
               AvisoDadosJson ano (CO_POSICAO (linha r))] ++ novos).
      split.
      * unfold bind, logger, ret. cbn. rewrite E. f_equal.
        now rewrite <- !app_assoc.
      * cbn. lia.
    + destruct (IH (idx + 1)%Z questoes
                   ((log ++ [ErroJson ano (CO_POSICAO (linha r))])
                      ++ [AvisoDadosJson ano (CO_POSICAO (linha r))]) Hd)
        as (novos & E & Hn).
      exists ([ErroJson ano (CO_POSICAO (linha r));
               AvisoDadosJson ano (CO_POSICAO (linha r))] ++ novos).
      split.
      * unfold bind, logger, ret. cbn. rewrite E. f_equal.
        now rewrite <- !app_assoc.
      * cbn. lia.
    + destruct (IH (idx + 1)%Z questoes
                   (log ++ [AvisoDadosJson ano (CO_POSICAO (linha r))]) Hd)
        as (novos & E & Hn).
      exists ([AvisoDadosJson ano (CO_POSICAO (linha r))] ++ novos).
      split.
      * unfold bind, logger, ret. cbn. rewrite E. f_equal.
        now rewrite <- !app_assoc.
      * cbn. lia.
    + destruct (IH (idx + 1)%Z
                   (questoes ++ [criar_objeto_questao (mkLinhaNum idx r)
                                   (kv :: dados) idx ano]) log Hd)
        as (novos & E & Hn).
      exists novos. split.
      * unfold ret. cbn. rewrite E. now rewrite <- app_assoc.
      * cbn. lia.
Qed.

(** The rows of a run carry, as [ANO], the numeral of their own year. *)
Lemma ano_da_linha : forall tbl anos_int materias r,
  origem tbl anos_int materias r ->
  Py.int_str (ANO r) = Some (ANO_PROVA (linha r)).
Proof.
  intros tbl anos_int materias r (y & _ & Ha & _ & Hy & _).
  rewrite Ha, Hy. apply int_str_str.
Qed.

Lemma questoes_das_linhas_dados : forall arquivos df,
  Forall (fun r => Py.int_str (ANO (linha_ano r))
                   = Some (ANO_PROVA (linha_de_num r))) df ->
  map (fun q => (numero q, ano q, posicao q, nota q, gabarito q))
      (questoes_das_linhas arquivos df)
  = map (fun r => (NUMERO_QUESTAO r, ANO_PROVA (linha_de_num r),
                   CO_POSICAO (linha_de_num r), NU_PARAM_B (linha_de_num r),
                   TX_GABARITO (linha_de_num r)))
        (filter (tem_detalhes arquivos) df).
Proof.
  intros arquivos df H. induction H as [|r df Hr Hdf IH]; [reflexivity|].
  cbn [questoes_das_linhas filter]. unfold questao_da_linha, tem_detalhes.
  rewrite Hr. unfold linha_de_num.
  destruct (arquivos _ _) as [| |[|kv dados]]; try exact IH.
  cbn [map]. rewrite IH. reflexivity.
Qed.

Lemma linhas_de_uma_corrida : forall tbl anos materias filtros df,
  resultado (carregar_questoes tbl anos materias filtros) = Ok df ->
  Forall (fun r => Py.int_str (ANO (linha_ano r))
                   = Some (ANO_PROVA (linha_de_num r))) df
  /\ df = numera 1%Z (map linha_ano df).
Proof.
  intros tbl anos materias filtros df Hres.
  destruct tbl as [|r0 tbl].
  { injection Hres as <-. split; [constructor|reflexivity]. }
  assert (Hne : r0 :: tbl <> []) by discriminate.
  destruct (carregar_questoes_raise _ _ _ _ _ Hne Hres) as [anos_int Ea].
  destruct (carregar_questoes_origem _ _ _ _ _ _ Ea Hres) as [Ho Hn].
  split; [|now apply numera_inversa].
  eapply Forall_impl; [|exact Ho]. intros r. apply ano_da_linha.
Qed.

Lemma processar_questoes_de_uma_corrida :
  forall tbl arquivos anos materias filtros df log0 log,
  carregar_questoes tbl anos materias filtros log0 = (Ok df, log) ->
  Forall (fun r => Py.int_str (ANO (linha_ano r))
                   = Some (ANO_PROVA (linha_de_num r))) df
  /\ exists novos,
       _processar_questoes arquivos df log
       = (Ok (questoes_das_linhas arquivos df), log ++ novos)
       /\ length (questoes_das_linhas arquivos df)
          + length (filter eh_aviso_dados novos) = length df.
Proof.
  intros tbl arquivos anos materias filtros df log0 log H.
  assert (Hres : resultado (carregar_questoes tbl anos materias filtros) = Ok df).
  { rewrite <- (regular_fst _ log0 (regular_carregar_questoes _ _ _ _)).
    now rewrite H. }
  destruct (linhas_de_uma_corrida _ _ _ _ _ Hres) as [Hanos Eq].
  split; [exact Hanos|].
  assert (Hd : Forall (fun r => Py.int_str (ANO r) <> None) (map linha_ano df)).
  { apply Forall_forall. intros r Hr. apply in_map_iff in Hr.
    destruct Hr as (x & <- & Hx). rewrite Forall_forall in Hanos.
    rewrite (Hanos x Hx). discriminate. }
  destruct (laco_questoes_das_linhas arquivos (map linha_ano df) 1%Z [] log Hd)
    as (novos & E & Hn).
  rewrite <- Eq in E, Hn. rewrite length_map in Hn.
  exists novos. split; [exact E|exact Hn].
Qed.

(** X12: the questions assembled from the rows of a run are those of
    the rows whose details are found, in the order of the rows, and each
    carries the number, the year, the position, the difficulty and the
    answer key of its row. *)
Theorem X12_questoes_com_os_dados_das_linhas :
  forall tbl arquivos anos materias filtros df log0 log,
  carregar_questoes tbl anos materias filtros log0 = (Ok df, log) ->
  exists questoes log',
    _processar_questoes arquivos df log = (Ok questoes, log')
    /\ map (fun q => (numero q, ano q, posicao q, nota q, gabarito q)) questoes
       = map (fun r => (NUMERO_QUESTAO r, ANO_PROVA (linha_de_num r),
                        CO_POSICAO (linha_de_num r), NU_PARAM_B (linha_de_num r),
                        TX_GABARITO (linha_de_num r)))
             (filter (tem_detalhes arquivos) df).
Proof.
  intros tbl arquivos anos materias filtros df log0 log H.
  destruct (processar_questoes_de_uma_corrida _ arquivos _ _ _ _ _ _ H)
    as (Hanos & novos & E & _).
  exists (questoes_das_linhas arquivos df), (log ++ novos).
  split; [exact E|]. now apply questoes_das_linhas_dados.
Qed.

(** X13: no row of a run is lost without a trace when the questions are
    assembled: the run of [_processar_questoes] only adds to the log, and
    the questions it returns and the warnings of missing data it logs are
    together as many as the rows. *)
Theorem X13_linha_sem_detalhes_e_avisada :
  forall tbl arquivos anos materias filtros df log0 log,
  carregar_questoes tbl anos materias filtros log0 = (Ok df, log) ->
  exists questoes novos,
    _processar_questoes arquivos df log = (Ok questoes, log ++ novos)
    /\ length questoes + length (filter eh_aviso_dados novos) = length df.
Proof.
  intros tbl arquivos anos materias filtros df log0 log H.
  destruct (processar_questoes_de_uma_corrida _ arquivos _ _ _ _ _ _ H)
    as (_ & novos & E & Hn).
  now exists (questoes_das_linhas arquivos df), novos.
Qed.

End QuestoesDasLinhas.

(** ** A run started from the form *)

Section DoFormulario.
Import Pandas PyTexto Entradas InterfaceEntradas Main Selecao Avisos.
Local Open Scope string_scope.
Local Open Scope list_scope.

(** The years the form offers are numerals, and [converte_anos] reads
    each of them back. *)
Lemma converte_anos_da_lista : forall l,
  Forall (fun a => In a ANOS_DISPONIVEIS) l ->
  exists anos_int,
    converte_anos l = Ok anos_int /\ l = map Py.str anos_int.
Proof.
  induction l as [|a l IH]; intros H; [now exists []|].
  apply Forall_cons_iff in H. destruct H as [Ha Hl].
  destruct (IH Hl) as (zs & E & Hzs).
  unfold ANOS_DISPONIVEIS in Ha. apply in_map_iff in Ha.
  destruct Ha as (y & <- & _).
  exists (y :: zs). cbn [converte_anos map]. rewrite int_str_str, E.
  split; [reflexivity|]. now rewrite <- Hzs.
Qed.

Lemma materias_do_formulario : forall tela m,
  In m (_renderizar_selecao_materias tela) -> In m (map codigo todas_as_materias).
Proof.
  intros tela m. unfold _renderizar_selecao_materias.
  destruct (botao_limpar_selecao tela); [intros []|].
  destruct (botao_selecionar_todas tela); [tauto|].
  destruct (check_mat tela), (check_ling tela), (check_hum tela), (check_nat tela);
    cbn; tauto.
Qed.

(** [provas_regulares] has an exam for every year and subject the form
    offers. *)
Lemma prova_de_cada_par : forall a m,
  In a ANOS_DISPONIVEIS -> In m (map codigo todas_as_materias) ->
  codigo_da_prova a m <> None.
Proof.
  assert (H : forallb (fun a =>
                forallb (fun m => match codigo_da_prova a m with
                                  | Some _ => true
                                  | None => false
                                  end) (map codigo todas_as_materias))
                ANOS_DISPONIVEIS = true) by (vm_compute; reflexivity).
  intros a m Ha Hm. rewrite forallb_forall in H. specialize (H a Ha).
  rewrite forallb_forall in H. specialize (H m Hm).
  now destruct (codigo_da_prova a m).
Qed.



(** The skills [_processar_habilidades] reads, and when it raises. *)
Lemma laco_itens_resultado : forall itens habilidades,
  laco_itens itens habilidades
  = if numerais_no_limite itens
    then Some (habilidades
               ++ filter (fun num => (1 <=? num)%Z && (num <=? 30)%Z)
                    (map (fun item => Py.int (Py.strip item))
                         (filter (fun item => Py.isdigit (Py.strip item)) itens)))
    else None.
Proof.
  induction itens as [|item itens IH]; intros habilidades.
  - cbn [laco_itens numerais_no_limite forallb filter map].
    now rewrite app_nil_r.
  - cbn [laco_itens]. cbv zeta. cbn [filter].
    unfold numerais_no_limite. cbn [forallb]. fold (numerais_no_limite itens).
    destruct (Py.isdigit (Py.strip item)) eqn:Ed; cbn [negb orb].
    + unfold Py.int_digitos. rewrite Nat.leb_antisym.
      destruct (Nat.ltb Py.INT_MAX_STR_DIGITS (String.length (Py.strip item)));
        cbn [negb andb]; [reflexivity|].
      cbn [map filter].
      destruct ((1 <=? Py.int (Py.strip item))%Z
                && (Py.int (Py.strip item) <=? 30)%Z).
      * rewrite IH. destruct (numerais_no_limite itens); [|reflexivity].
        now rewrite <- app_assoc.
      * apply IH.
    + cbn [andb]. apply IH.
Qed.

Lemma processar_habilidades_resultado : forall texto,
  _processar_habilidades texto
  = if numerais_no_limite (Py.split (texto_limpo texto))
    then Some (conjunto
                 (filter (fun num => (1 <=? num)%Z && (num <=? 30)%Z)
                    (map (fun item => Py.int (Py.strip item))
                         (filter (fun item => Py.isdigit (Py.strip item))
                                 (Py.split (texto_limpo texto))))))
    else None.
Proof.
  intros texto. unfold _processar_habilidades. destruct texto as [|c t].
  - reflexivity.
  - rewrite laco_itens_resultado.
    now destruct (numerais_no_limite (Py.split (texto_limpo (String c t)))).
Qed.

(** What [renderizar] puts in the filters it returns. *)
Lemma renderizar_campos : forall tela filtros,
  renderizar tela = Some filtros ->
  anos filtros = _renderizar_selecao_anos tela
  /\ materias filtros = _renderizar_selecao_materias tela
  /\ filtrar_por_numero filtros = check_por_numero tela
  /\ filtrar_por_quantidade filtros
     = check_por_quantidade tela && negb (check_por_numero tela)
  /\ (forall l, numeros_questoes filtros = Some l ->
        check_por_numero tela = true
        /\ _processar_numeros_questoes (texto_numeros tela) = Some l).
Proof.
  intros tela filtros H. unfold renderizar in H. cbv zeta in H.
  destruct (if check_por_numero tela
            then _renderizar_filtro_numeros tela else Some None)
    as [numeros|] eqn:En; [|discriminate].
  destruct (if check_por_habilidade tela
            then _renderizar_filtro_habilidades tela
                   (_renderizar_selecao_materias tela)
            else Some None) as [habilidades|]; [|discriminate].
  injection H as <-. cbn.
  split; [reflexivity|]. split; [reflexivity|]. split; [reflexivity|].
  split; [reflexivity|]. intros l El.
  destruct (check_por_numero tela); [|injection En as <-; discriminate El].
  split; [reflexivity|].
  unfold _renderizar_filtro_numeros in En.
  destruct (texto_numeros tela) as [|c t];
    [injection En as <-; discriminate El|].
  destruct (_processar_numeros_questoes (String c t)) as [numeros'|];
    [|discriminate En].
  injection En as <-. exact El.
Qed.



(** X15: a request made of years and subjects the form offers never
    runs into an exam that is not found: whatever the table and the
    filters, the run logs none of the warnings about a year, a subject or
    the exams of a year that are not found. *)
Theorem X15_formulario_sem_prova_desconhecida : forall tbl tela filtros e,
  anos_da_lista tela ->
  _renderizar_selecao_materias tela <> [] ->
  In e (registros (carregar_questoes tbl (_renderizar_selecao_anos tela)
                     (_renderizar_selecao_materias tela) filtros)) ->
  aviso_de_prova e = false.
Proof.
  intros tbl tela filtros e Hanos Hmat He.
  destruct (converte_anos_da_lista _ Hanos) as (anos_int & Ea & Hstr).
  pose proof (carregar_questoes_avisos _ _ _ _ _ _ Ea He) as Hj.
  assert (Hano : forall a, (exists y, In y anos_int /\ a = Py.str y) ->
                           In a ANOS_DISPONIVEIS).
  { intros a (y & Hy & ->). unfold anos_da_lista in Hanos.
    rewrite Forall_forall in Hanos. apply Hanos.
    unfold _renderizar_selecao_anos in Hstr. rewrite Hstr. now apply in_map. }
  assert (Hidx : forall a, In a ANOS_DISPONIVEIS ->
                           dict_get ListaProva.provas_regulares a <> None).
  { intros a Ha Hn.
    apply (prova_de_cada_par a "MT" Ha); [cbn; auto|].
    unfold codigo_da_prova. now rewrite Hn. }
  destruct e as [ |x|a|a|m a|x|x|x|x y|x y|x y]; try reflexivity;
    cbn [aviso_justificado] in Hj; exfalso.
  - destruct Hj as (Hy & Hall).
    destruct (_renderizar_selecao_materias tela) as [|m ms] eqn:Em; [congruence|].
    apply (prova_de_cada_par a m (Hano _ Hy)).
    + apply (materias_do_formulario tela). rewrite Em. now left.
    + apply Hall. now left.
  - destruct Hj as (Hy & Hc). exact (Hidx _ (Hano _ Hy) Hc).
  - destruct Hj as (Hy & Hm & Hi & Hc).
    apply (prova_de_cada_par a m (Hano _ Hy)); [|exact Hc].
    now apply (materias_do_formulario tela).
Qed.

End DoFormulario.

(** ** The form: validation and skills *)

Section Formulario.
Import Pandas PyTexto Entradas InterfaceEntradas Avisos.
Local Open Scope string_scope.
Local Open Scope list_scope.

(** X16: the form never hands on the number filter together with the
    quantity cap, since ticking both switches the cap off; so the filters
    [renderizar] returns have the two never both on, and
    [entradas_avancado] never stops with the message of the last rule of
    [validar]. *)
Theorem X16_numero_e_quantidade_nunca_juntos : forall tela,
  (forall filtros,
     renderizar tela = Some filtros ->
     filtrar_por_numero filtros && filtrar_por_quantidade filtros = false)
  /\ entradas_avancado tela <> Some (inr (Some mensagem_numero_e_quantidade)).
Proof.
  intros tela.
  assert (H : forall filtros,
            renderizar tela = Some filtros ->
            filtrar_por_numero filtros && filtrar_por_quantidade filtros = false).
  { intros filtros Ef.
    destruct (renderizar_campos _ _ Ef) as (_ & _ & -> & -> & _).
    now destruct (check_por_numero tela), (check_por_quantidade tela). }
  split; [exact H|].
  unfold entradas_avancado.
  destruct (renderizar tela) as [filtros|]; [|discriminate].
  specialize (H filtros eq_refl).
  unfold validar. cbv zeta. rewrite H.
  unfold mensagem_numero_e_quantidade.
  repeat match goal with
         | |- context [if ?c then (false, _) else _] => destruct c
         end;
    intros E; cbv iota beta in E; discriminate E.
Qed.

Lemma conjunto_In : forall l h, In h (conjunto l) <-> In h l.
Proof.
  intros l h. unfold conjunto, drop_duplicates.
  pose proof (drop_duplicates_aux_col (fun z : Z => z) l [] h) as H.
  rewrite !map_id in H. rewrite H. tauto.
Qed.

Lemma conjunto_NoDup : forall l, NoDup (conjunto l).
Proof.
  intros l. unfold conjunto, drop_duplicates.
  pose proof (drop_duplicates_aux_NoDup (fun z : Z => z) l []) as H.
  now rewrite map_id in H.
Qed.

(** X17: on an ASCII text [_processar_habilidades] raises the
    [ValueError] of [int] when, once the text is put in upper case, its
    letters [H] are taken out and its commas are turned into spaces, one
    of its words is a numeral over the limit of [int]; otherwise the
    skills it returns are pairwise different numbers from 1 to 30, and a
    number is among them exactly when one of those words is a numeral of
    that number and the number is within 1..30. *)
Theorem X17_habilidades_do_texto : forall texto,
  Py.isascii texto = true ->
  if numerais_no_limite (Py.split (texto_limpo texto))
  then exists habilidades,
         _processar_habilidades texto = Some habilidades
         /\ NoDup habilidades
         /\ (forall h, In h habilidades <->
               exists item,
                 In item (Py.split (texto_limpo texto))
                 /\ Py.isdigit (Py.strip item) = true
                 /\ Py.int (Py.strip item) = h /\ (1 <= h <= 30)%Z)
         /\ Forall (fun h => (1 <= h <= 30)%Z) habilidades
  else _processar_habilidades texto = None.
Proof.
  intros texto _. rewrite processar_habilidades_resultado.
  destruct (numerais_no_limite (Py.split (texto_limpo texto))); [|reflexivity].
  eexists. split; [reflexivity|].
  assert (Hin : forall h,
            In h (conjunto
                    (filter (fun num => (1 <=? num)%Z && (num <=? 30)%Z)
                       (map (fun item => Py.int (Py.strip item))
                            (filter (fun item => Py.isdigit (Py.strip item))
                                    (Py.split (texto_limpo texto))))))
            <-> exists item,
                  In item (Py.split (texto_limpo texto))
                  /\ Py.isdigit (Py.strip item) = true
                  /\ Py.int (Py.strip item) = h /\ (1 <= h <= 30)%Z).
  { intros h. rewrite conjunto_In, filter_In, in_map_iff. split.
    - intros [(item & <- & Hi) Hr]. apply filter_In in Hi.
      destruct Hi as [Hi Hd]. apply andb_true_iff in Hr.
      destruct Hr as [H1 H2]. apply Z.leb_le in H1, H2.
      exists item. repeat split; assumption.
    - intros (item & Hi & Hd & <- & H1 & H2). split.
      + exists item. split; [reflexivity|]. apply filter_In. now split.
      + apply andb_true_iff. split; now apply Z.leb_le. }
  split; [apply conjunto_NoDup|]. split; [exact Hin|].
  apply Forall_forall. intros h Hh. apply Hin in Hh.
  destruct Hh as (item & _ & _ & _ & Hr). exact Hr.
Qed.

End Formulario.

(** ** The file name of the download *)

Section NomeDoArquivo.
Import Pandas PyTexto AplicacaoENEM.
Local Open Scope string_scope.
Local Open Scope list_scope.

Lemma leb_ltb : forall a b,
  String.leb a b = true <-> String.ltb a b = true \/ a = b.
Proof.
  intros a b. unfold String.leb, String.ltb.
  destruct (String.compare a b) eqn:E.
  - apply String.compare_eq_iff in E. tauto.
  - tauto.
  - split; [discriminate|]. intros [H| ->]; [discriminate|].
    pose proof (String.compare_antisym b b) as A. rewrite E in A. discriminate A.
Qed.

Lemma leb_total_ordenacao : forall a b,
  String.leb a b = false -> String.leb b a = true.
Proof.
  intros a b. unfold String.leb. rewrite (String.compare_antisym b a).
  now destruct (String.compare a b).
Qed.

Lemma leb_trans : forall a b c,
  String.leb a b = true -> String.leb b c = true -> String.leb a c = true.
Proof.
  intros a b c H1 H2. apply leb_ltb in H1, H2. apply leb_ltb.
  destruct H1 as [H1| ->], H2 as [H2| ->]; auto.
  left. now apply (ltb_trans a b c).
Qed.

Lemma sorted_ordenado : forall l,
  StronglySorted (fun a b => String.leb a b = true) (sorted l).
Proof.
  intros l. apply sort_values_sorted; [apply leb_total_ordenacao|apply leb_trans].
Qed.

(** The sorted list of years does not depend on the order they were
    selected in. *)
Lemma sorted_permutacao : forall l l', Permutation l l' -> sorted l = sorted l'.
Proof.
  intros l l' H.
  apply StronglySorted_unico with (R := fun a b => String.leb a b = true).
  - intros x y _ _. apply String.leb_antisym.
  - apply sorted_ordenado.
  - apply sorted_ordenado.
  - unfold sorted.
    rewrite (sort_values_perm String.leb l), H.
    symmetry. apply sort_values_perm.
Qed.

Lemma ultimo_e_maximo : forall (l : list string) d a,
  StronglySorted (fun a b => String.leb a b = true) l ->
  In a l -> String.leb a (last l d) = true.
Proof.
  intros l d a H. revert a.
  induction H as [|x l Hs IH Hx]; intros a Ha; [contradiction|].
  destruct l as [|y l].
  - destruct Ha as [<-|[]]. cbn. apply leb_ltb. now right.
  - change (last (x :: y :: l) d) with (last (y :: l) d).
    destruct Ha as [<-|Ha]; [|now apply IH].
    rewrite Forall_forall in Hx.
    apply (leb_trans _ y); [apply Hx; now left|]. apply IH. now left.
Qed.

Lemma ultimo_pertence : forall (l : list string) d, l <> [] -> In (last l d) l.
Proof.
  induction l as [|x l IH]; intros d H; [congruence|].
  destruct l as [|y l]; [now left|]. right. apply IH. discriminate.
Qed.

(** X18: the name of the file to download does not depend on the order
    in which the years were selected; for one year it carries that year,
    and for more years the first and the last of the selected years in
    ascending order of their text, each of them below or above every
    selected year. *)
Theorem X18_nome_do_arquivo : forall anos anos' num_questoes,
  Permutation anos anos' ->
  nome_arquivo anos num_questoes = nome_arquivo anos' num_questoes
  /\ (2 <= length anos ->
      exists primeiro ultimo,
        nome_arquivo anos num_questoes
        = Some ("ENEM_" ++ primeiro ++ "-" ++ ultimo ++ "_"
                ++ Py.str (Z.of_nat num_questoes) ++ "_questoes.docx")%string
        /\ In primeiro anos /\ In ultimo anos
        /\ Forall (fun a => String.leb primeiro a = true
                            /\ String.leb a ultimo = true) anos).
Proof.
  intros anos anos' n HP. split.
  - unfold nome_arquivo. rewrite (sorted_permutacao _ _ HP).
    destruct anos as [|a [|b anos]].
    + apply Permutation_nil in HP. now subst.
    + apply Permutation_length_1_inv in HP. now subst.
    + pose proof (Permutation_length HP) as Hl.
      destruct anos' as [|a' [|b' anos']]; try discriminate Hl. reflexivity.
  - intros Hlen. unfold nome_arquivo.
    destruct anos as [|a [|b anos]]; [simpl in Hlen; lia|simpl in Hlen; lia|].
    set (l := a :: b :: anos) in *.
    pose proof (sorted_ordenado l) as Hs.
    assert (Hin : forall x, In x (sorted l) <-> In x l)
      by (intros x; apply sort_values_In).
    destruct (sorted l) as [|p resto] eqn:E.
    { exfalso. apply (proj2 (Hin a)). now left. }
    exists p, (last (p :: resto) "").
    split; [cbv zeta; now rewrite !append_associativa|].
    split; [apply Hin; now left|].
    split; [apply Hin, ultimo_pertence; discriminate|].
    apply Forall_forall. intros x Hx. apply Hin in Hx. split.
    + apply StronglySorted_inv in Hs. destruct Hs as [_ Hp].
      rewrite Forall_forall in Hp. destruct Hx as [<-|Hx]; [|now apply Hp].
      apply leb_ltb. now right.
    + now apply ultimo_e_maximo.
Qed.

End NomeDoArquivo.

(** ** The year read from the text of a PDF page *)

Section AnoDaProva.
Import PDFQuestionExtractor.
Local Open Scope string_scope.
Local Open Scope list_scope.

Lemma quatro_digitos_decompoe : forall s g,
  quatro_digitos s = Some g ->
  s = (g ++ Py.drop 4 s)%string /\ String.length g = 4
  /\ Py.todos_digitos g = true.
Proof.
  intros s g H. unfold quatro_digitos in H.
  destruct s as [|a [|b [|c [|d s]]]]; try discriminate.
  destruct (Py.digito a) eqn:Ea; [|discriminate].
  destruct (Py.digito b) eqn:Eb; [|discriminate].
  destruct (Py.digito c) eqn:Ec; [|discriminate].
  destruct (Py.digito d) eqn:Ed; [|discriminate].
  injection H as <-. cbn [Py.todos_digitos]. rewrite Ea, Eb, Ec, Ed.
  split; [|split; reflexivity]. cbn. now destruct s.
Qed.

Lemma lstrip_decompoe : forall s,
  exists brancos, s = (brancos ++ Py.lstrip s)%string.
Proof.
  induction s as [|c s [b IH]]; [now exists ""|].
  cbn [Py.lstrip]. destruct (Py.isspace c).
  - exists (String c b). cbn. now rewrite <- IH.
  - now exists "".
Qed.

(** A match of either pattern captures four digits of the text. *)
Lemma casa_decompoe : forall casa s g n,
  In casa [casa_enem; casa_ano] -> casa s = Some (g, n) ->
  exists antes depois,
    s = (antes ++ g ++ depois)%string /\ String.length g = 4
    /\ Py.todos_digitos g = true.
Proof.
  intros casa s g n [<-|[<-|[]]] H.
  - unfold casa_enem in H. destruct (prefix "ENEM" s) eqn:Ep; [|discriminate].
    cbv zeta in H. destruct (Nat.ltb 0 _); [|discriminate].
    destruct (quatro_digitos (Py.lstrip (Py.drop 4 s))) as [g'|] eqn:Eq;
      [|discriminate].
    injection H as <- _.
    destruct (quatro_digitos_decompoe _ _ Eq) as (Hs & Hl & Hd).
    destruct (lstrip_decompoe (Py.drop 4 s)) as [b Hb].
    exists ("ENEM" ++ b)%string, (Py.drop 4 (Py.lstrip (Py.drop 4 s))).
    split; [|now split].
    rewrite (prefix_decompoe "ENEM" s Ep) at 1.
    change (String.length "ENEM") with 4. rewrite Hb at 1. rewrite Hs at 1.
    now rewrite !append_associativa.
  - unfold casa_ano in H. destruct (quatro_digitos s) as [g'|] eqn:Eq; [|discriminate].
    injection H as <- _.
    destruct (quatro_digitos_decompoe _ _ Eq) as (Hs & Hl & Hd).
    exists "", (Py.drop 4 s). now split.
Qed.

Lemma findall_aux_decompoe : forall casa s salto g,
  In casa [casa_enem; casa_ano] -> In g (findall_aux casa salto s) ->
  exists antes depois,
    s = (antes ++ g ++ depois)%string /\ String.length g = 4
    /\ Py.todos_digitos g = true.
Proof.
  intros casa s. induction s as [|c s IH]; intros salto g Hc H; [contradiction|].
  assert (Hresto : forall k, In g (findall_aux casa k s) ->
            exists antes depois,
              String c s = (antes ++ g ++ depois)%string /\ String.length g = 4
              /\ Py.todos_digitos g = true).
  { intros k Hk. destruct (IH k g Hc Hk) as (a & d & Hs & Hl & Hd).
    exists (String c a), d. split; [|now split]. cbn. now rewrite <- Hs. }
  cbn [findall_aux] in H. destruct salto as [|k]; [|now apply (Hresto k)].
  destruct (casa (String c s)) as [[g' n]|] eqn:E; [|now apply (Hresto 0)].
  destruct H as [<-|H]; [|now apply (Hresto (n - 1))].
  now apply (casa_decompoe casa _ _ n).
Qed.

Lemma laco_matches_ano_Some : forall matches year,
  laco_matches_ano matches = Some year ->
  (1990 <= year <= 2030)%Z /\ exists m, In m matches /\ Py.int m = year.
Proof.
  induction matches as [|m ms IH]; intros year H; [discriminate|].
  cbn [laco_matches_ano] in H. cbv zeta in H.
  destruct ((1990 <=? Py.int m)%Z && (Py.int m <=? 2030)%Z) eqn:E.
  - injection H as <-. apply andb_true_iff in E. destruct E as [E1 E2].
    apply Z.leb_le in E1, E2. split; [lia|]. exists m. split; [now left|reflexivity].
  - destruct (IH _ H) as (Hr & x & Hx & Hi). split; [exact Hr|].
    exists x. split; [now right|exact Hi].
Qed.

(** X19: a year read from the text of a page is never outside
    1990..2030, and it is never made up: its four digits stand in the
    text, one after the other. *)
Theorem X19_ano_lido_do_texto : forall text year,
  extract_year_from_text text = Some year ->
  (1990 <= year <= 2030)%Z
  /\ exists antes digitos depois,
       text = (antes ++ digitos ++ depois)%string
       /\ String.length digitos = 4
       /\ Py.todos_digitos digitos = true
       /\ Py.int digitos = year.
Proof.
  intros text year H. unfold extract_year_from_text in H.
  cbn [laco_patterns] in H.
  assert (G : forall casa, In casa [casa_enem; casa_ano] ->
            laco_matches_ano (findall casa text) = Some year ->
            (1990 <= year <= 2030)%Z
            /\ exists antes digitos depois,
                 text = (antes ++ digitos ++ depois)%string
                 /\ String.length digitos = 4
                 /\ Py.todos_digitos digitos = true
                 /\ Py.int digitos = year).
  { intros casa Hc Hm. destruct (laco_matches_ano_Some _ _ Hm) as (Hr & m & Hin & Hi).
    split; [exact Hr|].
    destruct (findall_aux_decompoe casa text 0 m Hc Hin) as (a & d & Hs & Hl & Hd).
    exists a, m, d. auto. }
  destruct (laco_matches_ano (findall casa_enem text)) as [y|] eqn:E1.
  - injection H as <-. apply (G casa_enem); [now left|exact E1].
  - destruct (laco_matches_ano (findall casa_ano text)) as [y|] eqn:E2;
      [|discriminate].
    injection H as <-. apply (G casa_ano); [right; now left|exact E2].
Qed.

End AnoDaProva.

(** ** The section properties of the document *)

Section Colunas.
Import DocumentFormatter.
Local Open Scope string_scope.
Local Open Scope list_scope.

(** X21: whatever column settings the section had, after
    [_configurar_colunas] it has exactly one [w:cols] child, the new one,
    and its other children are the ones it had, in their order;
    configuring the columns again changes nothing, and
    [configurar_documento] leaves that one [w:cols] child as well. *)
Theorem X21_uma_so_configuracao_de_colunas : forall sectPr,
  findall "w:cols" (_configurar_colunas sectPr) = [_criar_elemento_colunas]
  /\ filter (fun child => negb (String.eqb (tag_de child) "w:cols"))
            (_configurar_colunas sectPr)
     = filter (fun child => negb (String.eqb (tag_de child) "w:cols")) sectPr
  /\ _configurar_colunas (_configurar_colunas sectPr) = _configurar_colunas sectPr
  /\ findall "w:cols" (configurar_documento sectPr) = [_criar_elemento_colunas].
Proof.
  intros sectPr.
  assert (H1 : findall "w:cols"
                 (filter (fun child => negb (String.eqb (tag_de child) "w:cols"))
                         sectPr) = []).
  { unfold findall. rewrite filter_filter. apply filter_nenhum.
    intros x _. now destruct (String.eqb (tag_de x) "w:cols"). }
  assert (H2 : findall "w:cols" (_configurar_colunas sectPr)
               = [_criar_elemento_colunas]).
  { unfold _configurar_colunas. unfold findall in *. now rewrite filter_app, H1. }
  assert (H3 : _configurar_colunas (_configurar_colunas sectPr)
               = _configurar_colunas sectPr).
  { unfold _configurar_colunas.
    set (resto := filter (fun child => negb (String.eqb (tag_de child) "w:cols"))
                         sectPr).
    rewrite filter_app. cbn [filter].
    change (negb (String.eqb (tag_de _criar_elemento_colunas) "w:cols")) with false.
    cbv iota. rewrite app_nil_r. f_equal.
    unfold resto. rewrite filter_filter. apply filter_ext. intros x.
    now destruct (String.eqb (tag_de x) "w:cols"). }
  split; [exact H2|]. split; [|split; [exact H3|]].
  - unfold _configurar_colunas in H3 |- *.
    apply app_inj_tail in H3. exact (proj1 H3).
  - unfold configurar_documento, _configurar_bordas. unfold findall in *.
    rewrite filter_app, H2. reflexivity.
Qed.

End Colunas.

(** ** No requested row is lost *)

Section NadaSePerde.
Import Pandas Main Selecao.
Local Open Scope string_scope.
Local Open Scope list_scope.

Lemma dict_get_set_igual : forall {V : Type} (d : list (string * V)) k v,
  dict_get (dict_set d k v) k = Some v.
Proof.
  intros V d k v. induction d as [|[k' v'] d IH]; cbn [dict_set dict_get].
  - now rewrite String.eqb_refl.
  - destruct (String.eqb k k') eqn:E; cbn [dict_get]; rewrite E; [reflexivity|exact IH].
Qed.

Lemma dict_get_set_outro : forall {V : Type} (d : list (string * V)) k v m,
  m <> k -> dict_get (dict_set d k v) m = dict_get d m.
Proof.
  intros V d k v m Hm. induction d as [|[k' v'] d IH]; cbn [dict_set dict_get].
  - destruct (String.eqb_spec m k); [contradiction|reflexivity].
  - destruct (String.eqb_spec k k') as [->|N]; cbn [dict_get].
    + destruct (String.eqb_spec m k'); [contradiction|reflexivity].
    + destruct (String.eqb m k'); [reflexivity|exact IH].
Qed.

Lemma dict_get_values : forall {V : Type} (d : list (string * V)) k v,
  dict_get d k = Some v -> In v (values d).
Proof.
  intros V d k v. induction d as [|[k' v'] d IH]; [discriminate|].
  cbn [dict_get values map snd]. destruct (String.eqb k k').
  - intros H. injection H as <-. now left.
  - intros H. right. now apply IH.
Qed.

(** The exam of a requested subject that [provas_regulares] resolves is
    among the chosen exams. *)
Lemma laco_materias_resolve : forall provas_ano ano ms provas finais m c,
  resultado (laco_materias provas_ano ano ms provas) = Ok finais ->
  dict_get provas_ano m = Some c ->
  In m ms \/ dict_get provas m = Some c ->
  dict_get finais m = Some c.
Proof.
  intros provas_ano ano ms. induction ms as [|m0 ms IH];
    intros provas finais m c H Hc Hm.
  - injection H as <-. now destruct Hm.
  - rewrite laco_materias_passo in H.
    destruct (dict_get provas_ano m0) as [c0|] eqn:E0.
    + apply (IH _ _ m c H Hc).
      destruct (String.eqb_spec m m0) as [->|N].
      * right. rewrite E0 in Hc. injection Hc as ->. apply dict_get_set_igual.
      * destruct Hm as [[->|Hm]|Hm]; [congruence|now left|].
        right. now rewrite dict_get_set_outro.
    + apply (IH _ _ m c H Hc).
      destruct Hm as [[->|Hm]|Hm]; [congruence|now left|now right].
Qed.

Lemma obter_provas_resolve : forall ano materias provas m c,
  resultado (_obter_provas_escolhidas ano materias) = Ok provas ->
  In m materias -> codigo_da_prova ano m = Some c ->
  In c (values provas).
Proof.
  intros ano materias provas m c H Hm Hc.
  unfold _obter_provas_escolhidas in H. unfold codigo_da_prova in Hc.
  destruct (dict_get ListaProva.provas_regulares ano) as [provas_ano|];
    [|discriminate].
  apply (dict_get_values provas m).
  apply (laco_materias_resolve provas_ano ano materias [] provas m c H Hc).
  now left.
Qed.

Lemma isin_float_pedida : forall hs r,
  habilidade_pedida hs r ->
  isin_float (CO_HABILIDADE r) (map inject_Z hs) = true.
Proof.
  intros hs r (h & q & Hh & Hq & E). unfold isin_float. rewrite Hq.
  apply existsb_exists. exists (inject_Z h). split; [now apply in_map|].
  now apply Qeq_bool_iff.
Qed.

(** One year without a position text returns every row of its table
    that the request asks for. *)
Lemma aplicar_filtros_completo : forall df ano materias filtros res r,
  verdadeiro_str (posicoes filtros) = false ->
  resultado (_aplicar_filtros df ano materias filtros) = Ok res ->
  In r df -> In (SG_AREA r) materias ->
  (exists m, In m materias /\ codigo_da_prova ano m = Some (CO_PROVA r)) ->
  respeita filtros r ->
  In r res.
Proof.
  intros df ano materias filtros res r Hp H Hr Harea (m & Hm & Hc) (Hh & _ & Hd).
  destruct (obter_provas_ok ano materias) as [provas Hprov].
  rewrite (aplicar_filtros_resultado _ _ _ _ _ Hprov) in H.
  pose proof (obter_provas_resolve _ _ _ _ _ Hprov Hm Hc) as Hin.
  destruct provas as [|kv provas]; [contradiction|]. cbn [empty] in H.
  cbv zeta in H. set (df_base := filter _ df) in H.
  assert (Hbase : In r df_base).
  { apply filter_In. split; [exact Hr|]. apply andb_true_iff. split.
    - now apply isin_str_In.
    - now apply isin_In. }
  set (df_hab := if _ && _ then _ else df_base) in H.
  assert (Hhab : In r df_hab).
  { unfold df_hab. unfold habilidade_ativa in Hh. destruct (_ && _); [|exact Hbase].
    apply filter_In. split; [exact Hbase|]. now apply isin_float_pedida, Hh. }
  rewrite Hp in H.
  destruct (get (filtrar_dificuldade filtros) true) eqn:Ed; injection H as <-.
  - apply filtrar_por_dificuldade_In. split; [exact Hhab|]. now apply Hd.
  - exact Hhab.
Qed.

Lemma laco_anos_completo : forall df l materias filtros dfs finais y res r,
  resultado (laco_anos df l materias filtros dfs) = Ok finais ->
  In y l ->
  resultado (_aplicar_filtros (filter (fun x => Z.eqb (ANO_PROVA x) y) df)
               (Py.str y) materias filtros) = Ok res ->
  In r res ->
  In (mkLinhaAno (Py.str y) r) (concat finais).
Proof.
  intros df l materias filtros. induction l as [|a l IH];
    intros dfs finais y res r H Hy Hres Hr; [contradiction|].
  rewrite laco_anos_passo in H.
  destruct Hy as [->|Hy].
  - rewrite Hres in H.
    destruct (empty res) eqn:Ee; [destruct res; [contradiction|discriminate]|].
    cbn [negb] in H. rewrite laco_anos_acumula in H.
    destruct (resultado (laco_anos df l materias filtros [])) as [novos|e];
      [|discriminate].
    injection H as <-. rewrite !concat_app. apply in_or_app. left.
    apply in_or_app. right. cbn [concat]. rewrite app_nil_r.
    now apply (in_map (mkLinhaAno (Py.str y))).
  - destruct (resultado (_aplicar_filtros _ (Py.str a) materias filtros))
      as [ra|e]; [|discriminate].
    now apply (IH _ _ y res r H Hy Hres).
Qed.

(** X22: without a quantity cap and without a position text, a run
    loses no row the request asks for: every row of the table of a
    requested year and a requested subject, with the code of the reference
    exam of its year for a requested subject, that respects the skill
    filter and the difficulty limits in force, is among the rows returned,
    under the text of its year. *)
Theorem X22_nenhuma_linha_pedida_se_perde :
  forall tbl anos anos_int materias filtros res r,
  converte_anos anos = Ok anos_int ->
  limite_ativo filtros = false ->
  verdadeiro_str (posicoes filtros) = false ->
  resultado (carregar_questoes tbl anos materias filtros) = Ok res ->
  In r tbl -> pedida anos_int materias filtros r ->
  In (mkLinhaAno (Py.str (ANO_PROVA r)) r) (map linha_ano res).
Proof.
  intros tbl anos anos_int materias filtros res r Hanos Hlim Hp H Hr
         (Hy & Harea & Hm & Hresp).
  assert (Hne : tbl <> []) by (intros ->; contradiction).
  assert (Hpos : posicoes_distintas filtros) by now left.
  rewrite (carregar_questoes_sem_limite _ _ _ _ _ Hne Hanos Hpos Hlim) in H.
  destruct (resultado (laco_anos tbl anos_int materias filtros []))
    as [dfs|e] eqn:El; [|discriminate].
  injection H as <-. rewrite numera_linhas.
  destruct (aplicar_filtros_ok
              (filter (fun x => Z.eqb (ANO_PROVA x) (ANO_PROVA r)) tbl)
              (Py.str (ANO_PROVA r)) materias filtros Hpos) as [ry Hry].
  apply (laco_anos_completo _ _ _ _ _ _ _ ry r El Hy Hry).
  apply (aplicar_filtros_completo _ _ _ _ _ _ Hp Hry); auto.
  apply filter_In. split; [exact Hr|apply Z.eqb_refl].
Qed.

End NadaSePerde.

(** ** The skills of a request count as a set *)

Section HabilidadesComoConjunto.
Import Pandas Main Selecao.
Local Open Scope string_scope.
Local Open Scope list_scope.

Lemma isin_float_mesmos : forall x hs hs',
  (forall h : Z, In h hs <-> In h hs') ->
  isin_float x (map inject_Z hs) = isin_float x (map inject_Z hs').
Proof.
  intros x hs hs' H. unfold isin_float. destruct x as [q|]; [|reflexivity].
  apply eq_true_iff_eq. rewrite !existsb_exists. split.
  - intros (y & Hy & E). apply in_map_iff in Hy. destruct Hy as (h & <- & Hh).
    exists (inject_Z h). split; [apply in_map; now apply H|exact E].
  - intros (y & Hy & E). apply in_map_iff in Hy. destruct Hy as (h & <- & Hh).
    exists (inject_Z h). split; [apply in_map; now apply H|exact E].
Qed.

Lemma aplicar_filtros_mesmas_habilidades : forall df ano materias filtros hs hs',
  (forall h : Z, In h hs <-> In h hs') ->
  resultado (_aplicar_filtros df ano materias (com_habilidades (Some hs) filtros))
  = resultado (_aplicar_filtros df ano materias (com_habilidades (Some hs') filtros)).
Proof.
  intros df ano materias filtros hs hs' H.
  destruct (obter_provas_ok ano materias) as [provas Hprov].
  rewrite !(aplicar_filtros_resultado _ _ _ _ _ Hprov).
  destruct (empty provas); [reflexivity|].
  cbn [com_habilidades filtrar_habilidade habilidades posicoes filtrar_dificuldade
       min_dif max_dif get].
  assert (Hv : verdadeiro_lista (Some hs) = verdadeiro_lista (Some hs')).
  { destruct hs as [|h hs], hs' as [|h' hs']; try reflexivity; exfalso.
    - apply (proj2 (H h')). now left.
    - apply (proj1 (H h)). now left. }
  rewrite Hv.
  rewrite (filter_ext _ _ (fun r => isin_float_mesmos (CO_HABILIDADE r) hs hs' H)).
  reflexivity.
Qed.

Lemma laco_anos_mesmas_habilidades : forall df l materias filtros hs hs' dfs,
  (forall h : Z, In h hs <-> In h hs') ->
  resultado (laco_anos df l materias (com_habilidades (Some hs) filtros) dfs)
  = resultado (laco_anos df l materias (com_habilidades (Some hs') filtros) dfs).
Proof.
  intros df l materias filtros hs hs' dfs H. revert dfs.
  induction l as [|a l IH]; intros dfs; [reflexivity|].
  rewrite !laco_anos_passo.
  rewrite (aplicar_filtros_mesmas_habilidades _ _ _ _ hs hs' H).
  destruct (resultado (_aplicar_filtros _ _ _ _)); [apply IH|reflexivity].
Qed.

(** X20: the skills of a request count as a set: two runs that differ
    only in the list of skills end alike, with the same rows in the same
    order or in the same exception, when the two lists hold the same
    numbers, in whatever order and however often. *)
Theorem X20_habilidades_como_conjunto :
  forall tbl anos materias filtros hs hs',
  (forall h : Z, In h hs <-> In h hs') ->
  resultado (carregar_questoes tbl anos materias (com_habilidades (Some hs) filtros))
  = resultado (carregar_questoes tbl anos materias
                 (com_habilidades (Some hs') filtros)).
Proof.
  intros tbl anos materias filtros hs hs' H.
  destruct tbl as [|r0 tbl]; [reflexivity|].
  assert (Hne : r0 :: tbl <> []) by discriminate.
  destruct (converte_anos anos) as [anos_int|e] eqn:Ea.
  - rewrite !(carregar_questoes_resultado _ _ _ _ _ Hne Ea). cbv zeta.
    destruct (empty _); [reflexivity|].
    rewrite (laco_anos_mesmas_habilidades _ _ _ _ hs hs' [] H).
    reflexivity.
  - unfold resultado.
    now rewrite !(carregar_questoes_ano_invalido _ _ _ _ _ Hne Ea).
Qed.

End HabilidadesComoConjunto.

(** ** The properties above at concrete inputs *)

Section MaisConcretos.
Import Pandas PyTexto Entradas InterfaceEntradas AplicacaoENEM PDFQuestionExtractor.
Import Main Exemplos Selecao Avisos MaisExemplos.
Local Open Scope string_scope.
Local Open Scope list_scope.

(** X4 at [tabela_posicoes], which has no row at position 9. *)
Lemma X4_posicoes_ausentes_witness :
  exists res,
    _filtrar_por_posicao tabela_posicoes "7 9 5" = Ok res
    /\ map CO_POSICAO res
       = filter (fun p => isin p (map CO_POSICAO tabela_posicoes)) [7; 9; 5]%Z
    /\ ((forall p, In p [7; 9; 5]%Z -> ~ In p (map CO_POSICAO tabela_posicoes)) ->
        res = []).
Proof.
  apply (X4_posicoes_ausentes tabela_posicoes "7 9 5" [7; 9; 5]%Z).
  - reflexivity.
  - discriminate.
  - repeat constructor; simpl; lia.
Defined.

(** X5 at two rows and a cap of one. *)
Lemma X5_nunca_mais_que_o_limite_witness :
  (Z.of_nat (length [mkLinhaNum 1 (mkLinhaAno "2020"
                       (linha_de 2020 "MT" 587 136 (Some (inject_Z 1))))]) <= 1)%Z.
Proof.
  apply (X5_nunca_mais_que_o_limite tabela_duas_linhas ["2020"] ["MT"]
           (filtros_quantidade 1) 1%Z).
  - reflexivity.
  - reflexivity.
  - lia.
  - vm_compute. reflexivity.
Defined.

(** X6 at the years 2020 and 2021 of [tabela_um_por_ano]. *)
Lemma X6_anos_independentes_witness :
  resultado (carregar_questoes tabela_um_por_ano (["2020"] ++ ["2021"]) ["MT"]
               filtros_vazios)
  = Ok (numera 1%Z (map linha_ano questoes_de_2020 ++ map linha_ano questoes_de_2021)).
Proof.
  apply (X6_anos_independentes tabela_um_por_ano ["2020"] ["2021"] ["MT"]
           filtros_vazios questoes_de_2020 questoes_de_2021).
  - left. reflexivity.
  - reflexivity.
  - vm_compute. reflexivity.
  - vm_compute. reflexivity.
Defined.

(** X7 at the run over [tabela_duas_linhas]. *)
Lemma X7_origem_das_linhas_witness :
  Forall (fun r => origem tabela_duas_linhas [2020%Z] ["MT"] (linha_ano r))
         questoes_duas_linhas.
Proof.
  apply (X7_origem_das_linhas tabela_duas_linhas ["2020"] [2020%Z] ["MT"]
           filtros_vazios questoes_duas_linhas).
  - reflexivity.
  - vm_compute. reflexivity.
Defined.

(** X8 at a run with the skill filter. *)
Lemma X8_filtros_respeitados_witness :
  Forall (fun r => respeita filtros_habilidade (linha_de_num r)) questoes_duas_linhas.
Proof.
  apply (X8_filtros_respeitados tabela_duas_linhas ["2020"] ["MT"]
           filtros_habilidade questoes_duas_linhas).
  vm_compute. reflexivity.
Defined.

(** X9 at a request with the year ["x"]. *)
Lemma X9_ano_que_nao_e_numeral_witness :
  carregar_questoes tabela_duas_linhas ["2020"; "x"] ["MT"] filtros_vazios []
  = match tabela_duas_linhas with
    | [] => (Ok [], [] ++ [ErroConsolidadoIndisponivel])
    | _ => (Raise (ValueError "invalid literal for int() with base 10"), [])
    end.
Proof.
  apply (X9_ano_que_nao_e_numeral tabela_duas_linhas ["2020"; "x"] ["MT"]
           filtros_vazios "x" []).
  - right. left. reflexivity.
  - reflexivity.
Defined.

(** X10 at the warning of [materia_desconhecida_exemplo]. *)
Lemma X10_avisos_justificados_witness :
  aviso_justificado [2020%Z] ["MT"; "XX"] (AvisoMateriaNaoEncontrada "XX" "2020").
Proof.
  apply (X10_avisos_justificados tabela_duas_linhas ["2020"] [2020%Z] ["MT"; "XX"]
           filtros_vazios).
  - reflexivity.
  - vm_compute. left. reflexivity.
Defined.


(** X12 at two rows, the details of the first one missing. *)
Lemma X12_questoes_com_os_dados_das_linhas_witness :
  exists questoes log',
    _processar_questoes arquivos_sem_136 questoes_duas_linhas [] = (Ok questoes, log')
    /\ map (fun q => (numero q, ano q, posicao q, nota q, gabarito q)) questoes
       = map (fun r => (NUMERO_QUESTAO r, ANO_PROVA (linha_de_num r),
                        CO_POSICAO (linha_de_num r), NU_PARAM_B (linha_de_num r),
                        TX_GABARITO (linha_de_num r)))
             (filter (tem_detalhes arquivos_sem_136) questoes_duas_linhas).
Proof.
  apply (X12_questoes_com_os_dados_das_linhas tabela_duas_linhas arquivos_sem_136
           ["2020"] ["MT"] filtros_vazios questoes_duas_linhas [] []).
  vm_compute. reflexivity.
Defined.

(** X13 at the same two rows. *)
Lemma X13_linha_sem_detalhes_e_avisada_witness :
  exists questoes novos,
    _processar_questoes arquivos_sem_136 questoes_duas_linhas []
    = (Ok questoes, [] ++ novos)
    /\ length questoes + length (filter eh_aviso_dados novos)
       = length questoes_duas_linhas.
Proof.
  apply (X13_linha_sem_detalhes_e_avisada tabela_duas_linhas arquivos_sem_136
           ["2020"] ["MT"] filtros_vazios questoes_duas_linhas [] []).
  vm_compute. reflexivity.
Defined.


(** X15 at [tela_de_2020] and the information a cap of one logs. *)
Lemma X15_formulario_sem_prova_desconhecida_witness :
  aviso_de_prova (InfoLimitado 1) = false.
Proof.
  apply (X15_formulario_sem_prova_desconhecida tabela_duas_linhas tela_de_2020
           (filtros_quantidade 1)).
  - constructor; [|constructor]. vm_compute. do 11 right. left. reflexivity.
  - discriminate.
  - vm_compute. left. reflexivity.
Defined.

(** X16 at [tela_de_2020]. *)
Lemma X16_numero_e_quantidade_nunca_juntos_witness :
  (forall filtros,
     renderizar tela_de_2020 = Some filtros ->
     filtrar_por_numero filtros && filtrar_por_quantidade filtros = false)
  /\ entradas_avancado tela_de_2020
     <> Some (inr (Some mensagem_numero_e_quantidade)).
Proof.
  exact (X16_numero_e_quantidade_nunca_juntos tela_de_2020).
Defined.

(** X17 at a text with the letter H, a comma, a repetition and a number
    out of range. *)
Lemma X17_habilidades_do_texto_witness :
  Py.isascii "H21, h22 21 31" = true
  /\ exists habilidades,
       _processar_habilidades "H21, h22 21 31" = Some habilidades
       /\ NoDup habilidades
       /\ (forall h, In h habilidades <->
             exists item,
               In item (Py.split (texto_limpo "H21, h22 21 31"))
               /\ Py.isdigit (Py.strip item) = true
               /\ Py.int (Py.strip item) = h /\ (1 <= h <= 30)%Z)
       /\ Forall (fun h => (1 <= h <= 30)%Z) habilidades.
Proof.
  split; [reflexivity|].
  exact (X17_habilidades_do_texto "H21, h22 21 31" eq_refl).
Defined.

(** X18 at the years 2021 and 2020, in the two orders. *)
Lemma X18_nome_do_arquivo_witness :
  nome_arquivo ["2021"; "2020"] 3 = nome_arquivo ["2020"; "2021"] 3
  /\ (2 <= length ["2021"; "2020"] ->
      exists primeiro ultimo,
        nome_arquivo ["2021"; "2020"] 3
        = Some ("ENEM_" ++ primeiro ++ "-" ++ ultimo ++ "_"
                ++ Py.str (Z.of_nat 3) ++ "_questoes.docx")%string
        /\ In primeiro ["2021"; "2020"] /\ In ultimo ["2021"; "2020"]
        /\ Forall (fun a => String.leb primeiro a = true
                            /\ String.leb a ultimo = true) ["2021"; "2020"]).
Proof.
  apply (X18_nome_do_arquivo ["2021"; "2020"] ["2020"; "2021"] 3).
  apply perm_swap.
Defined.

(** X19 at the heading of a page. *)
Lemma X19_ano_lido_do_texto_witness :
  (1990 <= 2020 <= 2030)%Z
  /\ exists antes digitos depois,
       "Prova do ENEM 2020, dia 1" = (antes ++ digitos ++ depois)%string
       /\ String.length digitos = 4
       /\ Py.todos_digitos digitos = true
       /\ Py.int digitos = 2020%Z.
Proof.
  apply (X19_ano_lido_do_texto "Prova do ENEM 2020, dia 1" 2020%Z).
  vm_compute. reflexivity.
Defined.

(** X20 at the skill 1, listed once and twice. *)
Lemma X20_habilidades_como_conjunto_witness :
  resultado (carregar_questoes tabela_duas_linhas ["2020"] ["MT"]
               (com_habilidades (Some [1; 1]%Z) filtros_habilidade))
  = resultado (carregar_questoes tabela_duas_linhas ["2020"] ["MT"]
                 (com_habilidades (Some [1%Z]) filtros_habilidade)).
Proof.
  apply (X20_habilidades_como_conjunto tabela_duas_linhas ["2020"] ["MT"]
           filtros_habilidade [1; 1]%Z [1%Z]).
  intros h. simpl. tauto.
Defined.

(** X22 at the first row of [tabela_duas_linhas]. *)
Lemma X22_nenhuma_linha_pedida_se_perde_witness :
  In (mkLinhaAno (Py.str (ANO_PROVA (linha_de 2020 "MT" 587 136 (Some (inject_Z 1)))))
                 (linha_de 2020 "MT" 587 136 (Some (inject_Z 1))))
     (map linha_ano questoes_duas_linhas).
Proof.
  apply (X22_nenhuma_linha_pedida_se_perde tabela_duas_linhas ["2020"] [2020%Z]
           ["MT"] filtros_vazios questoes_duas_linhas).
  - reflexivity.
  - reflexivity.
  - reflexivity.
  - vm_compute. reflexivity.
  - left. reflexivity.
  - split; [now left|]. split; [now left|]. split.
    + exists "MT". split; [now left|reflexivity].
    + split; [discriminate|]. split; [discriminate|].
      intros _ _. left. split; reflexivity.
Defined.

End MaisConcretos.
